(** * PC-Bot: filter engine, compatibility rule engine and power estimator

    A shallow embedding of [tools/querytools.py], [tools/check_compatibility.py]
    and [tools/power_consumption.py].

    Python values are kept dynamically typed ([pyval]); every operation that can
    raise in Python returns a [result].  Floats are IEEE binary64 (the kernel's
    primitive floats), integers are unbounded ([Z]).  A Python [str] is modelled
    as a byte string: case mapping, [\d] and white space are the ASCII ones,
    which are Python's on ASCII text; a property that depends on them beyond
    ASCII is stated for ASCII text ([ascii_text]).
    Dictionaries are association lists in insertion order.  Values are
    compared by value (no object identity), the interpreter's limit on the
    digits of an integer converted from or to text is left out, and console
    output ([print]) is not modelled.

    What the interpreter prints for a float or a quoted string, the [json]
    module and the adjudicator are parameters ([PyBuiltins], [Adjudicator]). *)

From Stdlib Require Import ZArith List String Ascii Bool DecimalString.
From Stdlib Require Import PrimFloat SpecFloat FloatOps FloatAxioms.
From Stdlib Require Import Lia.
Import ListNotations.

Set Warnings "-inexact-float,-register-all".
Local Open Scope string_scope.
Local Open Scope Z_scope.

(** ** Exceptions and the error monad *)

Inductive exn : Type :=
| KeyError (key : string)
| TypeError
| AttributeError
| ValueError
| OverflowError
| JSONDecodeError
| RecursionError.

Inductive result (A : Type) : Type :=
| Ok (a : A)
| Raise (e : exn).

Arguments Ok {A} a.
Arguments Raise {A} e.

Definition bind {A B : Type} (m : result A) (k : A -> result B) : result B :=
  match m with
  | Ok a => k a
  | Raise e => Raise e
  end.

Notation "x <- m ;; k" := (bind m (fun x => k))
  (at level 61, m at next level, right associativity).
Notation "' p <- m ;; k" := (bind m (fun x => let p := x in k))
  (at level 61, p pattern, m at next level, right associativity).

(** [r] does not raise [json.JSONDecodeError]. *)
Definition no_json_error {A : Type} (r : result A) : Prop :=
  r <> Raise JSONDecodeError.

(** ** Python values (what [json.loads] can produce) *)

Inductive pyval : Type :=
| PNone
| PBool (b : bool)
| PInt (n : Z)
| PFloat (f : float)
| PStr (s : string)
| PList (l : list pyval)
| PDict (d : list (string * pyval)).

(** A dictionary with string keys, in insertion order. *)
Definition dict : Type := list (string * pyval).

Fixpoint dict_get {V : Type} (d : list (string * V)) (k : string) : option V :=
  match d with
  | [] => None
  | (k', v) :: d' => if String.eqb k' k then Some v else dict_get d' k
  end.

Definition dict_mem {V : Type} (d : list (string * V)) (k : string) : bool :=
  match dict_get d k with Some _ => true | None => false end.

(** [d[k] = v]: overwrite in place, or append a new key. *)
Fixpoint dict_set {V : Type} (d : list (string * V)) (k : string) (v : V)
  : list (string * V) :=
  match d with
  | [] => [(k, v)]
  | (k', v') :: d' =>
      if String.eqb k' k then (k', v) :: d' else (k', v') :: dict_set d' k v
  end.

(** [d[k]] on a dictionary. *)
Definition dict_item (d : dict) (k : string) : result pyval :=
  match dict_get d k with
  | Some v => Ok v
  | None => Raise (KeyError k)
  end.

(** Nested induction on values. *)
Section PyvalInduction.
Variable P : pyval -> Prop.
Hypothesis HNone : P PNone.
Hypothesis HBool : forall b, P (PBool b).
Hypothesis HInt : forall n, P (PInt n).
Hypothesis HFloat : forall x, P (PFloat x).
Hypothesis HStr : forall s, P (PStr s).
Hypothesis HList : forall l, Forall P l -> P (PList l).
Hypothesis HDict : forall d, Forall (fun kv => P (snd kv)) d -> P (PDict d).

Fixpoint pyval_nested_ind (v : pyval) : P v :=
  match v with
  | PNone => HNone
  | PBool b => HBool b
  | PInt n => HInt n
  | PFloat x => HFloat x
  | PStr s => HStr s
  | PList l =>
      HList l ((fix go (l : list pyval) : Forall P l :=
                  match l with
                  | [] => Forall_nil P
                  | x :: xs => Forall_cons x (pyval_nested_ind x) (go xs)
                  end) l)
  | PDict d =>
      HDict d ((fix go (d : list (string * pyval))
                 : Forall (fun kv => P (snd kv)) d :=
                  match d with
                  | [] => Forall_nil _
                  | (k, x) :: r =>
                      @Forall_cons _ (fun kv => P (snd kv)) (k, x) r
                                   (pyval_nested_ind x) (go r)
                  end) d)
  end.
End PyvalInduction.

(** ** Strings *)

Definition dquote : string := String (ascii_of_nat 34) EmptyString.

Definition is_digit (c : ascii) : bool :=
  let n := N_of_ascii c in (48 <=? n)%N && (n <=? 57)%N.

Definition is_lower (c : ascii) : bool :=
  let n := N_of_ascii c in (97 <=? n)%N && (n <=? 122)%N.

Definition is_upper (c : ascii) : bool :=
  let n := N_of_ascii c in (65 <=? n)%N && (n <=? 90)%N.

Definition is_space (c : ascii) : bool :=
  let n := N_of_ascii c in ((9 <=? n)%N && (n <=? 13)%N) || (n =? 32)%N.

Definition lower_char (c : ascii) : ascii :=
  if is_upper c then ascii_of_N (N_of_ascii c + 32) else c.

Definition upper_char (c : ascii) : ascii :=
  if is_lower c then ascii_of_N (N_of_ascii c - 32) else c.

Fixpoint map_string (f : ascii -> ascii) (s : string) : string :=
  match s with
  | EmptyString => EmptyString
  | String c s' => String (f c) (map_string f s')
  end.

Fixpoint filter_string (p : ascii -> bool) (s : string) : string :=
  match s with
  | EmptyString => EmptyString
  | String c s' => if p c then String c (filter_string p s') else filter_string p s'
  end.

(** [s.lower()], [s.upper()] of an ASCII text; other bytes are left as they
    are, where Python maps the letters of every script. *)
Definition lower (s : string) : string := map_string lower_char s.
Definition upper (s : string) : string := map_string upper_char s.

(** [s.replace(' ', '')] *)
Definition remove_spaces (s : string) : string :=
  filter_string (fun c => negb (Ascii.eqb c " "%char)) s.

(** [s.startswith(p)] *)
Definition startswith (s p : string) : bool := String.prefix p s.

(** [s[n:]] *)
Fixpoint drop (n : nat) (s : string) : string :=
  match n, s with
  | O, _ => s
  | S n', String _ s' => drop n' s'
  | S _, EmptyString => EmptyString
  end.

(** [p in s] for two strings *)
Fixpoint is_substring (p s : string) : bool :=
  String.prefix p s ||
  match s with
  | EmptyString => false
  | String _ s' => is_substring p s'
  end.

(** [s.split(sep)] for a one-character separator *)
Fixpoint split_on (sep : ascii) (s : string) : list string :=
  match s with
  | EmptyString => [EmptyString]
  | String c s' =>
      if Ascii.eqb c sep then EmptyString :: split_on sep s'
      else match split_on sep s' with
           | [] => [String c EmptyString]
           | w :: ws => String c w :: ws
           end
  end.

(** [sep.join(l)] *)
Definition join (sep : string) (l : list string) : string := String.concat sep l.

(** bytewise lexicographic order ([<] on two strings) *)
Fixpoint string_ltb (a b : string) : bool :=
  match a, b with
  | _, EmptyString => false
  | EmptyString, String _ _ => true
  | String x a', String y b' =>
      match N.compare (N_of_ascii x) (N_of_ascii y) with
      | Lt => true
      | Gt => false
      | Eq => string_ltb a' b'
      end
  end.

(** *** The regular expressions of the source *)

(** [re.sub(r'[^a-z0-9]', '', s)] *)
Definition sub_non_alnum (s : string) : string :=
  filter_string (fun c => is_lower c || is_digit c) s.

(** the longest prefix of digits, and what follows it *)
Fixpoint span_digits (s : string) : string * string :=
  match s with
  | String c s' =>
      if is_digit c then let (d, r) := span_digits s' in (String c d, r)
      else (EmptyString, s)
  | EmptyString => (EmptyString, EmptyString)
  end.

(** [re.search(r'\d+', s)]: the matched text, if any.  The digits are the
    ASCII ones; [\d] also matches the decimal digits of other scripts. *)
Fixpoint search_digits (s : string) : option string :=
  match s with
  | EmptyString => None
  | String c s' =>
      if is_digit c then Some (fst (span_digits s)) else search_digits s'
  end.

(** does [s] start with a match of [ddr[345]]? *)
Definition ddr_at (s : string) : option string :=
  match s with
  | String c1 (String c2 (String c3 (String c4 _))) =>
      if Ascii.eqb c1 "d" && Ascii.eqb c2 "d" && Ascii.eqb c3 "r" &&
         (Ascii.eqb c4 "3" || Ascii.eqb c4 "4" || Ascii.eqb c4 "5")
      then Some (String c1 (String c2 (String c3 (String c4 EmptyString))))
      else None
  | _ => None
  end.

(** [re.findall(r'ddr[345]', s)]: the matches from left to right, not
    overlapping.  A match is four characters long and no match starts inside
    another one, so scanning character by character finds the same list. *)
Fixpoint findall_ddr (s : string) : list string :=
  match s with
  | EmptyString => []
  | String _ s' =>
      match ddr_at s with
      | Some m => m :: findall_ddr s'
      | None => findall_ddr s'
      end
  end.

(** [re.search(r'ddr[345]', s)] *)
Definition search_ddr (s : string) : option string := hd_error (findall_ddr s).

(** [int(s)] for a string of digits *)
Definition int_of_digits (s : string) : Z :=
  (fix go (acc : Z) (s : string) : Z :=
     match s with
     | EmptyString => acc
     | String c s' => go (10 * acc + (Z.of_N (N_of_ascii c) - 48)) s'
     end) 0 s.

(** ** Numbers *)

(** The float nearest to [n/d] (ties to even), infinite on overflow. *)
Definition SF_of_ratio (neg : bool) (n d : positive) : spec_float :=
  let s := Z.max 0 (Zdigits2 (Zpos d) + prec + 2 - Zdigits2 (Zpos n)) in
  let '(q, r) := Z.div_eucl (Z.shiftl (Zpos n) s) (Zpos d) in
  binary_round_aux prec emax neg q (- s) (new_location (Zpos d) r).

(** [float(n)] for an integer: [OverflowError] when it does not fit. *)
Definition float_of_int (n : Z) : result float :=
  match binary_normalize prec emax n 0 false with
  | S754_infinity _ => Raise OverflowError
  | sf => Ok (SF2Prim sf)
  end.

(** [a / b] for two integers, [b] positive (true division). *)
Definition int_truediv (a : Z) (b : positive) : result float :=
  let sf := match a with
            | Z0 => S754_zero false
            | Zpos n => SF_of_ratio false n b
            | Zneg n => SF_of_ratio true n b
            end in
  match sf with
  | S754_infinity _ => Raise OverflowError
  | _ => Ok (SF2Prim sf)
  end.

(** Round half to even of [m / 2^k]. *)
Definition round_half_even_shift (m : Z) (k : Z) : Z :=
  let q := Z.shiftr m k in
  let r := m - Z.shiftl q k in
  match Z.compare (2 * r) (Z.shiftl 1 k) with
  | Lt => q
  | Gt => q + 1
  | Eq => if Z.even q then q else q + 1
  end.

(** [round(x)] for a float. *)
Definition round_float (x : float) : result Z :=
  match Prim2SF x with
  | S754_nan => Raise ValueError
  | S754_infinity _ => Raise OverflowError
  | S754_zero _ => Ok 0
  | S754_finite s m e =>
      let a := if (0 <=? e) then Z.shiftl (Zpos m) e
               else round_half_even_shift (Zpos m) (- e) in
      Ok (if s then - a else a)
  end.

(** The order of an integer and a float, compared exactly as Python does;
    [None] when the float is a NaN. *)
Definition compare_int_float (n : Z) (x : float) : option comparison :=
  match Prim2SF x with
  | S754_nan => None
  | S754_infinity s => Some (if s then Gt else Lt)
  | S754_zero _ => Some (Z.compare n 0)
  | S754_finite s m e =>
      let v := if s then Zneg m else Zpos m in
      Some (if (0 <=? e) then Z.compare n (Z.shiftl v e)
            else Z.compare (Z.shiftl n (- e)) v)
  end.

(** A Python number: [int] (and [bool]) or [float]. *)
Inductive num : Type :=
| NInt (n : Z)
| NFloat (x : float).

Definition as_num (v : pyval) : option num :=
  match v with
  | PBool b => Some (NInt (if b then 1 else 0))
  | PInt n => Some (NInt n)
  | PFloat x => Some (NFloat x)
  | _ => None
  end.

Definition pyval_of_num (a : num) : pyval :=
  match a with
  | NInt n => PInt n
  | NFloat x => PFloat x
  end.

Definition num_eqb (a b : num) : bool :=
  match a, b with
  | NInt m, NInt n => Z.eqb m n
  | NFloat x, NFloat y => PrimFloat.eqb x y
  | NInt m, NFloat y =>
      match compare_int_float m y with Some Eq => true | _ => false end
  | NFloat x, NInt n =>
      match compare_int_float n x with Some Eq => true | _ => false end
  end.

(** [a < b] *)
Definition num_ltb (a b : num) : bool :=
  match a, b with
  | NInt m, NInt n => Z.ltb m n
  | NFloat x, NFloat y => PrimFloat.ltb x y
  | NInt m, NFloat y =>
      match compare_int_float m y with Some Lt => true | _ => false end
  | NFloat x, NInt n =>
      match compare_int_float n x with Some Gt => true | _ => false end
  end.

Definition float_of_num (a : num) : result float :=
  match a with
  | NInt n => float_of_int n
  | NFloat x => Ok x
  end.

(** [a + b] *)
Definition num_add (a b : num) : result num :=
  match a, b with
  | NInt m, NInt n => Ok (NInt (m + n))
  | _, _ =>
      x <- float_of_num a ;;
      y <- float_of_num b ;;
      Ok (NFloat (x + y)%float)
  end.

(** [a * c] where [c] is a float *)
Definition num_mul_float (a : num) (c : float) : result float :=
  x <- float_of_num a ;; Ok (x * c)%float.

(** [v * c] where [c] is a float: only numbers can be scaled. *)
Definition py_mul_float (v : pyval) (c : float) : result float :=
  match as_num v with
  | Some a => num_mul_float a c
  | None => Raise TypeError
  end.

(** [round(a)] *)
Definition num_round (a : num) : result Z :=
  match a with
  | NInt n => Ok n
  | NFloat x => round_float x
  end.

(** *** [float(s)] for a string *)

Definition lstrip (s : string) : string :=
  (fix go (s : string) : string :=
     match s with
     | String c s' => if is_space c then go s' else s
     | EmptyString => EmptyString
     end) s.

Definition rev_string (s : string) : string :=
  string_of_list_ascii (rev (list_ascii_of_string s)).

(** [s.strip()] *)
Definition strip (s : string) : string :=
  rev_string (lstrip (rev_string (lstrip s))).

(** An underscore may stand between two digits only; the underscores are
    removed before the number is read. *)
Fixpoint remove_underscores (prev : ascii) (s : string) : option string :=
  match s with
  | EmptyString => if Ascii.eqb prev "_" then None else Some EmptyString
  | String c s' =>
      if Ascii.eqb c "_" then
        if is_digit prev then remove_underscores c s' else None
      else if Ascii.eqb prev "_" && negb (is_digit c) then None
      else option_map (String c) (remove_underscores c s')
  end.

(** an optional sign: is it [-], and what follows *)
Definition read_sign (s : string) : bool * string :=
  match s with
  | String c s' =>
      if Ascii.eqb c "-" then (true, s')
      else if Ascii.eqb c "+" then (false, s')
      else (false, s)
  | EmptyString => (false, s)
  end.

(** the exponent part: empty, or [e] or [E], an optional sign and digits *)
Definition read_exponent (s : string) : option Z :=
  match s with
  | EmptyString => Some 0
  | String c s' =>
      if Ascii.eqb c "e" || Ascii.eqb c "E" then
        let (neg, s1) := read_sign s' in
        match span_digits s1 with
        | (String d ds, EmptyString) =>
            let e := int_of_digits (String d ds) in
            Some (if neg then - e else e)
        | _ => None
        end
      else None
  end.

(** A decimal numeral as (negative?, digits, exponent): it stands for
    [digits * 10 ^ exponent]. *)
Definition read_decimal (s : string) : option (bool * Z * Z) :=
  let (neg, s1) := read_sign s in
  let (ip, s2) := span_digits s1 in
  let (fp, s3) :=
    match s2 with
    | String c r => if Ascii.eqb c "." then span_digits r else (EmptyString, s2)
    | EmptyString => (EmptyString, s2)
    end in
  if (String.length ip + String.length fp =? 0)%nat then None
  else
    match read_exponent s3 with
    | Some e => Some (neg, int_of_digits (ip ++ fp), e - Z.of_nat (String.length fp))
    | None => None
    end.

Definition SF_of_decimal (neg : bool) (digits exponent : Z) : spec_float :=
  match digits with
  | Zpos n =>
      match exponent with
      | Zneg k => SF_of_ratio neg n (10 ^ k)%positive
      | _ => SF_of_ratio neg (n * Z.to_pos (10 ^ exponent))%positive 1%positive
      end
  | _ => S754_zero neg
  end.

Definition read_inf_nan (s : string) : option float :=
  let (neg, s1) := read_sign s in
  let w := lower s1 in
  if String.eqb w "inf" || String.eqb w "infinity" then
    Some (if neg then neg_infinity else infinity)
  else if String.eqb w "nan" then Some nan
  else None.

(** [float(s)]: [None] stands for [ValueError].  Digits and white space are
    the ASCII ones; Python also reads those of other scripts. *)
Definition float_of_string (s : string) : option float :=
  match remove_underscores "000" (strip s) with
  | None => None
  | Some t =>
      match read_decimal t with
      | Some (neg, d, e) => Some (SF2Prim (SF_of_decimal neg d e))
      | None => read_inf_nan t
      end
  end.

(** ** Dynamic operations on values *)

(** truth value: [bool(v)] *)
Definition truthy (v : pyval) : bool :=
  match v with
  | PNone => false
  | PBool b => b
  | PInt n => negb (n =? 0)
  | PFloat x => negb (PrimFloat.eqb x 0)
  | PStr s => negb (String.eqb s "")
  | PList l => match l with [] => false | _ => true end
  | PDict d => match d with [] => false | _ => true end
  end.

(** [a == b], by value *)
Fixpoint py_eq (a b : pyval) {struct a} : bool :=
  match a, b with
  | PNone, PNone => true
  | PStr s, PStr t => String.eqb s t
  | PList la, PList lb =>
      (fix go (la lb : list pyval) {struct la} : bool :=
         match la, lb with
         | [], [] => true
         | x :: xs, y :: ys => py_eq x y && go xs ys
         | _, _ => false
         end) la lb
  | PDict da, PDict db =>
      Nat.eqb (List.length da) (List.length db) &&
      (fix go (da : list (string * pyval)) : bool :=
         match da with
         | [] => true
         | (k, v) :: r =>
             match dict_get db k with
             | Some w => py_eq v w
             | None => false
             end && go r
         end) da
  | _, _ =>
      match as_num a, as_num b with
      | Some x, Some y => num_eqb x y
      | _, _ => false
      end
  end.

(** [a < b]: numbers with numbers, strings with strings, lists with lists. *)
Fixpoint py_lt (a b : pyval) {struct a} : result bool :=
  match a, b with
  | PStr s, PStr t => Ok (string_ltb s t)
  | PList la, PList lb =>
      (fix go (la lb : list pyval) {struct la} : result bool :=
         match la, lb with
         | [], [] => Ok false
         | [], _ :: _ => Ok true
         | _ :: _, [] => Ok false
         | x :: xs, y :: ys => if py_eq x y then go xs ys else py_lt x y
         end) la lb
  | _, _ =>
      match as_num a, as_num b with
      | Some x, Some y => Ok (num_ltb x y)
      | _, _ => Raise TypeError
      end
  end.

(** [v == s] for a string [s] *)
Definition eq_str (v : pyval) (s : string) : bool :=
  match v with
  | PStr t => String.eqb t s
  | _ => false
  end.

(** [k in v] for a string [k] *)
Definition py_contains (k : string) (v : pyval) : result bool :=
  match v with
  | PDict d => Ok (dict_mem d k)
  | PStr s => Ok (is_substring k s)
  | PList l => Ok (existsb (fun x => eq_str x k) l)
  | _ => Raise TypeError
  end.

(** [v[k]] for a string [k] *)
Definition py_getitem (v : pyval) (k : string) : result pyval :=
  match v with
  | PDict d => dict_item d k
  | _ => Raise TypeError
  end.

(** [v.get(k, default)] *)
Definition py_get (v : pyval) (k : string) (default : pyval) : result pyval :=
  match v with
  | PDict d => Ok (match dict_get d k with Some x => x | None => default end)
  | _ => Raise AttributeError
  end.

(** [v.lower()] *)
Definition py_lower (v : pyval) : result string :=
  match v with
  | PStr s => Ok (lower s)
  | _ => Raise AttributeError
  end.

(** [float(v)] *)
Definition py_float (v : pyval) : result float :=
  match v with
  | PFloat x => Ok x
  | PInt n => float_of_int n
  | PBool b => Ok (if b then 1%float else 0%float)
  | PStr s =>
      match float_of_string s with
      | Some x => Ok x
      | None => Raise ValueError
      end
  | _ => Raise TypeError
  end.

(** What the interpreter and the [json] module provide and the model leaves
    open: how a float and a string are printed by [repr], and the [json]
    encoder and decoder.  The decoder returns a value or raises:
    [json.JSONDecodeError] on text that is not JSON, and whatever else the
    interpreter raises while decoding ([RecursionError] on text nested
    deeper than its stack allows). *)
Class PyBuiltins : Type := {
  float_repr : float -> string;
  str_repr : string -> string;
  json_dumps : pyval -> string;
  json_loads : string -> result pyval
}.

Definition string_of_Z (n : Z) : string := NilZero.string_of_int (Z.to_int n).

Section Printing.
Context `{B : PyBuiltins}.

(** [repr(v)] *)
Fixpoint py_repr (v : pyval) : string :=
  match v with
  | PNone => "None"
  | PBool b => if b then "True" else "False"
  | PInt n => string_of_Z n
  | PFloat x => float_repr x
  | PStr s => str_repr s
  | PList l => "[" ++ join ", " (map py_repr l) ++ "]"
  | PDict d =>
      "{" ++ join ", " (map (fun '(k, v) => str_repr k ++ ": " ++ py_repr v) d)
      ++ "}"
  end.

(** [str(v)], also what an f-string inserts *)
Definition py_str (v : pyval) : string :=
  match v with
  | PStr s => s
  | _ => py_repr v
  end.
End Printing.

(** ** [tools/querytools.py] *)

Module HardwareQueryTool.
Section WithBuiltins.
Context `{B : PyBuiltins}.

(** One arm of [_value_matches]:
    [try: threshold = float(rest); return float(actual_value) OP threshold]
    [except (ValueError, TypeError): return False].
    [json.JSONDecodeError] is a subclass of [ValueError]. *)
Definition compare_with (op : float -> float -> bool)
           (actual_value : pyval) (rest : string) : result bool :=
  match (threshold <- py_float (PStr rest) ;;
         actual <- py_float actual_value ;;
         Ok (op actual threshold)) with
  | Raise ValueError | Raise TypeError | Raise JSONDecodeError => Ok false
  | r => r
  end.

Definition _value_matches (actual_value filter_value : pyval) : result bool :=
  match filter_value with
  | PStr f =>
      if startswith f ">=" then
        compare_with (fun a t => PrimFloat.leb t a) actual_value (drop 2 f)
      else if startswith f "<=" then
        compare_with (fun a t => PrimFloat.leb a t) actual_value (drop 2 f)
      else if startswith f ">" then
        compare_with (fun a t => PrimFloat.ltb t a) actual_value (drop 1 f)
      else if startswith f "<" then
        compare_with (fun a t => PrimFloat.ltb a t) actual_value (drop 1 f)
      else Ok (String.eqb (py_str actual_value) (py_str filter_value))
  | _ => Ok (String.eqb (py_str actual_value) (py_str filter_value))
  end.

(** The descent along a dotted key: [None] when a part is absent. *)
Fixpoint descend (parts : list string) (current_value : pyval) : result pyval :=
  match parts with
  | [] => Ok current_value
  | part :: rest =>
      found <- py_contains part current_value ;;
      if found then
        v <- py_getitem current_value part ;; descend rest v
      else Ok PNone
  end.

(** One turn of the loop over [filters.items()]: [false] is [match = False]. *)
Definition filter_passes (item : dict) (key : string) (value : pyval)
  : result bool :=
  if existsb (String.eqb key) ["brand"; "min_price"; "max_price"] then Ok true
  else if is_substring "." key then
    specs <- dict_item item "specs" ;;
    current_value <- descend (split_on "." key) specs ;;
    match current_value with
    | PNone => Ok false
    | _ => _value_matches current_value value
    end
  else
    specs <- dict_item item "specs" ;;
    found <- py_contains key specs ;;
    if found then
      v <- py_getitem specs key ;; _value_matches v value
    else Ok false.

(** The loop over the filters for one item, leaving at the first failure. *)
Fixpoint item_matches (item : dict) (filters : dict) : result bool :=
  match filters with
  | [] => Ok true
  | (key, value) :: rest =>
      ok <- filter_passes item key value ;;
      if ok then item_matches item rest else Ok false
  end.

Fixpoint _apply_spec_filters (items : list dict) (filters : dict)
  : result (list dict) :=
  match items with
  | [] => Ok []
  | item :: rest =>
      m <- item_matches item filters ;;
      filtered_items <- _apply_spec_filters rest filters ;;
      Ok (if m then item :: filtered_items else filtered_items)
  end.
End WithBuiltins.
End HardwareQueryTool.

(** ** [tools/check_compatibility.py] *)

(** The adjudicator behind [_check_with_llm]: from the prompt to the text of
    its answer. *)
Class Adjudicator : Type := {
  call_llm_api : string -> string
}.

Module CompatibilityChecker.

(** What a rule returns: [(True | False | None, message, confidence)]. *)
Definition rule_verdict : Type := option bool * string * float.

(** What [check_compatibility] returns: a rule's verdict, or the three values
    read from the adjudicator's answer. *)
Definition verdict : Type := pyval * pyval * pyval.

Definition verdict_of_rule (v : rule_verdict) : verdict :=
  let '(compatible, message, confidence) := v in
  (match compatible with Some b => PBool b | None => PNone end,
   PStr message, PFloat confidence).

Definition rule : Type := dict -> dict -> result rule_verdict.

Record checker : Type := { rules : list (string * rule) }.

Definition nonempty (s : string) : bool := negb (String.eqb s "").

(** What [socket_cleaner] makes of a string. *)
Definition normalized_socket (s : string) : string :=
  sub_non_alnum (remove_spaces (lower s)).

Section WithBuiltins.
Context `{B : PyBuiltins}.

(** [lambda s: re.sub(r'[^a-z0-9]', '', s.lower().replace(' ', ''))] *)
Definition socket_cleaner (s : pyval) : result string :=
  l <- py_lower s ;; Ok (sub_non_alnum (remove_spaces l)).

(** [c['specs'].get(k, default)] *)
Definition spec_get (c : dict) (k : string) (default : pyval) : result pyval :=
  specs <- dict_item c "specs" ;; py_get specs k default.

(** [c['specs'][k]] *)
Definition spec_item (c : dict) (k : string) : result pyval :=
  specs <- dict_item c "specs" ;; py_getitem specs k.

Definition _check_cpu_motherboard (cpu motherboard : dict) : result rule_verdict :=
  cs <- spec_get cpu "socket" (PStr "") ;;
  cpu_socket <- socket_cleaner cs ;;
  ms <- spec_get motherboard "socket" (PStr "") ;;
  mobo_socket <- socket_cleaner ms ;;
  if nonempty cpu_socket && nonempty mobo_socket then
    if String.eqb cpu_socket mobo_socket then
      c <- spec_item cpu "socket" ;;
      Ok (Some true, "兼容: CPU插槽(" ++ py_str c ++ ")与主板插槽匹配", 1.0%float)
    else
      c <- spec_item cpu "socket" ;;
      m <- spec_item motherboard "socket" ;;
      Ok (Some false,
          "不兼容: CPU(" ++ py_str c ++ ")与主板(" ++ py_str m ++ ")插槽不匹配",
          1.0%float)
  else Ok (None, "无法确定: 插槽信息缺失", 0.5%float).

Definition _check_motherboard_memory (motherboard memory : dict)
  : result rule_verdict :=
  ms <- spec_get motherboard "memory_support" (PStr "") ;;
  ml <- py_lower ms ;;
  let supported_types := findall_ddr ml in
  mt <- spec_get memory "memory_type" (PStr "") ;;
  tl <- py_lower mt ;;
  match supported_types, search_ddr tl with
  | _ :: _, Some mem_type =>
      if existsb (String.eqb mem_type) supported_types then
        Ok (Some true, "兼容: 主板支持" ++ upper mem_type ++ "内存", 1.0%float)
      else
        Ok (Some false,
            "不兼容: 主板支持" ++ py_str (PList (map PStr supported_types))
            ++ "，内存是" ++ upper mem_type, 0.9%float)
  | _, _ => Ok (None, "内存类型信息缺失", 0.5%float)
  end.

Definition _check_motherboard_case (motherboard case : dict)
  : result rule_verdict :=
  mf <- spec_get motherboard "form_factor" (PStr "") ;;
  mobo_form_factor <- py_lower mf ;;
  cf <- spec_get case "supported_form_factors" (PStr "") ;;
  case_support <- py_lower cf ;;
  if negb (nonempty mobo_form_factor) || negb (nonempty case_support) then
    Ok (None, "无法确定: 主板版型或机箱支持信息缺失。", 0.5%float)
  else if is_substring mobo_form_factor case_support then
    Ok (Some true, "兼容: " ++ upper mobo_form_factor ++ "主板可安装于此机箱。",
        1.0%float)
  else
    Ok (Some false, "不兼容: 机箱不支持" ++ upper mobo_form_factor ++ "主板。",
        0.9%float).

(** [float(re.search(r'\d+', c['specs'].get(k, '')).group())] *)
Definition first_number (c : dict) (k : string) : result float :=
  v <- spec_get c k (PStr "") ;;
  match v with
  | PStr s =>
      match search_digits s with
      | Some d => py_float (PStr d)
      | None => Raise AttributeError
      end
  | _ => Raise TypeError
  end.

Definition _check_gpu_case (gpu case : dict) : result rule_verdict :=
  match (gpu_length <- first_number gpu "length" ;;
         case_max_gpu <- first_number case "max_gpu_length" ;;
         Ok (gpu_length, case_max_gpu)) with
  | Raise _ => Ok (None, "尺寸信息不完整", 0.5%float)
  | Ok (gpu_length, case_max_gpu) =>
      if PrimFloat.leb gpu_length case_max_gpu then
        Ok (Some true,
            "兼容: 显卡长度(" ++ float_repr gpu_length ++ "mm)在机箱支持范围内",
            1.0%float)
      else
        Ok (Some false,
            "不兼容: 显卡过长(" ++ float_repr gpu_length ++ "mm > "
            ++ float_repr case_max_gpu ++ "mm)", 0.9%float)
  end.

Definition _check_gpu_power (gpu power : dict) : result rule_verdict :=
  required_power <- spec_get gpu "recommended_psu" (PInt 0) ;;
  psu_power <- spec_get power "output_power" (PInt 0) ;;
  psu_connectors <- spec_get power "pcie_connectors" (PInt 0) ;;
  gpu_required <- spec_get gpu "power_connectors" (PInt 0) ;;
  if negb (forallb truthy [required_power; psu_power; psu_connectors; gpu_required])
  then Ok (None, "电源规格信息不完整", 0.6%float)
  else
    low_power <- py_lt psu_power required_power ;;
    let messages :=
      if low_power
      then ["电源功率不足(" ++ py_str psu_power ++ "W < "
            ++ py_str required_power ++ "W)"]
      else [] in
    few_connectors <- py_lt psu_connectors gpu_required ;;
    let messages :=
      if few_connectors
      then List.app messages
                    ["电源接口不足(" ++ py_str psu_connectors ++ "个 < 需要"
                     ++ py_str gpu_required ++ "个)"]
      else messages in
    match messages with
    | _ :: _ => Ok (Some false, join "；" messages, 0.9%float)
    | [] => Ok (Some true, "电源满足需求", 0.9%float)
    end.

Definition _check_power_motherboard (power motherboard : dict)
  : result rule_verdict :=
  required_connector <- spec_get motherboard "power_connector" (PStr "") ;;
  psu_connector <- spec_get power "motherboard_connector" (PStr "") ;;
  if negb (truthy required_connector) || negb (truthy psu_connector) then
    Ok (None, "接口信息缺失", 0.5%float)
  else
    p <- py_lower psu_connector ;;
    r <- py_lower required_connector ;;
    if String.eqb p r then
      Ok (Some true, "主板" ++ py_str required_connector ++ "供电接口匹配",
          1.0%float)
    else
      Ok (Some false,
          "接口不匹配(" ++ py_str psu_connector ++ " vs "
          ++ py_str required_connector ++ ")", 0.9%float).

(** The rule table built by [__init__]. *)
Definition __init__ : checker :=
  {| rules := [ ("cpu_motherboard", _check_cpu_motherboard);
                ("motherboard_ram", _check_motherboard_memory);
                ("motherboard_case", _check_motherboard_case);
                ("gpu_case", _check_gpu_case);
                ("gpu_power", _check_gpu_power);
                ("power_motherboard", _check_power_motherboard) ] |}.
End WithBuiltins.

Definition nl : string := String (ascii_of_nat 10) EmptyString.

(** The answer that stands in for the adjudicator in the source. *)
Definition simulated_llm_output : string :=
  "{" ++ dquote ++ "compatible" ++ dquote ++ ": true, "
  ++ dquote ++ "reason" ++ dquote ++ ": " ++ dquote
  ++ "基于LLM分析的兼容性原因" ++ dquote ++ ", "
  ++ dquote ++ "confidence" ++ dquote ++ ": 0.7}".

Definition simulated_adjudicator : Adjudicator :=
  {| call_llm_api := fun _ => simulated_llm_output |}.

Section WithAdjudicator.
Context `{B : PyBuiltins} `{Adj : Adjudicator}.

(** The lines of the prompt about one component; the fields are read in
    this order. *)
Definition component_lines (letter : string) (c : dict) : result string :=
  category <- dict_item c "category" ;;
  name <- dict_item c "name" ;;
  brand <- dict_item c "brand" ;;
  model <- dict_item c "model" ;;
  specs <- dict_item c "specs" ;;
  Ok ("部件" ++ letter ++ " ( " ++ py_str category ++ " ):" ++ nl
      ++ "- 名称: " ++ py_str name ++ nl
      ++ "- 品牌: " ++ py_str brand ++ nl
      ++ "- 型号: " ++ py_str model ++ nl
      ++ "- 关键规格: " ++ json_dumps specs ++ nl).

Definition build_prompt (component_a component_b : dict) : result string :=
  lines_a <- component_lines "A" component_a ;;
  lines_b <- component_lines "B" component_b ;;
  Ok (nl
      ++ "请严格扮演一个电脑硬件专家，只根据提供的硬件信息判断以下两个部件是否兼容。"
      ++ nl ++ nl ++ lines_a ++ nl ++ lines_b ++ nl
      ++ "请只输出一个JSON对象，格式如下：" ++ nl
      ++ "{" ++ dquote ++ "compatible" ++ dquote ++ ": <true|false>, "
      ++ dquote ++ "reason" ++ dquote ++ ": " ++ dquote ++ "一句话解释原因"
      ++ dquote ++ ", " ++ dquote ++ "confidence" ++ dquote
      ++ ": <0.0到1.0之间的数字>}" ++ nl).

(** The verdict returned when the answer is not JSON. *)
Definition llm_failure : verdict :=
  (PBool false, PStr "LLM兼容性检查失败，请手动确认。", PFloat 0.0%float).

(** The source builds the prompt and then stands a fixed text in for the
    adjudicator's answer, where the call to the LLM is to be placed; here the
    adjudicator is a parameter, and [simulated_adjudicator] is the one of the
    source. *)
Definition _check_with_llm (component_a component_b : dict) : result verdict :=
  prompt <- build_prompt component_a component_b ;;
  let llm_output := call_llm_api prompt in
  match json_loads llm_output with
  | Ok answer =>
      compatible <- py_getitem answer "compatible" ;;
      reason <- py_getitem answer "reason" ;;
      confidence <- py_getitem answer "confidence" ;;
      Ok (compatible, reason, confidence)
  | Raise JSONDecodeError => Ok llm_failure
  | Raise e => Raise e
  end.

Definition check_type_of (cat_a cat_b : pyval) : string :=
  py_str cat_a ++ "_" ++ py_str cat_b.

Definition check_compatibility (self : checker) (component_a component_b : dict)
  : result verdict :=
  cat_a <- dict_item component_a "category" ;;
  cat_b <- dict_item component_b "category" ;;
  let check_type := check_type_of cat_a cat_b in
  match dict_get (rules self) check_type with
  | Some rule_fn =>
      '(compatible, message, confidence) <- rule_fn component_a component_b ;;
      if PrimFloat.ltb 0.8%float confidence then
        Ok (verdict_of_rule (compatible, message, confidence))
      else _check_with_llm component_a component_b
  | None => _check_with_llm component_a component_b
  end.

(** The global instance of the source. *)
Definition compatibility_checker : checker := __init__.

(** The adjudicator is consulted: both categories are there, and either no
    rule is registered for the check type or the rule returned a confidence
    that is not above 0.8. *)
Definition escalates (self : checker) (component_a component_b : dict) : Prop :=
  exists cat_a cat_b,
    dict_get component_a "category" = Some cat_a /\
    dict_get component_b "category" = Some cat_b /\
    match dict_get (rules self) (check_type_of cat_a cat_b) with
    | None => True
    | Some rule_fn =>
        exists compatible message confidence,
          rule_fn component_a component_b = Ok (compatible, message, confidence)
          /\ PrimFloat.ltb 0.8%float confidence = false
    end.
End WithAdjudicator.
End CompatibilityChecker.

(** ** [tools/power_consumption.py] *)

Module PowerConsumption.

Record report : Type := {
  total_power_estimate : Z;
  recommended_psu_wattage : Z;
  component_breakdown : list (string * num)
}.

Definition COMPONENT_POWER_ESTIMATES : list (string * Z) :=
  [ ("motherboard", 30); ("ram", 5); ("ssd", 5); ("hdd", 10);
    ("cooling", 10); ("other", 30) ].

Definition common_psu_wattages : list Z :=
  [450; 550; 650; 750; 850; 1000; 1200; 1500].

(** Lists and dictionaries cannot be keys of a dictionary. *)
Definition hashable (v : pyval) : bool :=
  match v with
  | PList _ | PDict _ => false
  | _ => true
  end.

(** [component_counts]: a dictionary keyed by the categories met. *)
Fixpoint counts_get (counts : list (pyval * Z)) (k : pyval) : option Z :=
  match counts with
  | [] => None
  | (k', n) :: rest => if py_eq k' k then Some n else counts_get rest k
  end.

Fixpoint counts_set (counts : list (pyval * Z)) (k : pyval) (n : Z)
  : list (pyval * Z) :=
  match counts with
  | [] => [(k, n)]
  | (k', n') :: rest =>
      if py_eq k' k then (k', n) :: rest else (k', n') :: counts_set rest k n
  end.

(** The first loop: how many components of each category. *)
Fixpoint count_components (config_list : list dict) (component_counts : list (pyval * Z))
  : result (list (pyval * Z)) :=
  match config_list with
  | [] => Ok component_counts
  | component :: rest =>
      comp_type <- dict_item component "category" ;;
      if hashable comp_type then
        let n := match counts_get component_counts comp_type with
                 | Some n => n
                 | None => 0
                 end in
        count_components rest (counts_set component_counts comp_type (n + 1))
      else Raise TypeError
  end.

(** [[c for c in config_list if c['category'] == cat]] *)
Fixpoint of_category (cat : string) (config_list : list dict) : result (list dict) :=
  match config_list with
  | [] => Ok []
  | c :: rest =>
      category <- dict_item c "category" ;;
      others <- of_category cat rest ;;
      Ok (if eq_str category cat then c :: others else others)
  end.

(** The running totals of the function. *)
Record totals : Type := {
  total_power : num;
  breakdown : list (string * num)
}.

Definition add_power (t : totals) (key : string) (power : num) : result totals :=
  total <- num_add (total_power t) power ;;
  Ok {| total_power := total; breakdown := dict_set (breakdown t) key power |}.

Section WithBuiltins.
Context `{B : PyBuiltins}.

(** The last tier of the GPU estimate: by the model's name. *)
Definition gpu_power_by_model (gpu_model : string) : Z :=
  if is_substring "rtx 4090" gpu_model || is_substring "rx 7900 xtx" gpu_model
  then 450
  else if is_substring "rtx 4080" gpu_model || is_substring "rx 7900 xt" gpu_model
  then 320
  else if is_substring "rtx 4070" gpu_model || is_substring "rx 7800 xt" gpu_model
  then 200
  else if is_substring "rtx 4060" gpu_model || is_substring "rx 7700 xt" gpu_model
  then 160
  else 150.

(** [gpu_power] before the 15% margin. *)
Definition gpu_base_power (gpu : dict) : result pyval :=
  specs <- dict_item gpu "specs" ;;
  has_tdp <- py_contains "tdp" specs ;;
  if has_tdp then py_getitem specs "tdp"
  else
    has_psu <- py_contains "recommended_psu" specs ;;
    if has_psu then
      recommended_psu <- py_getitem specs "recommended_psu" ;;
      match search_digits (py_str recommended_psu) with
      | Some digits =>
          let psu_wattage := int_of_digits digits in
          gpu_power <- py_mul_float (PInt psu_wattage) 0.4%float ;;
          Ok (PFloat gpu_power)
      | None => Ok (PInt 150)
      end
    else
      model <- dict_item gpu "model" ;;
      gpu_model <- py_lower model ;;
      Ok (PInt (gpu_power_by_model gpu_model)).

(** One turn of the loop over the GPUs. *)
Definition add_gpu (t : totals) (gpu : dict) : result totals :=
  base <- gpu_base_power gpu ;;
  gpu_power <- py_mul_float base 1.15%float ;;
  total <- num_add (total_power t) (NFloat gpu_power) ;;
  model <- dict_item gpu "model" ;;
  Ok {| total_power := total;
        breakdown := dict_set (breakdown t) ("gpu_" ++ py_str model)
                              (NFloat gpu_power) |}.

Fixpoint add_gpus (t : totals) (gpu_components : list dict) : result totals :=
  match gpu_components with
  | [] => Ok t
  | gpu :: rest => t' <- add_gpu t gpu ;; add_gpus t' rest
  end.

(** The CPU: only the first one counts. *)
Definition add_cpu (t : totals) (cpu_components : list dict) : result totals :=
  match cpu_components with
  | [] => Ok t
  | cpu :: _ =>
      specs <- dict_item cpu "specs" ;;
      cpu_tdp <- py_get specs "tdp" (PInt 65) ;;
      cpu_power <- py_mul_float cpu_tdp 1.2%float ;;
      add_power t "cpu" (NFloat cpu_power)
  end.

(** The loop over [COMPONENT_POWER_ESTIMATES.items()]. *)
Fixpoint add_others (t : totals) (component_counts : list (pyval * Z))
         (estimates : list (string * Z)) : result totals :=
  match estimates with
  | [] => Ok t
  | (comp_type, estimate) :: rest =>
      match counts_get component_counts (PStr comp_type) with
      | Some count =>
          t' <- add_power t comp_type (NInt (estimate * count)) ;;
          add_others t' component_counts rest
      | None => add_others t component_counts rest
      end
  end.

(** The [for ... else] over the usual wattages. *)
Fixpoint round_to_common (recommended_psu : Z) (wattages : list Z) : result Z :=
  match wattages with
  | wattage :: rest =>
      if recommended_psu <=? wattage then Ok wattage
      else round_to_common recommended_psu rest
  | [] =>
      q <- int_truediv recommended_psu 100 ;;
      r <- round_float q ;;
      Ok (r * 100)
  end.

Definition calculate_power_consumption (config_list : list dict) : result report :=
  let t := {| total_power := NInt 0; breakdown := [] |} in
  component_counts <- count_components config_list [] ;;
  cpu_components <- of_category "cpu" config_list ;;
  t <- add_cpu t cpu_components ;;
  gpu_components <- of_category "gpu" config_list ;;
  t <- add_gpus t gpu_components ;;
  t <- add_others t component_counts COMPONENT_POWER_ESTIMATES ;;
  let safety_margin :=
    if num_ltb (NInt 600) (total_power t) then 1.3%float else 1.2%float in
  scaled <- num_mul_float (total_power t) safety_margin ;;
  recommended_psu <- round_float scaled ;;
  recommended_psu <- round_to_common recommended_psu common_psu_wattages ;;
  estimate <- num_round (total_power t) ;;
  Ok {| total_power_estimate := estimate;
        recommended_psu_wattage := recommended_psu;
        component_breakdown := breakdown t |}.
End WithBuiltins.
End PowerConsumption.

(** ** A concrete runtime for examples

    [repr] of a string without quotes or escapes, of an integral float below
    [10^16], and a [json] decoder that knows the empty object and the answer
    of the simulated adjudicator, and that gives up with [RecursionError] on
    [nested_answer], two thousand opening brackets. *)

Fixpoint repeat_string (n : nat) (s : string) : string :=
  match n with
  | O => EmptyString
  | S n' => s ++ repeat_string n' s
  end.

(** ['[' * 2000] *)
Definition nested_answer : string := repeat_string 2000 "[".

Definition example_float_repr (x : float) : string :=
  match round_float x with
  | Ok n =>
      if PrimFloat.eqb (SF2Prim (binary_normalize prec emax n 0 false)) x
         && (Z.abs n <? 10 ^ 16)
      then string_of_Z n ++ ".0"
      else "<float>"
  | Raise _ => "<float>"
  end.

Definition example_json_loads (s : string) : result pyval :=
  if String.eqb s "{}" then Ok (PDict [])
  else if String.eqb s CompatibilityChecker.simulated_llm_output then
    Ok (PDict [ ("compatible", PBool true);
                ("reason", PStr "基于LLM分析的兼容性原因");
                ("confidence", PFloat 0.7%float) ])
  else if String.eqb s nested_answer then Raise RecursionError
  else Raise JSONDecodeError.

Definition example_builtins : PyBuiltins :=
  {| float_repr := example_float_repr;
     str_repr := fun s => "'" ++ s ++ "'";
     json_dumps := fun _ => "{}";
     json_loads := example_json_loads |}.

(** An adjudicator whose answer is not JSON. *)
Definition garbled_adjudicator : Adjudicator :=
  {| call_llm_api := fun _ => "I think they are compatible." |}.

(** An adjudicator whose answer is nested too deep for the decoder. *)
Definition nested_adjudicator : Adjudicator :=
  {| call_llm_api := fun _ => nested_answer |}.

(** An adjudicator that answers with an empty JSON object. *)
Definition terse_adjudicator : Adjudicator :=
  {| call_llm_api := fun _ => "{}" |}.

(** A component record as the storage layer returns it. *)
Definition component (name category brand model : string) (specs : dict) : dict :=
  [ ("name", PStr name); ("category", PStr category); ("brand", PStr brand);
    ("model", PStr model); ("price", PNone); ("specs", PDict specs) ].

(** A checker with a single rule, which answers with a given confidence. *)
Definition checker_with_confidence (confidence : float)
  : CompatibilityChecker.checker :=
  {| CompatibilityChecker.rules :=
       [ ("cpu_motherboard",
          fun _ _ => Ok (Some true, "rule", confidence)) ] |}.

Definition cpu_lga1700 : dict :=
  component "Intel Core i5-13400F" "cpu" "Intel" "i5-13400F"
            [("socket", PStr "LGA 1700"); ("tdp", PInt 65)].

Definition cpu_without_socket : dict :=
  component "Intel Core i5-13400F" "cpu" "Intel" "i5-13400F" [("tdp", PInt 65)].

Definition cpu_dash_socket : dict :=
  component "Intel Core i5-13400F" "cpu" "Intel" "i5-13400F" [("socket", PStr "-")].

Definition motherboard_lga1700 : dict :=
  component "ASUS TUF Gaming B760-PLUS" "motherboard" "ASUS" "B760-PLUS"
            [("socket", PStr "lga1700")].

Definition motherboard_dash_socket : dict :=
  component "ASUS TUF Gaming B760-PLUS" "motherboard" "ASUS" "B760-PLUS"
            [("socket", PStr "-")].

Definition gpu_650w (category : string) : dict :=
  component "NVIDIA GeForce RTX 4070" category "NVIDIA" "RTX 4070"
            [("recommended_psu", PInt 650); ("power_connectors", PInt 1)].

Definition psu_750w (category : string) : dict :=
  component "Corsair RM750" category "Corsair" "RM750"
            [("output_power", PInt 750); ("pcie_connectors", PInt 2)].

(** A GPU whose wattage is kept as text, as the estimator reads it. *)
Definition gpu_650w_text : dict :=
  component "NVIDIA GeForce RTX 4070" "gpu" "NVIDIA" "RTX 4070"
            [("recommended_psu", PStr "650W"); ("power_connectors", PInt 1)].

(** The configuration of the estimation example: a CPU with [tdp] 65, a GPU
    with [tdp] 200, a RAM module and an SSD, with those fields only. *)
Definition example_cpu : dict :=
  [("category", PStr "cpu"); ("specs", PDict [("tdp", PInt 65)])].

Definition example_gpu : dict :=
  [("category", PStr "gpu"); ("specs", PDict [("tdp", PInt 200)])].

Definition example_ram : dict := [("category", PStr "ram")].

Definition example_ssd : dict := [("category", PStr "ssd")].

Definition example_config : list dict :=
  [example_cpu; example_gpu; example_ram; example_ssd].

(** The same, the GPU record also holding a model. *)
Definition example_config_with_model (model : pyval) : list dict :=
  [example_cpu; ("model", model) :: example_gpu; example_ram; example_ssd].

Definition cpu_with_text_tdp : dict :=
  component "Intel Core i5-13400F" "cpu" "Intel" "i5-13400F" [("tdp", PStr "65W")].

Definition gpu_4090_unreadable_psu : dict :=
  component "NVIDIA GeForce RTX 4090" "gpu" "NVIDIA" "RTX 4090"
            [("recommended_psu", PStr "abc")].

(** A GPU known by its name only. *)
Definition gpu_4070_without_psu : dict :=
  component "NVIDIA GeForce RTX 4070" "gpu" "NVIDIA" "RTX 4070" [].

Definition cpu_with_cores (n : Z) : dict :=
  component "Intel Core" "cpu" "Intel" "Core" [("core_count", PInt n)].

Definition cpu_with_flat_benchmarks : dict :=
  component "Intel Core" "cpu" "Intel" "Core" [("benchmarks", PInt 3000)].

Definition core_filters : dict :=
  [("brand", PStr "Intel"); ("core_count", PStr ">=6")].

Definition benchmark_filters : dict :=
  [("benchmarks.cinebench_r23_single", PStr ">=1000")].

(** [check_compatibility] in the example runtime, with each adjudicator. *)
Definition simulated_check
  : CompatibilityChecker.checker -> dict -> dict
    -> result CompatibilityChecker.verdict :=
  @CompatibilityChecker.check_compatibility example_builtins
    CompatibilityChecker.simulated_adjudicator.

Definition garbled_check
  : CompatibilityChecker.checker -> dict -> dict
    -> result CompatibilityChecker.verdict :=
  @CompatibilityChecker.check_compatibility example_builtins garbled_adjudicator.

Definition terse_check
  : CompatibilityChecker.checker -> dict -> dict
    -> result CompatibilityChecker.verdict :=
  @CompatibilityChecker.check_compatibility example_builtins terse_adjudicator.

Definition nested_check
  : CompatibilityChecker.checker -> dict -> dict
    -> result CompatibilityChecker.verdict :=
  @CompatibilityChecker.check_compatibility example_builtins nested_adjudicator.

Definition source_checker : CompatibilityChecker.checker :=
  @CompatibilityChecker.compatibility_checker example_builtins.

(** The verdict of the adjudicator simulated in the source. *)
Definition simulated_verdict : CompatibilityChecker.verdict :=
  (PBool true, PStr "基于LLM分析的兼容性原因", PFloat 0.7%float).

(** ** Definitions for the further properties *)

(** The keys that [query_hardware] hands to the storage layer. *)
Definition sql_key (key : string) : bool :=
  existsb (String.eqb key) ["brand"; "min_price"; "max_price"].

(** The item passes every filter. *)
Definition kept_by `{B : PyBuiltins} (filters : dict) (item : dict) : bool :=
  match HardwareQueryTool.item_matches item filters with
  | Ok true => true
  | _ => false
  end.
(** A rule's verdict is decisive when it says yes or no with confidence 0.9
    or 1.0, and undetermined when it says neither with confidence 0.5 or 0.6. *)
Definition well_graded (compatible : option bool) (confidence : float) : Prop :=
  match compatible with
  | Some _ => confidence = 0.9%float \/ confidence = 1.0%float
  | None => confidence = 0.5%float \/ confidence = 0.6%float
  end.

(** The fields that the prompt reads from a record, in the order it reads
    them, and the first of them that a record does not hold. *)
Definition prompt_fields : list string :=
  ["category"; "name"; "brand"; "model"; "specs"].

Definition first_missing (c : dict) : option string :=
  find (fun field => negb (dict_mem c field)) prompt_fields.

(** Every character of the string satisfies the test. *)
Fixpoint string_forallb (p : ascii -> bool) (s : string) : bool :=
  match s with
  | EmptyString => true
  | String c s' => p c && string_forallb p s'
  end.
(** The three memory standards the rules know, and whether a text names one. *)
Definition ddr_tokens : list string := ["ddr3"; "ddr4"; "ddr5"].

Definition is_ddr_token (t : string) : bool := existsb (String.eqb t) ddr_tokens.

Definition mentions_ddr (s : string) : bool :=
  existsb (fun t => is_substring t s) ddr_tokens.

(** What [socket_cleaner] keeps: lower-case letters and digits. *)
Definition is_socket_char (c : ascii) : bool := is_lower c || is_digit c.

(** The characters on which the byte-wise case mapping is Python's. *)
Definition is_ascii (c : ascii) : bool := (N_of_ascii c <? 128)%N.

(** A text of ASCII characters only: on such a text [lower], [upper], the
    digits of [\d] and white space are what Python makes of them. *)
Definition ascii_text (s : string) : bool := string_forallb is_ascii s.

(** Every integer of [lo, lo + len) passes the test. *)
Fixpoint forall_range (p : Z -> bool) (lo : Z) (len : positive) : bool :=
  match len with
  | xH => p lo
  | xO h => forall_range p lo h && forall_range p (lo + Zpos h) h
  | xI h =>
      p lo && forall_range p (lo + 1) h && forall_range p (lo + 1 + Zpos h) h
  end.

(** Beyond the usual wattages: is what comes out the hundred nearest to the
    requirement, the even one of two that are equally near? *)
Definition nearest_hundred (recommended_psu w : Z) : bool :=
  (w mod 100 =? 0) && (Z.abs (recommended_psu - w) <=? 50)
  && implb (Z.abs (recommended_psu - w) =? 50) (Z.even (w / 100)).

Definition rounds_to_nearest_hundred (recommended_psu : Z) : bool :=
  match PowerConsumption.round_to_common recommended_psu
          PowerConsumption.common_psu_wattages with
  | Ok w => nearest_hundred recommended_psu w
  | Raise _ => false
  end.

(** The categories that the estimator looks for: the CPU, the GPUs, and the
    keys of its table. *)
Definition power_categories : list string :=
  "cpu" :: "gpu" :: map fst PowerConsumption.COMPONENT_POWER_ESTIMATES.

(** [c['category'] == k] on a record that has a category. *)
Definition category_is (k : string) (c : dict) : bool :=
  match dict_get c "category" with
  | Some v => eq_str v k
  | None => false
  end.

Definition has_text_category (c : dict) : bool :=
  match dict_get c "category" with
  | Some (PStr _) => true
  | _ => false
  end.

(** How many records of the configuration are of category [k]. *)
Definition count_of (k : string) (config_list : list dict) : Z :=
  Z.of_nat (List.length (filter (category_is k) config_list)).

(** What the table gives for a configuration: the sum over its rows of
    [estimate * count], and one breakdown entry per row that occurs. *)
Definition table_total (config_list : list dict) : Z :=
  fold_right (fun '(k, estimate) acc => estimate * count_of k config_list + acc)
             0 PowerConsumption.COMPONENT_POWER_ESTIMATES.

Definition table_breakdown (config_list : list dict) : list (string * num) :=
  flat_map (fun '(k, estimate) =>
              if count_of k config_list =? 0 then []
              else [(k, NInt (estimate * count_of k config_list))])
           PowerConsumption.COMPONENT_POWER_ESTIMATES.

(** Two count dictionaries that hold the same count for every category name
    other than [s]. *)
Definition agree_off (s : string) (counts1 counts2 : list (pyval * Z)) : Prop :=
  forall k, k <> s ->
    PowerConsumption.counts_get counts1 (PStr k)
    = PowerConsumption.counts_get counts2 (PStr k).

(** Two runs that raise the same exception, or return related values. *)
Definition same_outcome {A : Type} (R : A -> A -> Prop) (m1 m2 : result A)
  : Prop :=
  match m1, m2 with
  | Ok a, Ok b => R a b
  | Raise e1, Raise e2 => e1 = e2
  | _, _ => False
  end.

(** The last part of the estimator on a whole number of watts: margin,
    rounding, and the usual wattages. *)
Definition recommended_for (total : Z) : result Z :=
  let safety_margin :=
    if num_ltb (NInt 600) (NInt total) then 1.3%float else 1.2%float in
  scaled <- num_mul_float (NInt total) safety_margin ;;
  recommended_psu <- round_float scaled ;;
  PowerConsumption.round_to_common recommended_psu
    PowerConsumption.common_psu_wattages.

(** The recommendation covers the total, is 450 W for small totals, and is
    one of the usual wattages or a multiple of 100. *)
Definition recommendation_covers (total : Z) : bool :=
  match recommended_for total with
  | Ok w =>
      (total <=? w) && implb (total <=? 375) (w =? 450)
      && (existsb (Z.eqb w) PowerConsumption.common_psu_wattages
          || (w mod 100 =? 0))
  | Raise _ => false
  end.

(** The ordered pairs of categories for which [__init__] registers a rule. *)
Definition rule_pairs : list (string * string) :=
  [ ("cpu", "motherboard"); ("motherboard", "ram"); ("motherboard", "case");
    ("gpu", "case"); ("gpu", "power"); ("power", "motherboard") ].

Definition is_rule_pair (cat_a cat_b : string) : bool :=
  existsb (fun '(x, y) => String.eqb x cat_a && String.eqb y cat_b) rule_pairs.

(** No character of the string is [c]. *)
Definition free_of (c : ascii) (s : string) : bool :=
  string_forallb (fun x => negb (Ascii.eqb x c)) s.

(** Records for the examples of the further properties. *)
Definition storage_filters : dict :=
  [("brand", PStr "Intel"); ("min_price", PInt 100)].

Definition motherboard_atx : dict :=
  component "ASUS TUF Gaming B760-PLUS" "motherboard" "ASUS" "B760-PLUS"
            [ ("form_factor", PStr "ATX"); ("memory_support", PStr "DDR4, DDR5");
              ("power_connector", PStr "24-Pin") ].

(** A small case: the boards it lists are MicroATX and Mini-ITX. *)
Definition case_microatx : dict :=
  component "Cooler Master Q300L" "case" "Cooler Master" "Q300L"
            [("supported_form_factors", PStr "MicroATX, Mini-ITX")].

Definition psu_24pin : dict :=
  component "Corsair RM750" "power" "Corsair" "RM750"
            [("motherboard_connector", PStr "24-pin")].

Definition ram_ddr5 : dict :=
  component "Corsair Vengeance 16GB" "ram" "Corsair" "Vengeance"
            [("memory_type", PStr "DDR5-6000")].

Definition gpu_with_tdp : dict :=
  component "NVIDIA GeForce RTX 4070" "gpu" "NVIDIA" "RTX 4070"
            [("tdp", PInt 200)].

Definition table_config : list dict :=
  [motherboard_atx; ram_ddr5; ram_ddr5; example_ssd].

Definition cpu_with_nested_benchmarks : dict :=
  component "Intel Core" "cpu" "Intel" "Core"
            [("benchmarks", PDict [("cinebench_r23_single", PInt 1500)])].

(** * Properties *)

(** ** The model of the interpreter at a few inputs *)

Example float_of_string_examples :
  map float_of_string [" 12 "; "1_000.5"; ".5"; "1e400"; "-0"; "nan"]
  = [Some 12%float; Some 1000.5%float; Some 0.5%float; Some infinity;
     Some neg_zero; Some nan]
  /\ map float_of_string [""; "abc"; "1e"; "1__0"; "0x10"; "65W"]
     = [None; None; None; None; None; None].
Proof. split; reflexivity. Qed.

Example float_of_int_examples :
  float_of_int (2 ^ 53 + 1) = Ok 9007199254740992%float
  /\ float_of_int (2 ^ 1024 - 2 ^ 970 - 1) = Ok 0x1.fffffffffffffp+1023%float
  /\ float_of_int (2 ^ 1024 - 2 ^ 970) = Raise OverflowError.
Proof. repeat split; vm_compute; reflexivity. Qed.

Example round_float_examples :
  map round_float [0.5; 1.5; 2.5; (-2.5); 381.59999999999997; 172.5]%float
  = [Ok 0; Ok 2; Ok 2; Ok (-2); Ok 382; Ok 172]
  /\ round_float nan = Raise ValueError
  /\ round_float infinity = Raise OverflowError.
Proof. repeat split; reflexivity. Qed.

Example int_truediv_examples :
  int_truediv 1600 100 = Ok 16%float /\ int_truediv 1550 100 = Ok 15.5%float.
Proof. split; reflexivity. Qed.

Example py_lt_examples :
  py_lt (PInt 750) (PStr "650W") = Raise TypeError
  /\ py_lt (PStr "1000W") (PStr "550W") = Ok true
  /\ py_lt (PInt (2 ^ 53 + 1)) (PFloat 9007199254740992) = Ok false
  /\ py_lt (PList [PInt 1; PStr "a"]) (PList [PBool true; PStr "b"]) = Ok true
  /\ py_lt PNone (PInt 1) = Raise TypeError.
Proof. repeat split; reflexivity. Qed.

Example regular_expression_examples :
  findall_ddr "ddr4, ddr5" = ["ddr4"; "ddr5"]
  /\ search_ddr "16gb ddr5-6000" = Some "ddr5"
  /\ search_digits "650W" = Some "650"
  /\ search_digits "abc" = None
  /\ split_on "." "benchmarks.cinebench_r23_single"
     = ["benchmarks"; "cinebench_r23_single"]
  /\ CompatibilityChecker.normalized_socket "LGA 1700" = "lga1700".
Proof. repeat split; reflexivity. Qed.

(** ** The error monad *)

Lemma bind_Ok {A B : Type} (m : result A) (k : A -> result B) (a : A) :
  m = Ok a -> bind m k = k a.
Proof. intros ->. reflexivity. Qed.

Lemma bind_Ok_inv {A B : Type} (m : result A) (k : A -> result B) (b : B) :
  bind m k = Ok b -> exists a, m = Ok a /\ k a = Ok b.
Proof. destruct m as [a|e]; simpl; intros E; [eauto | discriminate]. Qed.

Lemma dict_item_Some (d : dict) (k : string) (v : pyval) :
  dict_get d k = Some v -> dict_item d k = Ok v.
Proof. unfold dict_item. intros ->. reflexivity. Qed.

Lemma dict_item_None (d : dict) (k : string) :
  dict_get d k = None -> dict_item d k = Raise (KeyError k).
Proof. unfold dict_item. intros ->. reflexivity. Qed.

(** ** Filtering *)

Section FilterProperties.
Context `{B : PyBuiltins}.
Import HardwareQueryTool.

Lemma _apply_spec_filters_cons (item : dict) (rest : list dict) (filters : dict)
      (m : bool) (kept : list dict) :
  item_matches item filters = Ok m ->
  _apply_spec_filters rest filters = Ok kept ->
  _apply_spec_filters (item :: rest) filters
  = Ok (if m then item :: kept else kept).
Proof. intros Hm Hk. simpl. rewrite Hm, Hk. reflexivity. Qed.

(** C7. Filtering is idempotent: when [_apply_spec_filters] returns a list,
    filtering that list again with the same filters returns the same list. *)
Theorem apply_spec_filters_idempotent (items : list dict) (filters : dict)
        (filtered_items : list dict) :
  _apply_spec_filters items filters = Ok filtered_items ->
  _apply_spec_filters filtered_items filters = Ok filtered_items.
Proof.
  revert filtered_items.
  induction items as [|item rest IH]; intros filtered_items E.
  - simpl in E. injection E as <-. reflexivity.
  - simpl in E.
    apply bind_Ok_inv in E as (m & Hm & E).
    apply bind_Ok_inv in E as (kept & Hk & E).
    injection E as <-.
    specialize (IH kept Hk).
    destruct m.
    + rewrite (_apply_spec_filters_cons item kept filters true kept Hm IH).
      reflexivity.
    + exact IH.
Qed.
End FilterProperties.

(** ** Floats: [x <= y] excludes [y < x] *)

Lemma SFleb_not_SFltb (a b : spec_float) : SFleb a b = true -> SFltb b a = false.
Proof.
  unfold SFleb, SFltb.
  destruct a as [sa|sa| |sa ma ea], b as [sb|sb| |sb mb eb]; simpl;
    try (destruct sa); try (destruct sb); simpl;
    try reflexivity; try discriminate.
  all: pose proof (Z.compare_antisym ea eb) as AZ;
    pose proof (Pos.compare_cont_antisym ma mb Eq) as AP; simpl in AP;
    change PosDef.Pos.compare_cont with Pos.compare_cont;
    destruct (ea ?= eb)%Z; destruct (eb ?= ea)%Z; try discriminate AZ;
    simpl; try reflexivity; try discriminate;
    destruct (Pos.compare_cont Eq ma mb); destruct (Pos.compare_cont Eq mb ma);
    try discriminate AP; simpl; try reflexivity; try discriminate.
Qed.

Lemma leb_not_ltb (x y : float) :
  PrimFloat.leb x y = true -> PrimFloat.ltb y x = false.
Proof. rewrite leb_spec, ltb_spec. apply SFleb_not_SFltb. Qed.

Lemma leb_not_ltb_0_8 (x : float) :
  PrimFloat.leb x 0.8 = true -> PrimFloat.ltb 0.8 x = false.
Proof. apply leb_not_ltb. Qed.

(** ** Which exceptions the operations raise *)


Lemma nje_Ok {A : Type} (a : A) : no_json_error (Ok a).
Proof. discriminate. Qed.

Lemma nje_bind {A B : Type} (m : result A) (k : A -> result B) :
  no_json_error m -> (forall a, no_json_error (k a)) -> no_json_error (bind m k).
Proof.
  destruct m as [a|e]; simpl; intros Hm Hk; [apply Hk | ].
  intros E. apply Hm. injection E as ->. reflexivity.
Qed.

Lemma nje_KeyError {A : Type} (k : string) : no_json_error (@Raise A (KeyError k)).
Proof. discriminate. Qed.

Lemma nje_TypeError {A : Type} : no_json_error (@Raise A TypeError).
Proof. discriminate. Qed.

Lemma nje_AttributeError {A : Type} : no_json_error (@Raise A AttributeError).
Proof. discriminate. Qed.

Lemma nje_ValueError {A : Type} : no_json_error (@Raise A ValueError).
Proof. discriminate. Qed.

Lemma nje_OverflowError {A : Type} : no_json_error (@Raise A OverflowError).
Proof. discriminate. Qed.

Lemma nje_RecursionError {A : Type} : no_json_error (@Raise A RecursionError).
Proof. discriminate. Qed.

Create HintDb nje.
#[local] Hint Resolve nje_Ok nje_KeyError nje_TypeError nje_AttributeError
  nje_ValueError nje_OverflowError nje_RecursionError : nje.

(** Take a computation apart along its binds, tests and matches. *)
Ltac nje_step :=
  match goal with
  | |- no_json_error (bind _ _) => apply nje_bind; [ | intros ]
  | |- no_json_error (if ?c then _ else _) => destruct c
  | |- no_json_error (match ?x with _ => _ end) => destruct x
  | |- no_json_error (let '(_, _) := ?x in _) => destruct x
  end.

Ltac nje := repeat nje_step; auto with nje.

Lemma nje_dict_item (d : dict) (k : string) : no_json_error (dict_item d k).
Proof. unfold dict_item. nje. Qed.

Lemma nje_py_get (v : pyval) (k : string) (default : pyval) :
  no_json_error (py_get v k default).
Proof. unfold py_get. destruct v; auto with nje. Qed.

Lemma nje_py_getitem (v : pyval) (k : string) : no_json_error (py_getitem v k).
Proof. unfold py_getitem. destruct v; auto using nje_dict_item with nje. Qed.

Lemma nje_py_lower (v : pyval) : no_json_error (py_lower v).
Proof. unfold py_lower. destruct v; auto with nje. Qed.

Lemma nje_py_contains (k : string) (v : pyval) : no_json_error (py_contains k v).
Proof. unfold py_contains. destruct v; auto with nje. Qed.

Lemma nje_float_of_int (n : Z) : no_json_error (float_of_int n).
Proof. unfold float_of_int. nje. Qed.

Lemma nje_py_float (v : pyval) : no_json_error (py_float v).
Proof.
  unfold py_float. destruct v; auto using nje_float_of_int with nje.
  destruct (float_of_string s); auto with nje.
Qed.

Lemma nje_py_lt (a b : pyval) : no_json_error (py_lt a b).
Proof.
  revert b.
  induction a as [ |a0|n|x|s|la IH|d IH] using pyval_nested_ind;
    intros [ |b0|m|y|t|lb|db]; simpl; auto with nje;
    try (match goal with |- no_json_error (match ?c with _ => _ end) =>
           destruct c; auto with nje end).
  revert lb.
  induction IH as [|x xs Hx _ IHxs]; intros [|y ys]; auto with nje.
  destruct (py_eq x y); [apply IHxs | apply Hx].
Qed.

#[local] Hint Resolve nje_dict_item nje_py_get nje_py_getitem nje_py_lower
  nje_py_contains nje_float_of_int nje_py_float nje_py_lt : nje.

(** ** The compatibility rule engine *)

Section CompatibilityProperties.
Context `{B : PyBuiltins} `{Adj : Adjudicator}.
Import CompatibilityChecker.

(** What [check_compatibility] does once both categories are read. *)
Lemma check_compatibility_dispatch (self : checker) (a b : dict)
      (cat_a cat_b : pyval) :
  dict_get a "category" = Some cat_a ->
  dict_get b "category" = Some cat_b ->
  check_compatibility self a b =
  match dict_get (rules self) (check_type_of cat_a cat_b) with
  | Some rule_fn =>
      '(compatible, message, confidence) <- rule_fn a b ;;
      if PrimFloat.ltb 0.8 confidence then
        Ok (verdict_of_rule (compatible, message, confidence))
      else _check_with_llm a b
  | None => _check_with_llm a b
  end.
Proof.
  intros Ha Hb. unfold check_compatibility.
  rewrite (dict_item_Some _ _ _ Ha), (dict_item_Some _ _ _ Hb). reflexivity.
Qed.

Lemma check_compatibility_low_confidence (self : checker) (a b : dict)
      (cat_a cat_b : pyval) (rule_fn : rule)
      (compatible : option bool) (message : string) (confidence : float) :
  dict_get a "category" = Some cat_a ->
  dict_get b "category" = Some cat_b ->
  dict_get (rules self) (check_type_of cat_a cat_b) = Some rule_fn ->
  rule_fn a b = Ok (compatible, message, confidence) ->
  PrimFloat.ltb 0.8 confidence = false ->
  check_compatibility self a b = _check_with_llm a b.
Proof.
  intros Ha Hb Hr Hv Hc.
  rewrite (check_compatibility_dispatch self a b cat_a cat_b Ha Hb), Hr, Hv.
  simpl. rewrite Hc. reflexivity.
Qed.

(** C1. When a rule is registered for the check type and returns a verdict,
    [check_compatibility] returns that verdict if its confidence is strictly
    above 0.8, and the adjudicator's verdict if the confidence is at most
    0.8. *)
Theorem check_compatibility_threshold (self : checker) (a b : dict)
        (cat_a cat_b : pyval) (rule_fn : rule)
        (compatible : option bool) (message : string) (confidence : float) :
  dict_get a "category" = Some cat_a ->
  dict_get b "category" = Some cat_b ->
  dict_get (rules self) (check_type_of cat_a cat_b) = Some rule_fn ->
  rule_fn a b = Ok (compatible, message, confidence) ->
  (PrimFloat.ltb 0.8 confidence = true ->
   check_compatibility self a b
   = Ok (verdict_of_rule (compatible, message, confidence)))
  /\ (PrimFloat.leb confidence 0.8 = true ->
      check_compatibility self a b = _check_with_llm a b).
Proof.
  intros Ha Hb Hr Hv. split; intros Hc.
  - rewrite (check_compatibility_dispatch self a b cat_a cat_b Ha Hb), Hr, Hv.
    simpl. rewrite Hc. reflexivity.
  - apply (check_compatibility_low_confidence self a b cat_a cat_b rule_fn
             compatible message confidence Ha Hb Hr Hv).
    apply leb_not_ltb_0_8. exact Hc.
Qed.

Lemma escalates_to_llm (self : checker) (a b : dict) :
  escalates self a b -> check_compatibility self a b = _check_with_llm a b.
Proof.
  intros (cat_a & cat_b & Ha & Hb & Hr).
  destruct (dict_get (rules self) (check_type_of cat_a cat_b)) as [rule_fn|] eqn:E.
  - destruct Hr as (c & m & k & Hv & Hc).
    exact (check_compatibility_low_confidence self a b cat_a cat_b rule_fn
             c m k Ha Hb E Hv Hc).
  - rewrite (check_compatibility_dispatch self a b cat_a cat_b Ha Hb), E.
    reflexivity.
Qed.

Lemma check_with_llm_unparseable (a b : dict) (prompt : string) :
  build_prompt a b = Ok prompt ->
  json_loads (call_llm_api prompt) = Raise JSONDecodeError ->
  _check_with_llm a b = Ok llm_failure.
Proof.
  intros Hp Hj. unfold _check_with_llm. rewrite Hp. simpl. rewrite Hj.
  reflexivity.
Qed.

(** The handler names [json.JSONDecodeError] only: any other exception of
    the decoder leaves [_check_with_llm]. *)
Lemma check_with_llm_decoder_raises (a b : dict) (prompt : string) (e : exn) :
  build_prompt a b = Ok prompt ->
  e <> JSONDecodeError ->
  json_loads (call_llm_api prompt) = Raise e ->
  _check_with_llm a b = Raise e.
Proof.
  intros Hp He Hj. unfold _check_with_llm. rewrite Hp. simpl. rewrite Hj.
  destruct e; try reflexivity. contradiction He. reflexivity.
Qed.

(** The source as it stands: the simulated answer decodes, and its three
    values are returned. *)
Lemma check_with_llm_simulated (a b : dict) (prompt : string) :
  build_prompt a b = Ok prompt ->
  json_loads simulated_llm_output
  = Ok (PDict [ ("compatible", PBool true);
                ("reason", PStr "基于LLM分析的兼容性原因");
                ("confidence", PFloat 0.7%float) ]) ->
  @_check_with_llm B simulated_adjudicator a b
  = Ok (PBool true, PStr "基于LLM分析的兼容性原因", PFloat 0.7%float).
Proof.
  intros Hp Hj. unfold _check_with_llm. rewrite Hp.
  cbn [bind call_llm_api simulated_adjudicator]. rewrite Hj. reflexivity.
Qed.

(** None of the six rules, nor the adjudicator path, raises a decode error. *)
Lemma nje_rules (check_type : string) (rule_fn : rule) (a b : dict) :
  dict_get (rules compatibility_checker) check_type = Some rule_fn ->
  no_json_error (rule_fn a b).
Proof.
  unfold compatibility_checker, __init__. cbn [rules dict_get].
  repeat (match goal with
          | |- context [String.eqb ?x ?y] => destruct (String.eqb x y)
          end;
          [ intros E; injection E as <- | ]);
    try discriminate.
  - unfold _check_cpu_motherboard, spec_get, spec_item, socket_cleaner. nje.
  - unfold _check_motherboard_memory, spec_get. nje.
  - unfold _check_motherboard_case, spec_get. nje.
  - unfold _check_gpu_case. nje.
  - unfold _check_gpu_power, spec_get. nje.
  - unfold _check_power_motherboard, spec_get. nje.
Qed.

Lemma nje_check_with_llm (a b : dict) : no_json_error (_check_with_llm a b).
Proof.
  unfold _check_with_llm, build_prompt, component_lines. nje.
Qed.

Lemma nje_check_compatibility (a b : dict) :
  no_json_error (check_compatibility compatibility_checker a b).
Proof.
  unfold check_compatibility.
  apply nje_bind; [auto with nje | intros cat_a].
  apply nje_bind; [auto with nje | intros cat_b].
  destruct (dict_get (rules compatibility_checker) (check_type_of cat_a cat_b))
    as [rule_fn|] eqn:E.
  - apply nje_bind; [exact (nje_rules _ rule_fn a b E) | intros [[c m] k]].
    destruct (PrimFloat.ltb 0.8 k); [apply nje_Ok | apply nje_check_with_llm].
  - apply nje_check_with_llm.
Qed.


(** C10. When the adjudicator is consulted and its answer parses as a JSON
    object that lacks one of the keys [compatible], [reason], [confidence],
    [check_compatibility] raises [KeyError] for a missing key: it does not
    return the failure verdict. *)
Theorem check_compatibility_missing_key (self : checker) (a b : dict)
        (prompt : string) (answer : dict) :
  escalates self a b ->
  build_prompt a b = Ok prompt ->
  json_loads (call_llm_api prompt) = Ok (PDict answer) ->
  dict_get answer "compatible" = None \/ dict_get answer "reason" = None
  \/ dict_get answer "confidence" = None ->
  exists key,
    In key ["compatible"; "reason"; "confidence"]
    /\ dict_get answer key = None
    /\ check_compatibility self a b = Raise (KeyError key).
Proof.
  intros He Hp Hj Hm.
  rewrite (escalates_to_llm self a b He).
  unfold _check_with_llm. rewrite Hp. simpl. rewrite Hj. simpl.
  unfold dict_item.
  destruct (dict_get answer "compatible") as [c|] eqn:Ec.
  - destruct (dict_get answer "reason") as [r|] eqn:Er.
    + destruct (dict_get answer "confidence") as [k|] eqn:Ek.
      * destruct Hm as [Hm|[Hm|Hm]]; discriminate Hm.
      * exists "confidence". simpl. auto.
    + exists "reason". simpl. auto.
  - exists "compatible". simpl. auto.
Qed.

(** *** Dispatch by category *)

Lemma rules_gpu_power :
  dict_get (rules compatibility_checker) "gpu_power" = Some _check_gpu_power.
Proof. reflexivity. Qed.

Lemma rules_power_motherboard :
  dict_get (rules compatibility_checker) "power_motherboard"
  = Some _check_power_motherboard.
Proof. reflexivity. Qed.

Lemma rules_cpu_motherboard :
  dict_get (rules compatibility_checker) "cpu_motherboard"
  = Some _check_cpu_motherboard.
Proof. reflexivity. Qed.

(** C4, as the code has it. The local GPU-PSU rule is registered under the
    check type [gpu_power] and the PSU-motherboard rule under
    [power_motherboard]: a pair of categories [gpu] then [power] (or [power]
    then [motherboard]) is dispatched to the local rule, whose verdict is
    final above 0.8.  For [gpu] then [psu] the check type is [gpu_psu], for
    which no rule is registered, and the pair goes to the adjudicator; so
    does [psu] then [motherboard]. *)
Theorem check_compatibility_power_dispatch (a b : dict) :
  (dict_get a "category" = Some (PStr "gpu") ->
   dict_get b "category" = Some (PStr "power") ->
   check_compatibility compatibility_checker a b =
   ('(compatible, message, confidence) <- _check_gpu_power a b ;;
    if PrimFloat.ltb 0.8 confidence then
      Ok (verdict_of_rule (compatible, message, confidence))
    else _check_with_llm a b))
  /\ (dict_get a "category" = Some (PStr "power") ->
      dict_get b "category" = Some (PStr "motherboard") ->
      check_compatibility compatibility_checker a b =
      ('(compatible, message, confidence) <- _check_power_motherboard a b ;;
       if PrimFloat.ltb 0.8 confidence then
         Ok (verdict_of_rule (compatible, message, confidence))
       else _check_with_llm a b))
  /\ (dict_get a "category" = Some (PStr "gpu") ->
      dict_get b "category" = Some (PStr "psu") ->
      check_type_of (PStr "gpu") (PStr "psu") = "gpu_psu"
      /\ check_compatibility compatibility_checker a b = _check_with_llm a b)
  /\ (dict_get a "category" = Some (PStr "psu") ->
      dict_get b "category" = Some (PStr "motherboard") ->
      check_type_of (PStr "psu") (PStr "motherboard") = "psu_motherboard"
      /\ check_compatibility compatibility_checker a b = _check_with_llm a b).
Proof.
  split; [ | split; [ | split ] ]; intros Ha Hb;
    rewrite (check_compatibility_dispatch _ a b _ _ Ha Hb);
    try split; reflexivity.
Qed.

(** *** The CPU-motherboard rule *)

Lemma socket_cleaner_str (s : string) :
  socket_cleaner (PStr s) = Ok (normalized_socket s).
Proof. reflexivity. Qed.

Lemma nonempty_true (s : string) : s <> "" -> nonempty s = true.
Proof.
  intros Hs. unfold nonempty. apply negb_true_iff, String.eqb_neq. exact Hs.
Qed.

Lemma nonempty_false (s : string) : s = "" -> nonempty s = false.
Proof. intros ->. reflexivity. Qed.

(** A socket whose cleaned form is not empty is stored under the key. *)
Lemma spec_item_of_get (c : dict) (s : string) :
  spec_get c "socket" (PStr "") = Ok (PStr s) ->
  normalized_socket s <> "" ->
  spec_item c "socket" = Ok (PStr s).
Proof.
  unfold spec_get, spec_item. destruct (dict_item c "specs") as [specs|e];
    cbn [bind]; [ | discriminate ].
  destruct specs; cbn [py_get py_getitem]; try discriminate.
  unfold dict_item. destruct (dict_get d "socket") as [v|].
  - intros E _. exact E.
  - intros E Hn. injection E as <-. exfalso. apply Hn. reflexivity.
Qed.

(** The socket field is missing: [.get] yields the empty string. *)
Lemma spec_get_missing (c : dict) (specs : dict) :
  dict_get c "specs" = Some (PDict specs) ->
  dict_get specs "socket" = None ->
  spec_get c "socket" (PStr "") = Ok (PStr "").
Proof.
  intros Hs Hk. unfold spec_get. rewrite (dict_item_Some _ _ _ Hs).
  cbn [bind py_get]. rewrite Hk. reflexivity.
Qed.

(** C9, as the code has it. For a CPU and a motherboard whose sockets, where
    given, are ASCII strings (a missing socket stands as the empty string):
    the rule compares the sockets lower-cased and stripped of everything but
    [a-z0-9]; when both cleaned sockets are non-empty it answers compatible
    with confidence 1.0 if they are equal and incompatible with confidence
    1.0 if they differ; when either cleaned socket is empty (the field is
    missing, empty, or holds no letter or digit) it answers undetermined with
    confidence 0.5, and [check_compatibility] goes to the adjudicator. *)
Theorem check_cpu_motherboard_sockets (cpu motherboard : dict) (cs ms : string) :
  spec_get cpu "socket" (PStr "") = Ok (PStr cs) ->
  spec_get motherboard "socket" (PStr "") = Ok (PStr ms) ->
  ascii_text cs = true ->
  ascii_text ms = true ->
  (normalized_socket cs <> "" -> normalized_socket ms <> "" ->
   normalized_socket cs = normalized_socket ms ->
   _check_cpu_motherboard cpu motherboard
   = Ok (Some true, "兼容: CPU插槽(" ++ cs ++ ")与主板插槽匹配", 1.0%float))
  /\ (normalized_socket cs <> "" -> normalized_socket ms <> "" ->
      normalized_socket cs <> normalized_socket ms ->
      _check_cpu_motherboard cpu motherboard
      = Ok (Some false,
            "不兼容: CPU(" ++ cs ++ ")与主板(" ++ ms ++ ")插槽不匹配", 1.0%float))
  /\ (normalized_socket cs = "" \/ normalized_socket ms = "" ->
      _check_cpu_motherboard cpu motherboard
      = Ok (None, "无法确定: 插槽信息缺失", 0.5%float)
      /\ (dict_get cpu "category" = Some (PStr "cpu") ->
          dict_get motherboard "category" = Some (PStr "motherboard") ->
          check_compatibility compatibility_checker cpu motherboard
          = _check_with_llm cpu motherboard)).
Proof.
  intros Hc Hm _ _.
  assert (Hrule : _check_cpu_motherboard cpu motherboard =
    if nonempty (normalized_socket cs) && nonempty (normalized_socket ms) then
      if String.eqb (normalized_socket cs) (normalized_socket ms) then
        c <- spec_item cpu "socket" ;;
        Ok (Some true, "兼容: CPU插槽(" ++ py_str c ++ ")与主板插槽匹配", 1.0%float)
      else
        c <- spec_item cpu "socket" ;;
        m <- spec_item motherboard "socket" ;;
        Ok (Some false,
            "不兼容: CPU(" ++ py_str c ++ ")与主板(" ++ py_str m ++ ")插槽不匹配",
            1.0%float)
    else Ok (None, "无法确定: 插槽信息缺失", 0.5%float)).
  { unfold _check_cpu_motherboard. rewrite Hc. cbn [bind].
    rewrite socket_cleaner_str. cbn [bind]. rewrite Hm. cbn [bind].
    rewrite socket_cleaner_str. reflexivity. }
  split; [ | split ].
  - intros Hnc Hnm He. rewrite Hrule.
    rewrite (nonempty_true _ Hnc), (nonempty_true _ Hnm). cbn [andb].
    rewrite (proj2 (String.eqb_eq _ _) He).
    rewrite (spec_item_of_get cpu cs Hc Hnc). reflexivity.
  - intros Hnc Hnm He. rewrite Hrule.
    rewrite (nonempty_true _ Hnc), (nonempty_true _ Hnm). cbn [andb].
    rewrite (proj2 (String.eqb_neq _ _) He).
    rewrite (spec_item_of_get cpu cs Hc Hnc).
    rewrite (spec_item_of_get motherboard ms Hm Hnm). reflexivity.
  - intros He.
    assert (Hv : _check_cpu_motherboard cpu motherboard
                 = Ok (None, "无法确定: 插槽信息缺失", 0.5%float)).
    { rewrite Hrule. destruct He as [He|He].
      - rewrite (nonempty_false _ He). reflexivity.
      - rewrite (nonempty_false _ He), andb_false_r. reflexivity. }
    split; [exact Hv | ].
    intros Ha Hb.
    exact (check_compatibility_low_confidence compatibility_checker
             cpu motherboard (PStr "cpu") (PStr "motherboard")
             _check_cpu_motherboard None "无法确定: 插槽信息缺失" 0.5%float
             Ha Hb rules_cpu_motherboard Hv eq_refl).
Qed.

(** A socket that is not a string has no [lower]: the rule raises. *)
Lemma check_cpu_motherboard_numeric_socket (cpu motherboard : dict) (n : Z) :
  spec_get cpu "socket" (PStr "") = Ok (PInt n) ->
  _check_cpu_motherboard cpu motherboard = Raise AttributeError.
Proof. intros Hc. unfold _check_cpu_motherboard. rewrite Hc. reflexivity. Qed.

(** C3, first part. The GPU-PSU rule compares the raw values: a wattage
    kept as text against a number raises [TypeError], and nothing in
    [check_compatibility] catches it. *)
Lemma check_gpu_power_raises :
  check_compatibility compatibility_checker gpu_650w_text (psu_750w "power")
  = Raise TypeError.
Proof. reflexivity. Qed.
End CompatibilityProperties.


(** ** The power estimator *)

Section PowerProperties.
Context `{B : PyBuiltins}.
Import PowerConsumption.

Lemma py_contains_dict (k : string) (d : dict) :
  py_contains k (PDict d) = Ok (dict_mem d k).
Proof. reflexivity. Qed.

Lemma dict_mem_None {V : Type} (d : list (string * V)) (k : string) :
  dict_get d k = None -> dict_mem d k = false.
Proof. unfold dict_mem. intros ->. reflexivity. Qed.

Lemma dict_mem_Some {V : Type} (d : list (string * V)) (k : string) (v : V) :
  dict_get d k = Some v -> dict_mem d k = true.
Proof. unfold dict_mem. intros ->. reflexivity. Qed.

(** No [tdp], and a [recommended_psu] without a digit: 150, whatever the
    model. *)
Lemma gpu_base_power_unreadable_psu (gpu specs : dict) (v : pyval) :
  dict_get gpu "specs" = Some (PDict specs) ->
  dict_get specs "tdp" = None ->
  dict_get specs "recommended_psu" = Some v ->
  search_digits (py_str v) = None ->
  gpu_base_power gpu = Ok (PInt 150).
Proof.
  intros Hs Ht Hp Hd. unfold gpu_base_power.
  rewrite (dict_item_Some _ _ _ Hs). cbn [bind].
  rewrite py_contains_dict, (dict_mem_None _ _ Ht). cbn [bind].
  rewrite py_contains_dict, (dict_mem_Some _ _ _ Hp). cbn [bind py_getitem].
  rewrite (dict_item_Some _ _ _ Hp). cbn [bind]. rewrite Hd. reflexivity.
Qed.

(** Neither [tdp] nor [recommended_psu]: the table of model names. *)
Lemma gpu_base_power_by_model (gpu specs : dict) (m : string) :
  dict_get gpu "specs" = Some (PDict specs) ->
  dict_get specs "tdp" = None ->
  dict_get specs "recommended_psu" = None ->
  dict_get gpu "model" = Some (PStr m) ->
  gpu_base_power gpu = Ok (PInt (gpu_power_by_model (lower m))).
Proof.
  intros Hs Ht Hp Hm. unfold gpu_base_power.
  rewrite (dict_item_Some _ _ _ Hs). cbn [bind].
  rewrite py_contains_dict, (dict_mem_None _ _ Ht). cbn [bind].
  rewrite py_contains_dict, (dict_mem_None _ _ Hp). cbn [bind].
  rewrite (dict_item_Some _ _ _ Hm). reflexivity.
Qed.

Lemma gpu_power_by_model_values (gpu_model : string) :
  (is_substring "rtx 4090" gpu_model = true -> gpu_power_by_model gpu_model = 450)
  /\ (is_substring "rtx 4080" gpu_model = true ->
      is_substring "rtx 4090" gpu_model = false ->
      is_substring "rx 7900 xtx" gpu_model = false ->
      gpu_power_by_model gpu_model = 320)
  /\ (gpu_power_by_model gpu_model = 150 <->
      existsb (fun name => is_substring name gpu_model)
              ["rtx 4090"; "rx 7900 xtx"; "rtx 4080"; "rx 7900 xt";
               "rtx 4070"; "rx 7800 xt"; "rtx 4060"; "rx 7700 xt"] = false).
Proof.
  unfold gpu_power_by_model. cbn [existsb].
  destruct (is_substring "rtx 4090" gpu_model),
           (is_substring "rx 7900 xtx" gpu_model),
           (is_substring "rtx 4080" gpu_model),
           (is_substring "rx 7900 xt" gpu_model),
           (is_substring "rtx 4070" gpu_model),
           (is_substring "rx 7800 xt" gpu_model),
           (is_substring "rtx 4060" gpu_model),
           (is_substring "rx 7700 xt" gpu_model);
    cbn [orb]; repeat split; intros; try reflexivity; try discriminate.
Qed.

(** C5, as the code has it. For a GPU record that holds a model, has no
    [tdp] and whose [recommended_psu] prints as an ASCII text without a
    digit, the estimate does not raise and takes the fixed default 150 (172.5
    with the margin), whatever the model.  The table of model names is used
    when the record has neither [tdp] nor [recommended_psu]: 450 for a name
    that holds [rtx 4090] or [rx 7900 xtx], else 320 for [rtx 4080] or
    [rx 7900 xt], else 200 for [rtx 4070] or [rx 7800 xt], else 160 for
    [rtx 4060] or [rx 7700 xt], else 150; the estimate does not raise there
    either.  (No letter of these names is the lower case of a character
    outside ASCII, so the model's name may be any text.) *)
Theorem gpu_power_fallback (gpu specs : dict) (model : pyval) :
  dict_get gpu "category" = Some (PStr "gpu") ->
  dict_get gpu "model" = Some model ->
  dict_get gpu "specs" = Some (PDict specs) ->
  dict_get specs "tdp" = None ->
  (forall v, dict_get specs "recommended_psu" = Some v ->
             ascii_text (py_str v) = true ->
             search_digits (py_str v) = None ->
             gpu_base_power gpu = Ok (PInt 150)
             /\ calculate_power_consumption [gpu]
                = Ok {| total_power_estimate := 172;
                        recommended_psu_wattage := 450;
                        component_breakdown :=
                          [("gpu_" ++ py_str model, NFloat 172.5)] |})
  /\ (forall m, dict_get specs "recommended_psu" = None ->
                model = PStr m ->
                let named := fun a b : string =>
                  is_substring a (lower m) || is_substring b (lower m) in
                gpu_base_power gpu
                = Ok (PInt (if named "rtx 4090" "rx 7900 xtx" then 450
                            else if named "rtx 4080" "rx 7900 xt" then 320
                            else if named "rtx 4070" "rx 7800 xt" then 200
                            else if named "rtx 4060" "rx 7700 xt" then 160
                            else 150))
                /\ exists report,
                     calculate_power_consumption [gpu] = Ok report
                     /\ map fst (component_breakdown report) = ["gpu_" ++ m]).
Proof.
  intros Hc Hm Hs Ht. split.
  - intros v Hp _ Hd.
    split; [exact (gpu_base_power_unreadable_psu gpu specs v Hs Ht Hp Hd) | ].
    unfold calculate_power_consumption.
    cbn [count_components of_category add_cpu add_gpus].
    rewrite (dict_item_Some _ _ _ Hc). cbn [bind hashable eq_str].
    change (String.eqb "gpu" "cpu") with false.
    change (String.eqb "gpu" "gpu") with true.
    cbn [add_cpu bind add_gpus]. unfold add_gpu.
    rewrite (gpu_base_power_unreadable_psu gpu specs v Hs Ht Hp Hd).
    rewrite (dict_item_Some _ _ _ Hm).
    reflexivity.
  - intros m Hp -> named.
    pose proof (gpu_base_power_by_model gpu specs m Hs Ht Hp Hm) as Hbase.
    split; [exact Hbase | ].
    unfold calculate_power_consumption.
    cbn [count_components of_category add_cpu add_gpus].
    rewrite (dict_item_Some _ _ _ Hc). cbn [bind hashable eq_str].
    change (String.eqb "gpu" "cpu") with false.
    change (String.eqb "gpu" "gpu") with true.
    cbn [add_cpu bind add_gpus]. unfold add_gpu.
    rewrite Hbase, (dict_item_Some _ _ _ Hm). unfold gpu_power_by_model.
    destruct (is_substring "rtx 4090" (lower m)
              || is_substring "rx 7900 xtx" (lower m));
      [eexists; split; reflexivity | ].
    destruct (is_substring "rtx 4080" (lower m)
              || is_substring "rx 7900 xt" (lower m));
      [eexists; split; reflexivity | ].
    destruct (is_substring "rtx 4070" (lower m)
              || is_substring "rx 7800 xt" (lower m));
      [eexists; split; reflexivity | ].
    destruct (is_substring "rtx 4060" (lower m)
              || is_substring "rx 7700 xt" (lower m));
      eexists; split; reflexivity.
Qed.

(** A GPU record without a model: its share is computed and added, and the
    label of the breakdown raises. *)
Lemma add_gpu_without_model (t : totals) (gpu : dict) (base : pyval)
      (gpu_power : float) (total : num) :
  gpu_base_power gpu = Ok base ->
  py_mul_float base 1.15 = Ok gpu_power ->
  num_add (total_power t) (NFloat gpu_power) = Ok total ->
  dict_get gpu "model" = None ->
  add_gpu t gpu = Raise (KeyError "model").
Proof.
  intros Hb Hp Ht Hm. unfold add_gpu. rewrite Hb. cbn [bind]. rewrite Hp.
  cbn [bind]. rewrite Ht. cbn [bind]. rewrite (dict_item_None _ _ Hm).
  reflexivity.
Qed.

(** C8 at the example's records: the GPU record has no [model], and the
    estimator raises [KeyError] when it labels the GPU's share. *)
Theorem power_example_raises :
  calculate_power_consumption example_config = Raise (KeyError "model").
Proof.
  assert (Hgpu : add_gpu {| total_power := NFloat 78;
                            breakdown := [("cpu", NFloat 78)] |} example_gpu
                 = Raise (KeyError "model")).
  { apply (add_gpu_without_model _ example_gpu (PInt 200) (200 * 1.15)%float
             (NFloat (78 + 200 * 1.15)%float)); reflexivity. }
  unfold calculate_power_consumption, example_config.
  change (count_components [example_cpu; example_gpu; example_ram; example_ssd] [])
    with (Ok [(PStr "cpu", 1); (PStr "gpu", 1); (PStr "ram", 1); (PStr "ssd", 1)]).
  cbn [bind].
  change (of_category "cpu" [example_cpu; example_gpu; example_ram; example_ssd])
    with (Ok [example_cpu]).
  cbn [bind].
  change (add_cpu {| total_power := NInt 0; breakdown := [] |} [example_cpu])
    with (Ok {| total_power := NFloat 78; breakdown := [("cpu", NFloat 78)] |}).
  cbn [bind].
  change (of_category "gpu" [example_cpu; example_gpu; example_ram; example_ssd])
    with (Ok [example_gpu]).
  cbn [bind add_gpus]. rewrite Hgpu. reflexivity.
Qed.

(** The arithmetic of the example, once the GPU record holds a model: 78.0
    for the CPU, [200 * 1.15] for the GPU (229.99999999999997 in binary64),
    5 and 5, a total of 318, and a recommended wattage of 450. *)
Lemma power_example_with_model (model : pyval) :
  calculate_power_consumption (example_config_with_model model)
  = Ok {| total_power_estimate := 318;
          recommended_psu_wattage := 450;
          component_breakdown :=
            [ ("cpu", NFloat 78); ("gpu_" ++ py_str model, NFloat (200 * 1.15));
              ("ram", NInt 5); ("ssd", NInt 5) ] |}.
Proof. reflexivity. Qed.

(** C3, third part: a [tdp] kept as text cannot be scaled. *)
Lemma power_text_tdp_raises :
  calculate_power_consumption [cpu_with_text_tdp] = Raise TypeError.
Proof. reflexivity. Qed.
End PowerProperties.

(** ** The filter engine, continued *)

Section ValueMatchProperties.
Context `{B : PyBuiltins}.
Import HardwareQueryTool.

(** A filter value without an operator: the printed forms are compared. *)
Lemma value_matches_plain (actual_value filter_value : pyval) :
  (forall f, filter_value = PStr f ->
             startswith f ">" = false /\ startswith f "<" = false) ->
  _value_matches actual_value filter_value
  = Ok (String.eqb (py_str actual_value) (py_str filter_value)).
Proof.
  intros Hf. unfold _value_matches.
  destruct filter_value as [ | | | |f| | ]; try reflexivity.
  destruct (Hf f eq_refl) as [Hg Hl].
  assert (Hge : startswith f ">=" = false).
  { destruct f as [|c f']; [reflexivity | ]. unfold startswith in *.
    cbn [String.prefix] in *.
    destruct (ascii_dec ">" c); [destruct f'; discriminate Hg | reflexivity]. }
  assert (Hle : startswith f "<=" = false).
  { destruct f as [|c f']; [reflexivity | ]. unfold startswith in *.
    cbn [String.prefix] in *.
    destruct (ascii_dec "<" c); [destruct f'; discriminate Hl | reflexivity]. }
  rewrite Hge, Hle, Hg, Hl. reflexivity.
Qed.

(** A filter value that starts with an operator goes to the arm of the first
    operator that matches, in the order [>=], [<=], [>], [<]. *)
Lemma value_matches_operator (actual_value : pyval) (f : string) :
  (startswith f ">=" = true ->
   _value_matches actual_value (PStr f)
   = compare_with (fun a t => PrimFloat.leb t a) actual_value (drop 2 f))
  /\ (startswith f "<=" = true ->
      _value_matches actual_value (PStr f)
      = compare_with (fun a t => PrimFloat.leb a t) actual_value (drop 2 f))
  /\ (startswith f ">" = true -> startswith f ">=" = false ->
      _value_matches actual_value (PStr f)
      = compare_with (fun a t => PrimFloat.ltb t a) actual_value (drop 1 f))
  /\ (startswith f "<" = true -> startswith f "<=" = false ->
      _value_matches actual_value (PStr f)
      = compare_with (fun a t => PrimFloat.ltb a t) actual_value (drop 1 f)).
Proof.
  unfold _value_matches. repeat split.
  - intros ->. reflexivity.
  - intros Hle. destruct (startswith f ">=") eqn:Hge; [ | rewrite Hle; reflexivity ].
    exfalso. destruct f as [|c f']; [discriminate | ].
    unfold startswith in *. cbn [String.prefix] in *.
    destruct (ascii_dec ">" c) as [<-|]; [ | discriminate ].
    destruct (ascii_dec "<" ">"); discriminate.
  - intros Hg Hge. rewrite Hge.
    destruct (startswith f "<=") eqn:Hle; [ | rewrite Hg; reflexivity ].
    exfalso. destruct f as [|c f']; [discriminate | ].
    unfold startswith in *. cbn [String.prefix] in *.
    destruct (ascii_dec "<" c) as [<-|]; [ | discriminate ].
    destruct (ascii_dec ">" "<"); discriminate.
  - intros Hl Hle. rewrite Hle.
    destruct (startswith f ">=") eqn:Hge.
    + exfalso. destruct f as [|c f']; [discriminate | ].
      unfold startswith in *. cbn [String.prefix] in *.
      destruct (ascii_dec ">" c) as [<-|]; [ | discriminate ].
      destruct (ascii_dec "<" ">"); discriminate.
    + destruct (startswith f ">") eqn:Hg; [ | rewrite Hl; reflexivity ].
      exfalso. destruct f as [|c f']; [discriminate | ].
      unfold startswith in *. cbn [String.prefix] in *.
      destruct (ascii_dec ">" c) as [<-|]; [ | discriminate ].
      destruct (ascii_dec "<" ">"); discriminate.
Qed.

(** An operator arm: the comparison of the two floats when both parse,
    exclusion when a parse raises [ValueError] or [TypeError]. *)
Lemma compare_with_parsed (op : float -> float -> bool) (actual_value : pyval)
      (rest : string) (threshold actual : float) :
  float_of_string rest = Some threshold ->
  py_float actual_value = Ok actual ->
  compare_with op actual_value rest = Ok (op actual threshold).
Proof.
  intros Ht Ha. unfold compare_with. cbn [py_float]. rewrite Ht. cbn [bind].
  rewrite Ha. reflexivity.
Qed.

Lemma compare_with_bad_threshold (op : float -> float -> bool)
      (actual_value : pyval) (rest : string) :
  float_of_string rest = None ->
  compare_with op actual_value rest = Ok false.
Proof. intros Ht. unfold compare_with. cbn [py_float]. rewrite Ht. reflexivity. Qed.

Lemma compare_with_bad_value (op : float -> float -> bool)
      (actual_value : pyval) (rest : string) :
  py_float actual_value = Raise ValueError \/ py_float actual_value = Raise TypeError ->
  compare_with op actual_value rest = Ok false.
Proof.
  intros Ha. unfold compare_with. cbn [py_float].
  destruct (float_of_string rest); [ | reflexivity ].
  cbn [bind]. destruct Ha as [-> | ->]; reflexivity.
Qed.

(** An integer too large for a float is neither: [float] raises
    [OverflowError], which the handler lets through. *)
Lemma compare_with_overflow (op : float -> float -> bool)
      (actual_value : pyval) (rest : string) (threshold : float) :
  float_of_string rest = Some threshold ->
  py_float actual_value = Raise OverflowError ->
  compare_with op actual_value rest = Raise OverflowError.
Proof.
  intros Ht Ha. unfold compare_with. cbn [py_float]. rewrite Ht. cbn [bind].
  rewrite Ha. reflexivity.
Qed.

(** [float(v)] raises [ValueError], [TypeError] or [OverflowError] only. *)
Lemma py_float_raises (v : pyval) (e : exn) :
  py_float v = Raise e -> e = ValueError \/ e = TypeError \/ e = OverflowError.
Proof.
  destruct v as [ |b|n|x|s|l|d]; cbn [py_float]; intros E;
    try (injection E as <-; auto); try discriminate.
  - unfold float_of_int in E.
    destruct (binary_normalize prec emax n 0 false); try discriminate.
    injection E as <-. auto.
  - destruct (float_of_string s); [discriminate | ]. injection E as <-. auto.
Qed.

(** Only an integer overflows. *)
Lemma py_float_overflow (v : pyval) :
  py_float v = Raise OverflowError -> exists n, v = PInt n.
Proof.
  destruct v as [ |b|n|x|s|l|d]; cbn [py_float]; intros E; try discriminate.
  - exists n. reflexivity.
  - destruct (float_of_string s); discriminate.
Qed.

(** Overflow is the only way out: when [float(actual_value)] does not raise
    [OverflowError], [_value_matches] returns a truth value. *)
Lemma value_matches_returns (actual_value filter_value : pyval) :
  py_float actual_value <> Raise OverflowError ->
  exists b, _value_matches actual_value filter_value = Ok b.
Proof.
  intros Hv.
  assert (Hc : forall op rest, exists b, compare_with op actual_value rest = Ok b).
  { intros op rest. unfold compare_with. cbn [py_float].
    destruct (float_of_string rest) as [t|]; cbn [bind]; [ | eauto ].
    destruct (py_float actual_value) as [x|e] eqn:Ea; cbn [bind]; [eauto | ].
    destruct (py_float_raises actual_value e Ea) as [-> | [-> | ->]]; eauto.
    contradiction Hv. reflexivity. }
  unfold _value_matches.
  destruct filter_value as [ | | | |f| | ]; eauto.
  destruct (startswith f ">="); [apply Hc | ].
  destruct (startswith f "<="); [apply Hc | ].
  destruct (startswith f ">"); [apply Hc | ].
  destruct (startswith f "<"); [apply Hc | eauto].
Qed.

(** C6 at an integer of 401 digits: the comparison raises instead of
    excluding the record. *)
Theorem value_matches_overflow :
  _value_matches (PInt (10 ^ 400)) (PStr ">=1") = Raise OverflowError.
Proof. vm_compute. reflexivity. Qed.

(** C3, second part: the descent along a dotted key meets a number where
    it expects a mapping. *)
Lemma apply_spec_filters_raises :
  _apply_spec_filters [cpu_with_flat_benchmarks] benchmark_filters
  = Raise TypeError.
Proof. reflexivity. Qed.
End ValueMatchProperties.

(** ** Malformed spec values *)

(** C3 at three inputs. Each of the three operations raises [TypeError] on a
    malformed spec value: the GPU-PSU rule on a wattage kept as text, the
    descent along a dotted key on a value that is not a mapping, and the CPU
    estimate on a [tdp] kept as text. *)
Theorem malformed_specs_raise `{B : PyBuiltins} `{Adj : Adjudicator} :
  CompatibilityChecker.check_compatibility
    CompatibilityChecker.compatibility_checker gpu_650w_text (psu_750w "power")
  = Raise TypeError
  /\ HardwareQueryTool._apply_spec_filters [cpu_with_flat_benchmarks]
       benchmark_filters = Raise TypeError
  /\ PowerConsumption.calculate_power_consumption [cpu_with_text_tdp]
     = Raise TypeError.
Proof.
  split; [ | split ].
  - apply check_gpu_power_raises.
  - apply apply_spec_filters_raises.
  - apply power_text_tdp_raises.
Qed.

(** ** The properties at concrete records *)

Module Examples.
Import HardwareQueryTool CompatibilityChecker PowerConsumption.

Lemma apply_spec_filters_idempotent_witness :
  @_apply_spec_filters example_builtins
    [cpu_with_cores 8; cpu_with_cores 4; cpu_without_socket] core_filters
  = Ok [cpu_with_cores 8]
  /\ @_apply_spec_filters example_builtins [cpu_with_cores 8] core_filters
     = Ok [cpu_with_cores 8].
Proof.
  split; [reflexivity | ].
  apply (@apply_spec_filters_idempotent example_builtins
           [cpu_with_cores 8; cpu_with_cores 4; cpu_without_socket]
           core_filters [cpu_with_cores 8]).
  reflexivity.
Defined.

(** Exactly 0.8 goes to the adjudicator; the socket rule at 1.0 is final. *)
Lemma check_compatibility_threshold_witness :
  simulated_check (checker_with_confidence 0.8) cpu_lga1700 motherboard_lga1700
  = Ok simulated_verdict
  /\ simulated_check source_checker cpu_lga1700 motherboard_lga1700
     = Ok (PBool true, PStr "兼容: CPU插槽(LGA 1700)与主板插槽匹配", PFloat 1.0%float).
Proof.
  split.
  - unfold simulated_check.
    rewrite (proj2 (@check_compatibility_threshold example_builtins
                      simulated_adjudicator (checker_with_confidence 0.8)
                      cpu_lga1700 motherboard_lga1700
                      (PStr "cpu") (PStr "motherboard")
                      (fun _ _ => Ok (Some true, "rule", 0.8%float))
                      (Some true) "rule" 0.8%float
                      eq_refl eq_refl eq_refl eq_refl) eq_refl).
    reflexivity.
  - exact (proj1 (@check_compatibility_threshold example_builtins
                    simulated_adjudicator source_checker
                    cpu_lga1700 motherboard_lga1700
                    (PStr "cpu") (PStr "motherboard")
                    (@_check_cpu_motherboard example_builtins)
                    (Some true) "兼容: CPU插槽(LGA 1700)与主板插槽匹配" 1.0%float
                    eq_refl eq_refl eq_refl eq_refl) eq_refl).
Defined.

(** Just above the threshold the rule's verdict stands. *)
Lemma check_compatibility_above_threshold :
  simulated_check (checker_with_confidence 0.81) cpu_lga1700 motherboard_lga1700
  = Ok (PBool true, PStr "rule", PFloat 0.81%float).
Proof. reflexivity. Qed.

Lemma escalates_without_socket (Adj : Adjudicator) :
  @escalates example_builtins source_checker cpu_without_socket motherboard_lga1700.
Proof.
  exists (PStr "cpu"), (PStr "motherboard").
  split; [reflexivity | split; [reflexivity | ]].
  change (exists compatible message confidence,
            @_check_cpu_motherboard example_builtins
              cpu_without_socket motherboard_lga1700
            = Ok (compatible, message, confidence)
            /\ PrimFloat.ltb 0.8 confidence = false).
  exists None, "无法确定: 插槽信息缺失", 0.5%float.
  split; reflexivity.
Defined.


Lemma check_compatibility_missing_key_witness :
  exists key,
    In key ["compatible"; "reason"; "confidence"]
    /\ dict_get (@nil (string * pyval)) key = None
    /\ terse_check source_checker cpu_without_socket motherboard_lga1700
       = Raise (KeyError key).
Proof.
  exact (@check_compatibility_missing_key example_builtins terse_adjudicator
           source_checker cpu_without_socket motherboard_lga1700 _ []
           (escalates_without_socket terse_adjudicator)
           eq_refl eq_refl (or_introl eq_refl)).
Defined.

(** C4 as stated fails: for [gpu] then [psu] the check type is [gpu_psu], no
    rule is registered for it, and the adjudicator's verdict is returned,
    although the GPU-PSU rule would have been decisive (0.9) on this pair. *)
Lemma gpu_psu_not_dispatched :
  @check_type_of example_builtins (PStr "gpu") (PStr "psu") = "gpu_psu"
  /\ dict_mem (rules source_checker) "gpu_psu" = false
  /\ dict_mem (rules source_checker) "psu_motherboard" = false
  /\ @_check_gpu_power example_builtins (gpu_650w "gpu") (psu_750w "psu")
     = Ok (Some true, "电源满足需求", 0.9%float)
  /\ simulated_check source_checker (gpu_650w "gpu") (psu_750w "psu")
     = Ok simulated_verdict.
Proof. repeat split; reflexivity. Qed.

Lemma check_compatibility_power_dispatch_witness :
  simulated_check source_checker (gpu_650w "gpu") (psu_750w "power")
  = Ok (PBool true, PStr "电源满足需求", PFloat 0.9%float).
Proof.
  unfold simulated_check, source_checker.
  rewrite (proj1 (@check_compatibility_power_dispatch example_builtins
                    simulated_adjudicator (gpu_650w "gpu") (psu_750w "power"))
             eq_refl eq_refl).
  reflexivity.
Defined.

(** C9 as stated fails: both sockets are present and their cleaned forms are
    equal, yet the rule answers undetermined with confidence 0.5. *)
Lemma dash_sockets_undetermined :
  @spec_item cpu_dash_socket "socket" = Ok (PStr "-")
  /\ @spec_item motherboard_dash_socket "socket" = Ok (PStr "-")
  /\ normalized_socket "-" = normalized_socket "-"
  /\ @_check_cpu_motherboard example_builtins cpu_dash_socket motherboard_dash_socket
     = Ok (None, "无法确定: 插槽信息缺失", 0.5%float).
Proof. repeat split; reflexivity. Qed.

Lemma check_cpu_motherboard_sockets_witness :
  normalized_socket "LGA 1700" = "lga1700"
  /\ @_check_cpu_motherboard example_builtins cpu_lga1700 motherboard_lga1700
     = Ok (Some true, "兼容: CPU插槽(LGA 1700)与主板插槽匹配", 1.0%float).
Proof.
  split; [reflexivity | ].
  apply (proj1 (@check_cpu_motherboard_sockets example_builtins
                  simulated_adjudicator cpu_lga1700 motherboard_lga1700
                  "LGA 1700" "lga1700" eq_refl eq_refl eq_refl eq_refl)).
  - discriminate.
  - discriminate.
  - reflexivity.
Defined.

(** C5 as stated fails: a 4090 without [tdp] whose [recommended_psu] reads
    ["abc"] is estimated at the default 150, not at the 450 of the table. *)
Lemma unreadable_psu_skips_table :
  gpu_power_by_model (lower "RTX 4090") = 450
  /\ @gpu_base_power example_builtins gpu_4090_unreadable_psu = Ok (PInt 150)
  /\ @calculate_power_consumption example_builtins [gpu_4090_unreadable_psu]
     = Ok {| total_power_estimate := 172;
             recommended_psu_wattage := 450;
             component_breakdown := [("gpu_RTX 4090", NFloat 172.5)] |}.
Proof. repeat split; reflexivity. Qed.

(** Both branches: the default for a [recommended_psu] without a digit, and
    the table when there is no [recommended_psu]. *)
Lemma gpu_power_fallback_witness :
  @calculate_power_consumption example_builtins [gpu_4090_unreadable_psu]
  = Ok {| total_power_estimate := 172;
          recommended_psu_wattage := 450;
          component_breakdown := [("gpu_RTX 4090", NFloat 172.5)] |}
  /\ @gpu_base_power example_builtins gpu_4070_without_psu = Ok (PInt 200)
  /\ exists report,
       @calculate_power_consumption example_builtins [gpu_4070_without_psu]
       = Ok report
       /\ map fst (component_breakdown report) = ["gpu_" ++ "RTX 4070"].
Proof.
  split.
  - exact (proj2 (proj1 (@gpu_power_fallback example_builtins
                           gpu_4090_unreadable_psu
                           [("recommended_psu", PStr "abc")] (PStr "RTX 4090")
                           eq_refl eq_refl eq_refl eq_refl)
                    (PStr "abc") eq_refl eq_refl eq_refl)).
  - exact (proj2 (@gpu_power_fallback example_builtins gpu_4070_without_psu
                    [] (PStr "RTX 4070") eq_refl eq_refl eq_refl eq_refl)
             "RTX 4070" eq_refl eq_refl).
Defined.
End Examples.

(** * Further properties *)

(** ** The filter engine *)

Section MoreFilterProperties.
Context `{B : PyBuiltins}.
Import HardwareQueryTool.

Lemma item_matches_sql_only (item : dict) (filters : dict) :
  Forall (fun kv => sql_key (fst kv) = true) filters ->
  item_matches item filters = Ok true.
Proof.
  induction 1 as [|[key value] rest Hk _ IH]; [reflexivity | ].
  cbn [item_matches]. unfold filter_passes.
  unfold sql_key in Hk. cbn [fst] in Hk. rewrite Hk. cbn [bind]. exact IH.
Qed.

(** X1. Filters that only hold [brand], [min_price] and [max_price] (the keys
    left to the storage layer), and the empty filter set among them, keep
    every item, also an item without [specs]. *)
Theorem apply_spec_filters_sql_only (items : list dict) (filters : dict) :
  Forall (fun kv => sql_key (fst kv) = true) filters ->
  _apply_spec_filters items filters = Ok items.
Proof.
  intros Hf. induction items as [|item rest IH]; [reflexivity | ].
  cbn [_apply_spec_filters].
  rewrite (item_matches_sql_only item filters Hf). cbn [bind].
  rewrite IH. reflexivity.
Qed.

Lemma apply_spec_filters_filter (items : list dict) (filters : dict)
      (filtered_items : list dict) :
  _apply_spec_filters items filters = Ok filtered_items ->
  filtered_items = filter (kept_by filters) items.
Proof.
  revert filtered_items.
  induction items as [|item rest IH]; intros r E.
  - injection E as <-. reflexivity.
  - cbn [_apply_spec_filters] in E.
    apply bind_Ok_inv in E as (m & Hm & E).
    apply bind_Ok_inv in E as (kept & Hk & E).
    injection E as <-. cbn [filter]. unfold kept_by at 1. rewrite Hm.
    rewrite (IH kept Hk). destruct m; reflexivity.
Qed.

Lemma apply_spec_filters_In (items : list dict) (filters : dict)
      (filtered_items : list dict) (item : dict) :
  _apply_spec_filters items filters = Ok filtered_items ->
  In item filtered_items ->
  In item items /\ item_matches item filters = Ok true.
Proof.
  intros E Hin. rewrite (apply_spec_filters_filter items filters _ E) in Hin.
  apply filter_In in Hin as [Hi Hk]. split; [exact Hi | ].
  unfold kept_by in Hk.
  destruct (item_matches item filters) as [[|]|e]; try discriminate.
  reflexivity.
Qed.

(** X2. When filtering returns, the result is exactly the list of the items
    that pass every filter, in the order of the input: nothing is added,
    nothing is reordered, and the result is no longer than the input. *)
Theorem apply_spec_filters_selects (items : list dict) (filters : dict)
        (filtered_items : list dict) :
  _apply_spec_filters items filters = Ok filtered_items ->
  filtered_items = filter (kept_by filters) items
  /\ (List.length filtered_items <= List.length items)%nat
  /\ Forall (fun item => In item items /\ item_matches item filters = Ok true)
            filtered_items.
Proof.
  intros E. split; [exact (apply_spec_filters_filter _ _ _ E) | split].
  - rewrite (apply_spec_filters_filter _ _ _ E). apply filter_length_le.
  - apply Forall_forall. intros item Hin.
    exact (apply_spec_filters_In items filters filtered_items item E Hin).
Qed.

Lemma item_matches_app (item : dict) (f1 f2 : dict) :
  item_matches item (f1 ++ f2)%list
  = (ok <- item_matches item f1 ;;
     if ok then item_matches item f2 else Ok false).
Proof.
  induction f1 as [|[key value] rest IH]; cbn [app item_matches bind].
  - reflexivity.
  - destruct (filter_passes item key value) as [[|]|e]; cbn [bind];
      [exact IH | reflexivity | reflexivity].
Qed.

(** X3. Filtering with two filter sets (of different keys) at once is
    filtering with the first and then, on what is left, with the second: one
    returns a list exactly when the other does, and the lists are the same. *)
Theorem apply_spec_filters_app (items : list dict) (f1 f2 : dict)
        (filtered_items : list dict) :
  _apply_spec_filters items (f1 ++ f2)%list = Ok filtered_items
  <-> exists first_pass,
        _apply_spec_filters items f1 = Ok first_pass
        /\ _apply_spec_filters first_pass f2 = Ok filtered_items.
Proof.
  revert filtered_items.
  induction items as [|item rest IH]; intros r.
  - cbn [_apply_spec_filters]. split.
    + intros E. exists []. split; [reflexivity | exact E].
    + intros (r1 & E1 & E2). injection E1 as <-. exact E2.
  - cbn [_apply_spec_filters]. rewrite item_matches_app. split.
    + intros E.
      apply bind_Ok_inv in E as (m & Hm & E).
      apply bind_Ok_inv in E as (kept & Hk & E).
      injection E as <-.
      apply bind_Ok_inv in Hm as (m1 & Hm1 & Hm).
      apply IH in Hk as (r1 & Hr1 & Hr2).
      rewrite Hm1, Hr1. cbn [bind].
      destruct m1.
      * exists (item :: r1). split; [reflexivity | ].
        cbn [_apply_spec_filters]. rewrite Hm, Hr2. reflexivity.
      * injection Hm as <-. exists r1. split; [reflexivity | exact Hr2].
    + intros (r1 & E1 & E2).
      apply bind_Ok_inv in E1 as (m1 & Hm1 & E1).
      apply bind_Ok_inv in E1 as (k1 & Hk1 & E1).
      injection E1 as <-. rewrite Hm1. cbn [bind].
      destruct m1.
      * cbn [_apply_spec_filters] in E2.
        apply bind_Ok_inv in E2 as (m & Hm & E2).
        apply bind_Ok_inv in E2 as (kept & Hk & E2).
        injection E2 as <-. rewrite Hm. cbn [bind].
        rewrite (proj2 (IH kept) (ex_intro _ k1 (conj Hk1 Hk))). reflexivity.
      * cbn [bind].
        rewrite (proj2 (IH r) (ex_intro _ k1 (conj Hk1 E2))). reflexivity.
Qed.

Lemma split_on_no_separator (s : string) :
  is_substring "." s = false -> split_on "." s = [s].
Proof.
  induction s as [|c s IH]; [reflexivity | ].
  cbn [is_substring String.prefix split_on].
  destruct (ascii_dec "." c) as [<-|Hc].
  - destruct s; discriminate.
  - cbn [orb]. intros Hs. rewrite (proj2 (Ascii.eqb_neq c ".")).
    + rewrite (IH Hs). reflexivity.
    + intros ->. apply Hc. reflexivity.
Qed.

Lemma split_on_cons (s : string) : exists part parts, split_on "." s = part :: parts.
Proof.
  induction s as [|c s (p & ps & IH)]; cbn [split_on]; [eauto | ].
  destruct (Ascii.eqb c "."); [eauto | ]. rewrite IH. eauto.
Qed.

(** A filter on a key that the specs of the item do not hold fails. *)
Lemma filter_passes_absent (item specs : dict) (key : string) (value : pyval) :
  dict_get item "specs" = Some (PDict specs) ->
  sql_key key = false ->
  dict_mem specs (hd "" (split_on "." key)) = false ->
  filter_passes item key value = Ok false.
Proof.
  intros Hs Hk Hm. unfold filter_passes.
  unfold sql_key in Hk. rewrite Hk.
  rewrite (dict_item_Some _ _ _ Hs). cbn [bind].
  destruct (is_substring "." key) eqn:Hdot.
  - destruct (split_on_cons key) as (part & parts & Hp).
    rewrite Hp in *. cbn [hd] in Hm. cbn [descend py_contains bind].
    rewrite Hm. reflexivity.
  - rewrite (split_on_no_separator key Hdot) in Hm. cbn [hd] in Hm.
    cbn [py_contains bind]. rewrite Hm. reflexivity.
Qed.

Lemma item_matches_failing (item : dict) (filters : dict) (key : string)
      (value : pyval) :
  In (key, value) filters ->
  filter_passes item key value = Ok false ->
  item_matches item filters <> Ok true.
Proof.
  induction filters as [|[k v] rest IH]; intros Hin Hf; [destruct Hin | ].
  cbn [item_matches]. destruct Hin as [E|Hin].
  - injection E as -> ->. rewrite Hf. discriminate.
  - destruct (filter_passes item k v) as [[|]|e]; cbn [bind];
      [exact (IH Hin Hf) | discriminate | discriminate].
Qed.

(** X4. Filtering fails closed: an item whose specs do not hold the key of a
    filter (for a dotted key, its first part) is never in the result, whatever
    the other filters are. *)
Theorem apply_spec_filters_absent_key (items : list dict) (filters : dict)
        (filtered_items : list dict) (item specs : dict) (key : string)
        (value : pyval) :
  dict_get item "specs" = Some (PDict specs) ->
  In (key, value) filters ->
  sql_key key = false ->
  dict_mem specs (hd "" (split_on "." key)) = false ->
  _apply_spec_filters items filters = Ok filtered_items ->
  ~ In item filtered_items.
Proof.
  intros Hs Hin Hk Hm E Hitem.
  apply (item_matches_failing item filters key value Hin
           (filter_passes_absent item specs key value Hs Hk Hm)).
  exact (proj2 (apply_spec_filters_In items filters filtered_items item E Hitem)).
Qed.
End MoreFilterProperties.

(** ** The rules of the compatibility engine *)

(** Take a successful computation apart along its binds, tests and matches. *)
Ltac invert_ok :=
  repeat match goal with
         | H : Ok _ = Ok _ |- _ => injection H as H; subst
         | H : (_, _) = (_, _) |- _ => injection H as H; subst
         | H : Raise _ = Ok _ |- _ => discriminate H
         | H : bind ?m _ = Ok _ |- _ =>
             let E := fresh "E" in
             destruct m eqn:E; cbn [bind] in H; [ | discriminate H ]
         | H : (if ?c then _ else _) = Ok _ |- _ =>
             let E := fresh "E" in destruct c eqn:E
         | H : match ?x with _ => _ end = Ok _ |- _ =>
             let E := fresh "E" in destruct x eqn:E
         end.

Section RuleProperties.
Context `{B : PyBuiltins}.
Import CompatibilityChecker.

(** X5. The GPU-case rule never raises: whatever the two records hold, it
    returns a verdict; and when either record has no [specs] at all the
    verdict is undetermined with confidence 0.5. *)
Theorem check_gpu_case_never_raises (gpu case : dict) :
  (exists v, _check_gpu_case gpu case = Ok v)
  /\ (dict_get gpu "specs" = None \/ dict_get case "specs" = None ->
      _check_gpu_case gpu case = Ok (None, "尺寸信息不完整", 0.5%float)).
Proof.
  unfold _check_gpu_case. split.
  - destruct (first_number gpu "length") as [x|e]; cbn [bind]; [ | eauto ].
    destruct (first_number case "max_gpu_length") as [y|e]; cbn [bind];
      [ | eauto ].
    destruct (PrimFloat.leb x y); eauto.
  - intros [Hg|Hc].
    + unfold first_number at 1. unfold spec_get.
      rewrite (dict_item_None _ _ Hg). reflexivity.
    + destruct (first_number gpu "length") as [x|e]; cbn [bind];
        [ | reflexivity ].
      unfold first_number, spec_get. rewrite (dict_item_None _ _ Hc).
      reflexivity.
Qed.

Lemma check_cpu_motherboard_graded (a b : dict) c m k :
  _check_cpu_motherboard a b = Ok (c, m, k) -> well_graded c k.
Proof.
  unfold _check_cpu_motherboard. intros H. invert_ok; cbn; auto.
Qed.

Lemma check_motherboard_memory_graded (a b : dict) c m k :
  _check_motherboard_memory a b = Ok (c, m, k) -> well_graded c k.
Proof.
  unfold _check_motherboard_memory. intros H. invert_ok; cbn; auto.
Qed.

Lemma check_motherboard_case_graded (a b : dict) c m k :
  _check_motherboard_case a b = Ok (c, m, k) -> well_graded c k.
Proof.
  unfold _check_motherboard_case. intros H. invert_ok; cbn; auto.
Qed.

Lemma check_gpu_case_graded (a b : dict) c m k :
  _check_gpu_case a b = Ok (c, m, k) -> well_graded c k.
Proof.
  unfold _check_gpu_case. intros H. invert_ok; cbn; auto.
Qed.

Lemma check_gpu_power_graded (a b : dict) c m k :
  _check_gpu_power a b = Ok (c, m, k) -> well_graded c k.
Proof.
  unfold _check_gpu_power. intros H. invert_ok; cbn; auto.
Qed.

Lemma check_power_motherboard_graded (a b : dict) c m k :
  _check_power_motherboard a b = Ok (c, m, k) -> well_graded c k.
Proof.
  unfold _check_power_motherboard. intros H. invert_ok; cbn; auto.
Qed.

Lemma rules_graded (check_type : string) (rule_fn : rule) (a b : dict) c m k :
  dict_get (rules compatibility_checker) check_type = Some rule_fn ->
  rule_fn a b = Ok (c, m, k) ->
  well_graded c k.
Proof.
  unfold compatibility_checker, __init__. cbn [rules dict_get].
  repeat (match goal with
          | |- context [String.eqb ?x ?y] => destruct (String.eqb x y)
          end;
          [ intros E; injection E as <- | ]);
    try discriminate.
  - apply check_cpu_motherboard_graded.
  - apply check_motherboard_memory_graded.
  - apply check_motherboard_case_graded.
  - apply check_gpu_case_graded.
  - apply check_gpu_power_graded.
  - apply check_power_motherboard_graded.
Qed.
End RuleProperties.

Section MoreCompatibilityProperties.
Context `{B : PyBuiltins} `{Adj : Adjudicator}.
Import CompatibilityChecker.

(** X6. With the rule table of the source, a verdict that
    [check_compatibility] returns is either the adjudicator's or a decisive
    one: compatible or not, with confidence 0.9 or 1.0.  An undetermined
    local verdict is never returned. *)
Theorem check_compatibility_local_verdicts (a b : dict) (v : verdict) :
  check_compatibility compatibility_checker a b = Ok v ->
  _check_with_llm a b = Ok v
  \/ exists compatible message confidence,
       v = (PBool compatible, PStr message, PFloat confidence)
       /\ (confidence = 0.9%float \/ confidence = 1.0%float).
Proof.
  unfold check_compatibility. intros H.
  apply bind_Ok_inv in H as (cat_a & _ & H).
  apply bind_Ok_inv in H as (cat_b & _ & H).
  destruct (dict_get (rules compatibility_checker) (check_type_of cat_a cat_b))
    as [rule_fn|] eqn:Er; [ | left; exact H ].
  apply bind_Ok_inv in H as ([[c m] k] & Hv & H).
  destruct (PrimFloat.ltb 0.8 k) eqn:Hk; [ | left; exact H ].
  right. injection H as <-.
  pose proof (rules_graded _ rule_fn a b c m k Er Hv) as Hg.
  destruct c as [compatible|]; cbn in Hg.
  - exists compatible, m, k. split; [reflexivity | exact Hg].
  - destruct Hg as [-> | ->]; discriminate Hk.
Qed.

(** X7. The adjudicator's prompt reads five fields of each record, the first
    record first: when one is missing the check raises [KeyError] for the
    first missing field, whatever the adjudicator would have answered. *)
Theorem check_with_llm_missing_field (a b : dict) (field : string) :
  first_missing a = Some field
  \/ (first_missing a = None /\ first_missing b = Some field) ->
  _check_with_llm a b = Raise (KeyError field).
Proof.
  assert (Hlines : forall letter c,
             match first_missing c with
             | Some f => component_lines letter c = Raise (KeyError f)
             | None => exists text, component_lines letter c = Ok text
             end).
  { intros letter c. unfold first_missing, prompt_fields, component_lines.
    cbn [find]. unfold dict_mem, dict_item.
    destruct (dict_get c "category"); cbn [negb bind]; [ | reflexivity ].
    destruct (dict_get c "name"); cbn [negb bind]; [ | reflexivity ].
    destruct (dict_get c "brand"); cbn [negb bind]; [ | reflexivity ].
    destruct (dict_get c "model"); cbn [negb bind]; [ | reflexivity ].
    destruct (dict_get c "specs"); cbn [negb bind]; [ | reflexivity ].
    eauto. }
  intros [Ha | [Ha Hb]]; unfold _check_with_llm, build_prompt.
  - pose proof (Hlines "A" a) as La. rewrite Ha in La. rewrite La. reflexivity.
  - pose proof (Hlines "A" a) as La. rewrite Ha in La. destruct La as (ta & La).
    pose proof (Hlines "B" b) as Lb. rewrite Hb in Lb.
    rewrite La. cbn [bind]. rewrite Lb. reflexivity.
Qed.
End MoreCompatibilityProperties.

Section SimulatedAdjudicator.
Context `{B : PyBuiltins}.
Import CompatibilityChecker.

(** X8. The source as it stands, where a fixed text stands in for the
    adjudicator: if [json.loads] reads that text as the object it spells,
    every check that goes to the adjudicator with two complete records
    answers compatible with confidence 0.7, whatever the records are. *)
Theorem check_compatibility_simulated (self : checker) (a b : dict)
        (prompt : string) :
  json_loads simulated_llm_output
  = Ok (PDict [ ("compatible", PBool true);
                ("reason", PStr "基于LLM分析的兼容性原因");
                ("confidence", PFloat 0.7%float) ]) ->
  escalates self a b ->
  build_prompt a b = Ok prompt ->
  @check_compatibility B simulated_adjudicator self a b
  = Ok (PBool true, PStr "基于LLM分析的兼容性原因", PFloat 0.7%float).
Proof.
  intros Hj He Hp.
  rewrite (@escalates_to_llm B simulated_adjudicator self a b He).
  exact (check_with_llm_simulated a b prompt Hp Hj).
Qed.
End SimulatedAdjudicator.

Section MoreRuleProperties.
Context `{B : PyBuiltins}.
Import CompatibilityChecker.

Lemma py_lt_int (m n : Z) : py_lt (PInt m) (PInt n) = Ok (m <? n).
Proof. reflexivity. Qed.

Lemma truthy_int (n : Z) : truthy (PInt n) = negb (n =? 0).
Proof. reflexivity. Qed.

(** X9. The GPU-PSU rule on integer specs (a missing spec counts as 0): when
    one of the four values is 0 the verdict is undetermined with confidence
    0.6; otherwise the pair is compatible exactly when the PSU's wattage
    reaches the recommended one and its PCIe connectors reach the number the
    GPU needs, with confidence 0.9 either way. *)
Theorem check_gpu_power_integers (gpu power : dict)
        (required_power psu_power psu_connectors gpu_required : Z) :
  spec_get gpu "recommended_psu" (PInt 0) = Ok (PInt required_power) ->
  spec_get power "output_power" (PInt 0) = Ok (PInt psu_power) ->
  spec_get power "pcie_connectors" (PInt 0) = Ok (PInt psu_connectors) ->
  spec_get gpu "power_connectors" (PInt 0) = Ok (PInt gpu_required) ->
  (required_power = 0 \/ psu_power = 0 \/ psu_connectors = 0 \/ gpu_required = 0 ->
   _check_gpu_power gpu power = Ok (None, "电源规格信息不完整", 0.6%float))
  /\ (required_power <> 0 -> psu_power <> 0 -> psu_connectors <> 0 ->
      gpu_required <> 0 ->
      exists message,
        _check_gpu_power gpu power
        = Ok (Some ((required_power <=? psu_power)
                    && (gpu_required <=? psu_connectors)),
              message, 0.9%float)
        /\ ((required_power <=? psu_power) && (gpu_required <=? psu_connectors)
            = true -> message = "电源满足需求")).
Proof.
  intros Hr Hp Hc Hg. unfold _check_gpu_power. rewrite Hr, Hp, Hc, Hg.
  cbn [bind forallb]. rewrite !truthy_int, !py_lt_int. cbn [bind].
  split.
  - intros Hz.
    assert (Hall : negb (required_power =? 0) && (negb (psu_power =? 0)
                   && (negb (psu_connectors =? 0)
                   && (negb (gpu_required =? 0) && true))) = false).
    { destruct Hz as [-> | [-> | [-> | ->]]]; cbn;
        rewrite ?andb_false_r; reflexivity. }
    rewrite Hall. reflexivity.
  - intros Nr Np Nc Ng.
    rewrite (proj2 (Z.eqb_neq _ _) Nr), (proj2 (Z.eqb_neq _ _) Np),
      (proj2 (Z.eqb_neq _ _) Nc), (proj2 (Z.eqb_neq _ _) Ng).
    cbn [negb andb].
    rewrite (Z.leb_antisym psu_power required_power).
    rewrite (Z.leb_antisym psu_connectors gpu_required).
    destruct (psu_power <? required_power), (psu_connectors <? gpu_required);
      cbn [negb andb app]; eexists; (split; [reflexivity | ]);
      intros E; try discriminate E; reflexivity.
Qed.

Lemma nonempty_lower (s : string) : nonempty (lower s) = nonempty s.
Proof. destruct s; reflexivity. Qed.

Lemma nonempty_neq (s : string) : s <> "" -> nonempty s = true.
Proof. intros Hs. apply negb_true_iff, String.eqb_neq. exact Hs. Qed.

(** X10. The motherboard-case rule on ASCII text specs (a missing spec counts
    as empty): undetermined with confidence 0.5 when either text is empty;
    otherwise compatible (1.0) exactly when the lower-cased form factor
    occurs somewhere inside the lower-cased list of supported form factors,
    and incompatible (0.9) if it does not. *)
Theorem check_motherboard_case_texts (motherboard case : dict)
        (form_factor supported : string) :
  spec_get motherboard "form_factor" (PStr "") = Ok (PStr form_factor) ->
  spec_get case "supported_form_factors" (PStr "") = Ok (PStr supported) ->
  ascii_text form_factor = true ->
  ascii_text supported = true ->
  (form_factor = "" \/ supported = "" ->
   _check_motherboard_case motherboard case
   = Ok (None, "无法确定: 主板版型或机箱支持信息缺失。", 0.5%float))
  /\ (form_factor <> "" -> supported <> "" ->
      _check_motherboard_case motherboard case
      = Ok (if is_substring (lower form_factor) (lower supported)
            then (Some true,
                  "兼容: " ++ upper (lower form_factor) ++ "主板可安装于此机箱。",
                  1.0%float)
            else (Some false,
                  "不兼容: 机箱不支持" ++ upper (lower form_factor) ++ "主板。",
                  0.9%float))).
Proof.
  intros Hm Hc _ _. unfold _check_motherboard_case. rewrite Hm, Hc.
  cbn [bind py_lower]. rewrite !nonempty_lower. split.
  - intros [-> | ->]; cbn [nonempty String.eqb negb orb];
      rewrite ?orb_true_r; reflexivity.
  - intros Nf Ns. rewrite (nonempty_neq _ Nf), (nonempty_neq _ Ns).
    cbn [negb orb].
    destruct (is_substring (lower form_factor) (lower supported)); reflexivity.
Qed.

(** X11. The PSU-motherboard rule on ASCII text specs (a missing spec counts
    as empty): undetermined with confidence 0.5 when either connector is empty;
    otherwise compatible (1.0) exactly when the two connectors are equal up
    to the case of their letters, and incompatible (0.9) if they are not. *)
Theorem check_power_motherboard_texts (power motherboard : dict)
        (required_connector psu_connector : string) :
  spec_get motherboard "power_connector" (PStr "") = Ok (PStr required_connector) ->
  spec_get power "motherboard_connector" (PStr "") = Ok (PStr psu_connector) ->
  ascii_text required_connector = true ->
  ascii_text psu_connector = true ->
  (required_connector = "" \/ psu_connector = "" ->
   _check_power_motherboard power motherboard = Ok (None, "接口信息缺失", 0.5%float))
  /\ (required_connector <> "" -> psu_connector <> "" ->
      _check_power_motherboard power motherboard
      = Ok (if String.eqb (lower psu_connector) (lower required_connector)
            then (Some true, "主板" ++ required_connector ++ "供电接口匹配",
                  1.0%float)
            else (Some false,
                  "接口不匹配(" ++ psu_connector ++ " vs "
                  ++ required_connector ++ ")", 0.9%float))).
Proof.
  intros Hr Hp _ _. unfold _check_power_motherboard. rewrite Hr, Hp.
  cbn [bind truthy py_lower py_str]. split.
  - intros [-> | ->]; cbn [String.eqb negb orb];
      rewrite ?orb_true_r; reflexivity.
  - intros Nr Np.
    rewrite (proj2 (String.eqb_neq _ _) Nr), (proj2 (String.eqb_neq _ _) Np).
    cbn [negb orb bind].
    destruct (String.eqb (lower psu_connector) (lower required_connector));
      reflexivity.
Qed.
End MoreRuleProperties.

(** ** The regular expressions and the normal form of a socket *)

Lemma ddr_at_sound (s m : string) :
  ddr_at s = Some m -> is_ddr_token m = true /\ String.prefix m s = true.
Proof.
  destruct s as [|c1 [|c2 [|c3 [|c4 s]]]]; try discriminate.
  cbn [ddr_at].
  destruct (Ascii.eqb c1 "d") eqn:E1; [ | discriminate ].
  destruct (Ascii.eqb c2 "d") eqn:E2; [ | discriminate ].
  destruct (Ascii.eqb c3 "r") eqn:E3; [ | discriminate ].
  apply Ascii.eqb_eq in E1, E2, E3. subst c1 c2 c3. cbn [andb].
  destruct (Ascii.eqb c4 "3") eqn:E4;
    [ | destruct (Ascii.eqb c4 "4") eqn:E5;
        [ | destruct (Ascii.eqb c4 "5") eqn:E6; [ | discriminate ] ] ];
    cbn [orb]; intros E; injection E as <-;
    match goal with H : Ascii.eqb c4 _ = true |- _ =>
      apply Ascii.eqb_eq in H; subst c4 end;
    (split; [reflexivity | destruct s; reflexivity]).
Qed.

Lemma ddr_at_complete (s t : string) :
  is_ddr_token t = true -> String.prefix t s = true -> ddr_at s = Some t.
Proof.
  unfold is_ddr_token, ddr_tokens. cbn [existsb]. intros Ht Hp.
  assert (Hcases : t = "ddr3" \/ t = "ddr4" \/ t = "ddr5").
  { destruct (String.eqb t "ddr3") eqn:E3;
      [left; apply String.eqb_eq; exact E3 | ].
    destruct (String.eqb t "ddr4") eqn:E4;
      [right; left; apply String.eqb_eq; exact E4 | ].
    destruct (String.eqb t "ddr5") eqn:E5;
      [right; right; apply String.eqb_eq; exact E5 | discriminate Ht]. }
  destruct s as [|c1 [|c2 [|c3 [|c4 s]]]];
    destruct Hcases as [-> | [-> | ->]]; cbn [String.prefix] in Hp;
    try discriminate Hp;
    repeat match type of Hp with
           | (if ascii_dec ?a ?b then _ else _) = true =>
               destruct (ascii_dec a b) as [<-|]; [ | discriminate Hp ]
           end;
    try discriminate Hp; reflexivity.
Qed.

Lemma ddr_token_not_prefix_of_empty (t : string) :
  is_ddr_token t = true -> String.prefix t "" = false.
Proof.
  unfold is_ddr_token, ddr_tokens. cbn [existsb].
  destruct t; [ | reflexivity ]. discriminate.
Qed.

(** The matches of [ddr[345]] in a text are the standards that occur in it. *)
Lemma findall_ddr_In (s t : string) :
  In t (findall_ddr s) <-> is_ddr_token t = true /\ is_substring t s = true.
Proof.
  induction s as [|c s IH].
  - cbn [findall_ddr In is_substring]. split; [intros [] | ].
    intros [Ht Hs]. rewrite (ddr_token_not_prefix_of_empty t Ht) in Hs.
    discriminate Hs.
  - cbn [findall_ddr is_substring]. split.
    + intros Hin.
      destruct (ddr_at (String c s)) as [m|] eqn:Em.
      * destruct Hin as [<- | Hin].
        -- destruct (ddr_at_sound _ _ Em) as [Hm Hp]. rewrite Hp. split;
             [exact Hm | reflexivity].
        -- apply IH in Hin as [Ht Hs]. rewrite Hs, orb_true_r. split;
             [exact Ht | reflexivity].
      * apply IH in Hin as [Ht Hs]. rewrite Hs, orb_true_r. split;
          [exact Ht | reflexivity].
    + intros [Ht Hs]. apply orb_true_iff in Hs as [Hp | Hs].
      * rewrite (ddr_at_complete _ t Ht Hp). left. reflexivity.
      * assert (Hin : In t (findall_ddr s)) by (apply IH; split; assumption).
        destruct (ddr_at (String c s)); [right | ]; exact Hin.
Qed.

Lemma findall_ddr_nil (s : string) :
  findall_ddr s = [] <-> mentions_ddr s = false.
Proof.
  unfold mentions_ddr, ddr_tokens. cbn [existsb]. split.
  - intros Hn.
    assert (Hno : forall t, is_ddr_token t = true -> is_substring t s = false).
    { intros t Ht. destruct (is_substring t s) eqn:Hs; [ | reflexivity ].
      assert (Hin : In t (findall_ddr s)) by (apply findall_ddr_In; auto).
      rewrite Hn in Hin. destruct Hin. }
    rewrite (Hno "ddr3" eq_refl), (Hno "ddr4" eq_refl), (Hno "ddr5" eq_refl).
    reflexivity.
  - intros Hm. destruct (findall_ddr s) as [|t ts] eqn:Ef; [reflexivity | ].
    assert (Hin : In t (findall_ddr s)) by (rewrite Ef; left; reflexivity).
    apply findall_ddr_In in Hin as [Ht Hs].
    unfold is_ddr_token, ddr_tokens in Ht. cbn [existsb] in Ht.
    destruct (String.eqb t "ddr3") eqn:E3;
      [apply String.eqb_eq in E3; subst t; rewrite Hs in Hm; discriminate Hm | ].
    destruct (String.eqb t "ddr4") eqn:E4;
      [apply String.eqb_eq in E4; subst t; rewrite Hs, orb_true_r in Hm;
       discriminate Hm | ].
    destruct (String.eqb t "ddr5") eqn:E5; [ | discriminate Ht ].
    apply String.eqb_eq in E5; subst t. rewrite Hs, !orb_true_r in Hm.
    discriminate Hm.
Qed.

Section MemoryRule.
Context `{B : PyBuiltins}.
Import CompatibilityChecker.

(** X12. The motherboard-RAM rule on text specs (a missing spec counts as
    empty), read without regard to case: undetermined with confidence 0.5
    when the board's [memory_support] or the module's [memory_type] names none
    of ddr3, ddr4, ddr5; otherwise the first standard named by the module
    decides: compatible (1.0) exactly when the board's text names it too,
    incompatible (0.9) if not. *)
Theorem check_motherboard_memory_texts (motherboard memory : dict)
        (memory_support memory_type : string) :
  spec_get motherboard "memory_support" (PStr "") = Ok (PStr memory_support) ->
  spec_get memory "memory_type" (PStr "") = Ok (PStr memory_type) ->
  (mentions_ddr (lower memory_support) = false
   \/ mentions_ddr (lower memory_type) = false ->
   _check_motherboard_memory motherboard memory
   = Ok (None, "内存类型信息缺失", 0.5%float))
  /\ (mentions_ddr (lower memory_support) = true ->
      mentions_ddr (lower memory_type) = true ->
      exists mem_type message,
        search_ddr (lower memory_type) = Some mem_type
        /\ is_ddr_token mem_type = true
        /\ _check_motherboard_memory motherboard memory
           = Ok (if is_substring mem_type (lower memory_support)
                 then (Some true, "兼容: 主板支持" ++ upper mem_type ++ "内存",
                       1.0%float)
                 else (Some false, message, 0.9%float))).
Proof.
  intros Hs Ht. unfold _check_motherboard_memory. rewrite Hs, Ht.
  cbn [bind py_lower]. unfold search_ddr. split.
  - intros [Hn | Hn]; apply findall_ddr_nil in Hn; rewrite Hn;
      [reflexivity | ].
    destruct (findall_ddr (lower memory_support)); reflexivity.
  - intros Hms Hmt.
    destruct (findall_ddr (lower memory_support)) as [|s0 ss] eqn:Es.
    { apply findall_ddr_nil in Es. rewrite Es in Hms. discriminate Hms. }
    destruct (findall_ddr (lower memory_type)) as [|t ts] eqn:Et.
    { apply findall_ddr_nil in Et. rewrite Et in Hmt. discriminate Hmt. }
    cbn [hd_error].
    assert (Htok : is_ddr_token t = true).
    { apply (findall_ddr_In (lower memory_type) t). rewrite Et. left.
      reflexivity. }
    exists t. eexists. split; [reflexivity | split; [exact Htok | ] ].
    destruct (existsb (String.eqb t) (s0 :: ss)) eqn:Ex.
    + apply existsb_exists in Ex as (x & Hx & Exx).
      apply String.eqb_eq in Exx. subst x. rewrite <- Es in Hx.
      apply findall_ddr_In in Hx as [_ Hsub]. rewrite Hsub. reflexivity.
    + destruct (is_substring t (lower memory_support)) eqn:Hsub;
        [ | reflexivity ].
      exfalso.
      assert (Hin : In t (findall_ddr (lower memory_support)))
        by (apply findall_ddr_In; auto).
      rewrite Es in Hin.
      assert (Ht' : existsb (String.eqb t) (s0 :: ss) = true).
      { apply existsb_exists. exists t. split; [exact Hin | ].
        apply String.eqb_refl. }
      rewrite Ht' in Ex. discriminate Ex.
Qed.
End MemoryRule.

Lemma socket_char_fixed (c : ascii) :
  is_socket_char c = true ->
  lower_char c = c /\ Ascii.eqb c " " = false.
Proof.
  destruct c as [[|] [|] [|] [|] [|] [|] [|] [|]]; cbn; intros E;
    try discriminate E; split; reflexivity.
Qed.

Lemma lower_upper_char (c : ascii) : lower_char (upper_char c) = lower_char c.
Proof. destruct c as [[|] [|] [|] [|] [|] [|] [|] [|]]; reflexivity. Qed.

Lemma lower_upper (s : string) : lower (upper s) = lower s.
Proof.
  unfold lower, upper. induction s as [|a s IH]; cbn [map_string];
    [reflexivity | ].
  rewrite lower_upper_char, IH. reflexivity.
Qed.

Lemma map_string_app (f : ascii -> ascii) (s t : string) :
  map_string f (s ++ t) = map_string f s ++ map_string f t.
Proof. induction s as [|c s IH]; cbn; [reflexivity | rewrite IH; reflexivity]. Qed.

Lemma filter_string_app (p : ascii -> bool) (s t : string) :
  filter_string p (s ++ t) = filter_string p s ++ filter_string p t.
Proof.
  induction s as [|c s IH]; cbn; [reflexivity | ].
  rewrite IH. destruct (p c); reflexivity.
Qed.

Lemma filter_string_forallb (p : ascii -> bool) (s : string) :
  string_forallb p (filter_string p s) = true.
Proof.
  induction s as [|c s IH]; cbn; [reflexivity | ].
  destruct (p c) eqn:E; cbn; [rewrite E | ]; exact IH.
Qed.

Lemma filter_string_fixed (p q : ascii -> bool) (s : string) :
  (forall c, q c = true -> p c = true) ->
  string_forallb q s = true -> filter_string p s = s.
Proof.
  intros Hpq. induction s as [|c s IH]; cbn [string_forallb filter_string];
    [reflexivity | ].
  intros E. apply andb_true_iff in E as [Ec Es].
  rewrite (Hpq c Ec), (IH Es). reflexivity.
Qed.

Lemma map_string_fixed (f : ascii -> ascii) (q : ascii -> bool) (s : string) :
  (forall c, q c = true -> f c = c) ->
  string_forallb q s = true -> map_string f s = s.
Proof.
  intros Hf. induction s as [|c s IH]; cbn [string_forallb map_string];
    [reflexivity | ].
  intros E. apply andb_true_iff in E as [Ec Es].
  rewrite (Hf c Ec), (IH Es). reflexivity.
Qed.

Lemma normalized_socket_fixed (s : string) :
  string_forallb is_socket_char s = true ->
  CompatibilityChecker.normalized_socket s = s.
Proof.
  intros E.
  unfold CompatibilityChecker.normalized_socket, sub_non_alnum, remove_spaces,
    lower.
  rewrite (map_string_fixed lower_char is_socket_char s);
    [ | intros c Hc; apply (socket_char_fixed c Hc) | exact E ].
  rewrite (filter_string_fixed _ is_socket_char s);
    [ | intros c Hc; destruct (socket_char_fixed c Hc) as [_ ->]; reflexivity
      | exact E ].
  apply (filter_string_fixed _ is_socket_char s); [ | exact E ].
  intros c Hc. exact Hc.
Qed.

Lemma normalized_socket_app (s t : string) :
  CompatibilityChecker.normalized_socket (s ++ t)
  = CompatibilityChecker.normalized_socket s
    ++ CompatibilityChecker.normalized_socket t.
Proof.
  unfold CompatibilityChecker.normalized_socket, sub_non_alnum, remove_spaces,
    lower.
  rewrite map_string_app, !filter_string_app. reflexivity.
Qed.

(** X13. The normal form in which the CPU-motherboard rule compares ASCII
    sockets: it holds lower-case letters and digits only, normalizing it
    again changes nothing, upper-casing the socket first changes nothing, a
    character that is neither a letter nor a digit may be inserted anywhere
    without changing it, and it is computed piece by piece. *)
Theorem normalized_socket_normal_form (s t : string) (c : ascii) :
  ascii_text s = true ->
  ascii_text t = true ->
  is_ascii c = true ->
  string_forallb is_socket_char (CompatibilityChecker.normalized_socket s) = true
  /\ CompatibilityChecker.normalized_socket
       (CompatibilityChecker.normalized_socket s)
     = CompatibilityChecker.normalized_socket s
  /\ CompatibilityChecker.normalized_socket (upper s)
     = CompatibilityChecker.normalized_socket s
  /\ (is_socket_char (lower_char c) = false ->
      CompatibilityChecker.normalized_socket (s ++ String c t)
      = CompatibilityChecker.normalized_socket (s ++ t))
  /\ CompatibilityChecker.normalized_socket (s ++ t)
     = CompatibilityChecker.normalized_socket s
       ++ CompatibilityChecker.normalized_socket t.
Proof.
  intros _ _ _.
  assert (Hchars : string_forallb is_socket_char
                     (CompatibilityChecker.normalized_socket s) = true).
  { unfold CompatibilityChecker.normalized_socket, sub_non_alnum.
    apply (filter_string_forallb (fun c => is_lower c || is_digit c)). }
  split; [exact Hchars | split; [ | split; [ | split ] ] ].
  - apply normalized_socket_fixed. exact Hchars.
  - unfold CompatibilityChecker.normalized_socket.
    rewrite lower_upper. reflexivity.
  - intros Hc. rewrite !normalized_socket_app. f_equal.
    change (String c t) with (String c "" ++ t).
    rewrite normalized_socket_app.
    unfold CompatibilityChecker.normalized_socket at 1.
    unfold sub_non_alnum, remove_spaces, lower.
    cbn [map_string filter_string].
    unfold is_socket_char in Hc.
    destruct (negb (Ascii.eqb (lower_char c) " ")); cbn [filter_string];
      [rewrite Hc | ]; reflexivity.
  - apply normalized_socket_app.
Qed.

(** ** The power estimator *)

Lemma forall_range_sound (p : Z -> bool) (len : positive) :
  forall lo, forall_range p lo len = true ->
  forall z, lo <= z < lo + Zpos len -> p z = true.
Proof.
  induction len as [h IH | h IH | ]; intros lo E z Hz; cbn [forall_range] in E.
  - apply andb_true_iff in E as [E E2]. apply andb_true_iff in E as [E0 E1].
    destruct (Z.eq_dec z lo) as [-> | Hne]; [exact E0 | ].
    destruct (Z_lt_le_dec z (lo + 1 + Zpos h)) as [Hlt | Hge].
    + apply (IH (lo + 1) E1). lia.
    + apply (IH (lo + 1 + Zpos h) E2). lia.
  - apply andb_true_iff in E as [E1 E2].
    destruct (Z_lt_le_dec z (lo + Zpos h)) as [Hlt | Hge].
    + apply (IH lo E1). lia.
    + apply (IH (lo + Zpos h) E2). lia.
  - assert (z = lo) as -> by lia. exact E.
Qed.

Section RoundToCommon.
Import PowerConsumption.

(** X14. Up to 1500 W the recommendation is the least of the usual wattages
    that covers the requirement: it is in the list, it is not below the
    requirement, and no smaller wattage of the list would do. *)
Theorem round_to_common_least (recommended_psu : Z) :
  recommended_psu <= 1500 ->
  exists wattage,
    round_to_common recommended_psu common_psu_wattages = Ok wattage
    /\ In wattage common_psu_wattages
    /\ recommended_psu <= wattage
    /\ forall other, In other common_psu_wattages ->
                     recommended_psu <= other -> wattage <= other.
Proof.
  intros Hr. unfold common_psu_wattages. cbn [round_to_common].
  repeat match goal with
         | |- context [if ?r <=? ?w then _ else _] =>
             destruct (Z.leb_spec r w);
             [ eexists; split; [reflexivity | ];
               split; [cbn [In]; tauto | ];
               split; [assumption | ];
               intros other Hin Hle; cbn [In] in Hin; lia
             | ]
         end.
  lia.
Qed.

(** X15. Beyond 1500 W, and up to 10000 W, the recommendation is the multiple
    of 100 nearest to the requirement, the even hundred when two are equally
    near: it can be up to 50 W below the requirement. *)
Theorem round_to_common_beyond (recommended_psu : Z) :
  1500 < recommended_psu <= 10000 ->
  exists wattage,
    round_to_common recommended_psu common_psu_wattages = Ok wattage
    /\ wattage mod 100 = 0
    /\ Z.abs (recommended_psu - wattage) <= 50
    /\ (Z.abs (recommended_psu - wattage) = 50 ->
        Z.even (wattage / 100) = true).
Proof.
  intros Hr.
  assert (Hall : forall_range rounds_to_nearest_hundred 1501 8500 = true)
    by (vm_compute; reflexivity).
  pose proof (forall_range_sound _ _ _ Hall recommended_psu ltac:(lia)) as H.
  unfold rounds_to_nearest_hundred in H.
  destruct (round_to_common recommended_psu common_psu_wattages) as [w|];
    [ | discriminate H ].
  unfold nearest_hundred in H.
  apply andb_true_iff in H as [H H3]. apply andb_true_iff in H as [H1 H2].
  exists w. split; [reflexivity | ].
  split; [apply Z.eqb_eq; exact H1 | ].
  split; [apply Z.leb_le; exact H2 | ].
  intros E. apply Z.eqb_eq in E. rewrite E in H3. exact H3.
Qed.
End RoundToCommon.

Lemma bind_ret {A : Type} (m : result A) : bind m (fun a => Ok a) = m.
Proof. destruct m; reflexivity. Qed.

Lemma eq_str_true (v : pyval) (k : string) : eq_str v k = true -> v = PStr k.
Proof.
  destruct v; try discriminate. cbn [eq_str]. intros E.
  apply String.eqb_eq in E. subst. reflexivity.
Qed.

Lemma py_eq_str (v : pyval) (k : string) : py_eq v (PStr k) = eq_str v k.
Proof. destruct v; reflexivity. Qed.

Lemma py_eq_str_l (v : pyval) (k : string) :
  py_eq (PStr k) v = true -> v = PStr k.
Proof.
  destruct v; try discriminate. cbn [py_eq]. intros E.
  apply String.eqb_eq in E. subst. reflexivity.
Qed.

Lemma dict_set_twice {V : Type} (d : list (string * V)) (k : string) (v1 v2 : V) :
  dict_set (dict_set d k v1) k v2 = dict_set d k v2.
Proof.
  induction d as [|[k0 v0] d IH]; cbn [dict_set].
  - rewrite String.eqb_refl. reflexivity.
  - destruct (String.eqb k0 k) eqn:E0; cbn [dict_set]; rewrite E0;
      [reflexivity | rewrite IH; reflexivity].
Qed.

Lemma dict_set_fresh {V : Type} (d : list (string * V)) (k : string) (v : V) :
  dict_get d k = None -> dict_set d k v = (d ++ [(k, v)])%list.
Proof.
  induction d as [|[k0 v0] d IH]; cbn [dict_set dict_get app];
    [reflexivity | ].
  destruct (String.eqb k0 k); [discriminate | ].
  intros E. rewrite (IH E). reflexivity.
Qed.

Lemma dict_get_app_fresh {V : Type} (d : list (string * V)) (k k' : string)
      (v : V) :
  k <> k' -> dict_get d k' = None -> dict_get (d ++ [(k, v)])%list k' = None.
Proof.
  intros Hne. induction d as [|[k0 v0] d IH]; cbn [dict_get app].
  - intros _. destruct (String.eqb k k') eqn:E; [ | reflexivity ].
    apply String.eqb_eq in E. contradiction.
  - destruct (String.eqb k0 k'); [discriminate | exact IH].
Qed.

Lemma existsb_false_In {A : Type} (f : A -> bool) (l : list A) (x : A) :
  existsb f l = false -> In x l -> f x = false.
Proof.
  induction l as [|a l IH]; cbn [existsb In]; [intros _ [] | ].
  intros E [-> | Hin]; apply orb_false_iff in E as [E1 E2];
    [exact E1 | exact (IH E2 Hin)].
Qed.

Section EstimatorProperties.
Context `{B : PyBuiltins}.
Import PowerConsumption.

Lemma counts_get_set_str (counts : list (pyval * Z)) (v : pyval) (n : Z)
      (k : string) :
  counts_get (counts_set counts v n) (PStr k)
  = if eq_str v k then Some n else counts_get counts (PStr k).
Proof.
  induction counts as [|[k0 n0] counts IH]; cbn [counts_set counts_get].
  - rewrite py_eq_str. reflexivity.
  - destruct (py_eq k0 v) eqn:E; cbn [counts_get]; rewrite !py_eq_str.
    + destruct (eq_str k0 k) eqn:E0.
      * apply eq_str_true in E0. subst k0. apply py_eq_str_l in E. subst v.
        cbn [eq_str]. rewrite String.eqb_refl. reflexivity.
      * destruct (eq_str v k) eqn:E1; [ | reflexivity ].
        apply eq_str_true in E1. subst v. rewrite py_eq_str, E0 in E.
        discriminate E.
    + rewrite IH. destruct (eq_str k0 k) eqn:E0; [ | reflexivity ].
      destruct (eq_str v k) eqn:E1; [ | reflexivity ].
      apply eq_str_true in E0, E1. subst k0 v. cbn [py_eq] in E.
      rewrite String.eqb_refl in E. discriminate E.
Qed.

Lemma count_components_rel (s : string) (config_list : list dict) :
  forall counts1 counts2, agree_off s counts1 counts2 ->
  same_outcome (agree_off s) (count_components config_list counts1)
               (count_components config_list counts2).
Proof.
  induction config_list as [|c rest IH]; intros counts1 counts2 HR;
    cbn [count_components]; [exact HR | ].
  destruct (dict_item c "category") as [v|e]; cbn [bind same_outcome];
    [ | reflexivity ].
  destruct (hashable v); [ | reflexivity ].
  apply IH. intros k Hk. rewrite !counts_get_set_str.
  destruct (eq_str v k) eqn:E; [ | exact (HR k Hk) ].
  apply eq_str_true in E. subst v. rewrite (HR k Hk). reflexivity.
Qed.

Lemma count_components_skip (s : string) (c : dict) (l1 l2 : list dict) :
  dict_get c "category" = Some (PStr s) ->
  forall counts,
    same_outcome (agree_off s) (count_components (l1 ++ c :: l2) counts)
                 (count_components (l1 ++ l2) counts).
Proof.
  intros Hc. induction l1 as [|c1 l1 IH]; intros counts; cbn [app].
  - cbn [count_components]. rewrite (dict_item_Some _ _ _ Hc).
    cbn [bind hashable]. apply count_components_rel.
    intros k Hk. rewrite counts_get_set_str. cbn [eq_str].
    destruct (String.eqb s k) eqn:E; [ | reflexivity ].
    apply String.eqb_eq in E. subst. contradiction.
  - cbn [count_components].
    destruct (dict_item c1 "category") as [v|e]; cbn [bind same_outcome];
      [ | reflexivity ].
    destruct (hashable v); [apply IH | reflexivity].
Qed.

Lemma add_others_rel (s : string) (counts1 counts2 : list (pyval * Z))
      (estimates : list (string * Z)) :
  agree_off s counts1 counts2 ->
  (forall k e, In (k, e) estimates -> k <> s) ->
  forall t, add_others t counts1 estimates = add_others t counts2 estimates.
Proof.
  intros HR. induction estimates as [|[k e] rest IH]; intros Hk t;
    cbn [add_others]; [reflexivity | ].
  rewrite (HR k (Hk k e (or_introl eq_refl))).
  assert (Hrest : forall k' e', In (k', e') rest -> k' <> s)
    by (intros k' e' Hin; apply (Hk k' e'); right; exact Hin).
  destruct (counts_get counts2 (PStr k)); [ | apply (IH Hrest) ].
  destruct (add_power t k _); cbn [bind]; [apply (IH Hrest) | reflexivity].
Qed.

Lemma of_category_app (cat : string) (l1 l2 : list dict) :
  of_category cat (l1 ++ l2)
  = (a <- of_category cat l1 ;; b <- of_category cat l2 ;; Ok (a ++ b)%list).
Proof.
  induction l1 as [|c l1 IH]; cbn [app of_category bind].
  - rewrite bind_ret. reflexivity.
  - destruct (dict_item c "category") as [v|e]; cbn [bind]; [ | reflexivity ].
    rewrite IH. destruct (of_category cat l1); cbn [bind]; [ | reflexivity ].
    destruct (of_category cat l2); cbn [bind]; [ | reflexivity ].
    destruct (eq_str v cat); reflexivity.
Qed.

Lemma of_category_skip (cat : string) (c : dict) (v : pyval)
      (l1 l2 : list dict) :
  dict_get c "category" = Some v -> eq_str v cat = false ->
  of_category cat (l1 ++ c :: l2) = of_category cat (l1 ++ l2).
Proof.
  intros Hc Hv. rewrite !of_category_app. cbn [of_category].
  rewrite (dict_item_Some _ _ _ Hc). cbn [bind]. rewrite Hv, bind_ret.
  reflexivity.
Qed.

Lemma table_keys_not (s : string) :
  existsb (String.eqb s) power_categories = false ->
  forall k e, In (k, e) COMPONENT_POWER_ESTIMATES -> k <> s.
Proof.
  intros Hs k e Hin ->.
  assert (Hk : In s power_categories).
  { unfold power_categories. right. right.
    apply (in_map fst) in Hin. exact Hin. }
  pose proof (existsb_false_In _ _ s Hs Hk) as E.
  rewrite String.eqb_refl in E. discriminate E.
Qed.

Lemma calculate_congr (s : string) (config1 config2 : list dict) :
  same_outcome (agree_off s) (count_components config1 [])
               (count_components config2 []) ->
  (forall k e, In (k, e) COMPONENT_POWER_ESTIMATES -> k <> s) ->
  (forall t, (cpus <- of_category "cpu" config1 ;; add_cpu t cpus)
             = (cpus <- of_category "cpu" config2 ;; add_cpu t cpus)) ->
  of_category "gpu" config1 = of_category "gpu" config2 ->
  calculate_power_consumption config1 = calculate_power_consumption config2.
Proof.
  intros Hcount Hkeys Hcpu Hgpu. unfold calculate_power_consumption.
  destruct (count_components config1 []) as [counts1|e1],
           (count_components config2 []) as [counts2|e2];
    cbn [same_outcome] in Hcount; try contradiction;
    [ | subst; reflexivity ].
  cbn [bind].
  specialize (Hcpu {| total_power := NInt 0; breakdown := [] |}).
  destruct (of_category "cpu" config1) as [cpus1|c1],
           (of_category "cpu" config2) as [cpus2|c2];
    cbn [bind] in Hcpu |- *.
  - rewrite Hcpu.
    destruct (add_cpu _ cpus2) as [t|]; cbn [bind]; [ | reflexivity ].
    rewrite Hgpu.
    destruct (of_category "gpu" config2) as [gpus|]; cbn [bind];
      [ | reflexivity ].
    destruct (add_gpus t gpus) as [t'|]; cbn [bind]; [ | reflexivity ].
    rewrite (add_others_rel s counts1 counts2 _ Hcount Hkeys). reflexivity.
  - rewrite Hcpu. reflexivity.
  - rewrite <- Hcpu. reflexivity.
  - injection Hcpu as ->. reflexivity.
Qed.

(** X16. A record of a category that the estimator does not look for (not
    the CPU, not a GPU, not a row of its table: a case or a power supply, say)
    changes nothing wherever it stands in the configuration: the same report,
    or the same exception. *)
Theorem calculate_ignores_other_categories (l1 l2 : list dict) (c : dict)
        (s : string) :
  dict_get c "category" = Some (PStr s) ->
  existsb (String.eqb s) power_categories = false ->
  calculate_power_consumption (l1 ++ c :: l2)
  = calculate_power_consumption (l1 ++ l2).
Proof.
  intros Hc Hs.
  assert (Hcpu : eq_str (PStr s) "cpu" = false).
  { apply (existsb_false_In _ _ "cpu" Hs). left. reflexivity. }
  assert (Hgpu : eq_str (PStr s) "gpu" = false).
  { apply (existsb_false_In _ _ "gpu" Hs). right. left. reflexivity. }
  apply (calculate_congr s).
  - apply count_components_skip. exact Hc.
  - apply table_keys_not. exact Hs.
  - intros t. rewrite (of_category_skip "cpu" c _ l1 l2 Hc Hcpu). reflexivity.
  - apply (of_category_skip "gpu" c _ l1 l2 Hc Hgpu).
Qed.

(** X17. Only the first CPU counts: a further CPU record after it, whatever
    it holds (even without specs), changes neither the report nor the
    exception raised. *)
Theorem calculate_first_cpu_only (l1 l2 : list dict) (c first : dict)
        (more : list dict) :
  of_category "cpu" l1 = Ok (first :: more) ->
  dict_get c "category" = Some (PStr "cpu") ->
  calculate_power_consumption (l1 ++ c :: l2)
  = calculate_power_consumption (l1 ++ l2).
Proof.
  intros Hl1 Hc. apply (calculate_congr "cpu").
  - apply count_components_skip. exact Hc.
  - intros k e Hin. unfold COMPONENT_POWER_ESTIMATES in Hin. cbn [In] in Hin.
    repeat (destruct Hin as [Hin | Hin];
            [injection Hin as <- _; discriminate | ]).
    destruct Hin.
  - intros t. rewrite !of_category_app, Hl1. cbn [bind of_category].
    rewrite (dict_item_Some _ _ _ Hc). cbn [bind].
    destruct (of_category "cpu" l2); reflexivity.
  - apply (of_category_skip "gpu" c (PStr "cpu") l1 l2 Hc). reflexivity.
Qed.

Lemma count_of_cons (k : string) (c : dict) (l : list dict) :
  count_of k (c :: l) = (if category_is k c then 1 else 0) + count_of k l.
Proof.
  unfold count_of. cbn [filter]. destruct (category_is k c); cbn [List.length];
    lia.
Qed.

Lemma count_of_nonneg (k : string) (l : list dict) : 0 <= count_of k l.
Proof. unfold count_of. lia. Qed.

Lemma count_components_texts (config_list : list dict) :
  forallb has_text_category config_list = true ->
  forall counts, exists counts',
    count_components config_list counts = Ok counts'
    /\ forall k,
         counts_get counts' (PStr k)
         = if count_of k config_list =? 0 then counts_get counts (PStr k)
           else Some (match counts_get counts (PStr k) with
                      | Some n => n
                      | None => 0
                      end + count_of k config_list).
Proof.
  induction config_list as [|c rest IH]; intros Hall counts.
  - exists counts. split; reflexivity.
  - cbn [forallb] in Hall. apply andb_true_iff in Hall as [Hc Hrest].
    unfold has_text_category in Hc.
    destruct (dict_get c "category") as [[| | | |s| |]|] eqn:Ec;
      try discriminate Hc.
    cbn [count_components]. rewrite (dict_item_Some _ _ _ Ec).
    cbn [bind hashable].
    destruct (IH Hrest (counts_set counts (PStr s)
                          (match counts_get counts (PStr s) with
                           | Some n => n
                           | None => 0
                           end + 1))) as (counts' & Hrun & Hget).
    exists counts'. split; [exact Hrun | ].
    intros k. rewrite Hget, counts_get_set_str, count_of_cons.
    unfold category_is. rewrite Ec. cbn [eq_str].
    pose proof (count_of_nonneg k rest) as Hn.
    destruct (String.eqb s k) eqn:E.
    + apply String.eqb_eq in E. subst k.
      destruct (Z.eqb_spec (count_of s rest) 0) as [H0 | H0];
        destruct (Z.eqb_spec (1 + count_of s rest) 0); try lia;
        f_equal; lia.
    + rewrite Z.add_0_l. reflexivity.
Qed.

Lemma of_category_filter (cat : string) (config_list : list dict) :
  forallb has_text_category config_list = true ->
  of_category cat config_list = Ok (filter (category_is cat) config_list).
Proof.
  induction config_list as [|c rest IH]; intros Hall; [reflexivity | ].
  cbn [forallb] in Hall. apply andb_true_iff in Hall as [Hc Hrest].
  unfold has_text_category in Hc.
  destruct (dict_get c "category") as [[| | | |s| |]|] eqn:Ec;
    try discriminate Hc.
  cbn [of_category filter]. rewrite (dict_item_Some _ _ _ Ec), (IH Hrest).
  unfold category_is. rewrite Ec. reflexivity.
Qed.

Lemma count_of_zero (cat : string) (config_list : list dict) :
  count_of cat config_list = 0 -> filter (category_is cat) config_list = [].
Proof.
  unfold count_of. destruct (filter (category_is cat) config_list);
    [reflexivity | cbn [List.length]; lia].
Qed.

Lemma add_others_integers (counts : list (pyval * Z))
      (estimates : list (string * Z)) :
  NoDup (map fst estimates) ->
  forall (total : Z) (entries : list (string * num)),
  (forall k, In k (map fst estimates) -> dict_get entries k = None) ->
  add_others {| total_power := NInt total; breakdown := entries |}
             counts estimates
  = Ok {| total_power :=
            NInt (total
                  + fold_right
                      (fun '(k, estimate) acc =>
                         estimate * match counts_get counts (PStr k) with
                                    | Some n => n
                                    | None => 0
                                    end + acc) 0 estimates);
          breakdown :=
            (entries
             ++ flat_map
                  (fun '(k, estimate) =>
                     match counts_get counts (PStr k) with
                     | Some n => [(k, NInt (estimate * n))]
                     | None => []
                     end) estimates)%list |}.
Proof.
  induction estimates as [|[k e] rest IH]; intros Hnd total entries Hfresh.
  - cbn [add_others fold_right flat_map]. rewrite Z.add_0_r, app_nil_r.
    reflexivity.
  - cbn [map fst] in Hnd. inversion Hnd as [|? ? Hnotin Hnd']; subst.
    cbn [add_others fold_right flat_map].
    destruct (counts_get counts (PStr k)) as [n|].
    + unfold add_power. cbn [total_power breakdown num_add bind].
      rewrite (dict_set_fresh entries k _ (Hfresh k (or_introl eq_refl))).
      rewrite (IH Hnd').
      * rewrite <- app_assoc. cbn [app]. do 3 f_equal. lia.
      * intros k' Hin. apply dict_get_app_fresh.
        -- intros ->. contradiction.
        -- apply Hfresh. right. exact Hin.
    + rewrite (IH Hnd').
      * cbn [app]. do 3 f_equal. lia.
      * intros k' Hin. apply Hfresh. right. exact Hin.
Qed.

Lemma table_of_counts (counts : list (pyval * Z)) (count : string -> Z)
      (estimates : list (string * Z)) :
  (forall k, counts_get counts (PStr k)
             = if count k =? 0 then counts_get [] (PStr k)
               else Some (match counts_get [] (PStr k) with
                          | Some n => n
                          | None => 0
                          end + count k)) ->
  fold_right (fun '(k, estimate) acc =>
                estimate * match counts_get counts (PStr k) with
                           | Some n => n
                           | None => 0
                           end + acc) 0 estimates
  = fold_right (fun '(k, estimate) acc => estimate * count k + acc) 0 estimates
  /\ flat_map (fun '(k, estimate) =>
                 match counts_get counts (PStr k) with
                 | Some n => [(k, NInt (estimate * n))]
                 | None => []
                 end) estimates
     = flat_map (fun '(k, estimate) =>
                   if count k =? 0 then []
                   else [(k, NInt (estimate * count k))]) estimates.
Proof.
  intros Hget. induction estimates as [|[k e] rest [IH1 IH2]];
    [split; reflexivity | ].
  cbn [fold_right flat_map]. rewrite IH1, IH2, Hget. cbn [counts_get].
  destruct (Z.eqb_spec (count k) 0) as [E | E].
  - rewrite E. split; reflexivity.
  - rewrite Z.add_0_l. split; reflexivity.
Qed.

(** X18. A configuration without CPU and GPU whose categories are all texts,
    worth at most 10000 W by the table: the function returns, the estimate is
    exactly the table's [estimate * count] summed over its rows, the
    breakdown lists the rows that occur in the table's order, and the
    recommended wattage covers the estimate, is 450 W up to an estimate of
    375 W, and is one of the usual wattages or a multiple of 100. *)
Theorem calculate_table_only (config_list : list dict) :
  forallb has_text_category config_list = true ->
  count_of "cpu" config_list = 0 ->
  count_of "gpu" config_list = 0 ->
  table_total config_list <= 10000 ->
  exists wattage,
    calculate_power_consumption config_list
    = Ok {| total_power_estimate := table_total config_list;
            recommended_psu_wattage := wattage;
            component_breakdown := table_breakdown config_list |}
    /\ table_total config_list <= wattage
    /\ (table_total config_list <= 375 -> wattage = 450)
    /\ (In wattage common_psu_wattages \/ wattage mod 100 = 0).
Proof.
  intros Hall Hcpu Hgpu Hbound.
  destruct (count_components_texts config_list Hall [])
    as (counts & Hcount & Hget).
  assert (Hothers :
            add_others {| total_power := NInt 0; breakdown := [] |} counts
                       COMPONENT_POWER_ESTIMATES
            = Ok {| total_power := NInt (table_total config_list);
                    breakdown := table_breakdown config_list |}).
  { rewrite add_others_integers.
    - destruct (table_of_counts counts (fun k => count_of k config_list)
                                COMPONENT_POWER_ESTIMATES Hget) as [-> ->].
      reflexivity.
    - unfold COMPONENT_POWER_ESTIMATES. cbn [map fst].
      repeat constructor; cbn [In]; intros H;
        repeat (destruct H as [H | H]; [discriminate H | ]); exact H.
    - reflexivity. }
  assert (Hnonneg : 0 <= table_total config_list).
  { unfold table_total, COMPONENT_POWER_ESTIMATES. cbn [fold_right].
    pose proof (count_of_nonneg "motherboard" config_list).
    pose proof (count_of_nonneg "ram" config_list).
    pose proof (count_of_nonneg "ssd" config_list).
    pose proof (count_of_nonneg "hdd" config_list).
    pose proof (count_of_nonneg "cooling" config_list).
    pose proof (count_of_nonneg "other" config_list). lia. }
  assert (Hall' : forall_range recommendation_covers 0 10001 = true)
    by (vm_compute; reflexivity).
  pose proof (forall_range_sound _ _ _ Hall' (table_total config_list)
                                 ltac:(lia)) as Hrec.
  unfold recommendation_covers in Hrec.
  destruct (recommended_for (table_total config_list)) as [w|] eqn:Ew;
    [ | discriminate Hrec ].
  apply andb_true_iff in Hrec as [Hrec H3].
  apply andb_true_iff in Hrec as [H1 H2].
  exists w. split; [ | split; [ | split ] ].
  - unfold calculate_power_consumption. rewrite Hcount. cbn [bind].
    rewrite !(of_category_filter _ _ Hall).
    rewrite (count_of_zero _ _ Hcpu), (count_of_zero _ _ Hgpu).
    cbn [bind add_cpu add_gpus]. rewrite Hothers.
    cbn [bind total_power breakdown num_round].
    unfold recommended_for in Ew.
    destruct (num_mul_float (NInt (table_total config_list)) _) as [scaled|];
      cbn [bind] in Ew |- *; [ | discriminate Ew ].
    destruct (round_float scaled) as [r|]; cbn [bind] in Ew |- *;
      [ | discriminate Ew ].
    rewrite Ew. reflexivity.
  - apply Z.leb_le. exact H1.
  - intros Hsmall. apply Z.leb_le in Hsmall. rewrite Hsmall in H2.
    apply Z.eqb_eq. exact H2.
  - apply orb_true_iff in H3 as [H3 | H3].
    + left. apply existsb_exists in H3 as (x & Hin & Ex).
      apply Z.eqb_eq in Ex. subst x. exact Hin.
    + right. apply Z.eqb_eq. exact H3.
Qed.

(** X19. Two GPUs of the same model share one key of the breakdown: both
    powers go into the total, but the breakdown keeps only the second one's
    entry, at the place that key had or would have had. *)
Theorem add_gpus_same_model (t t2 : totals) (gpu1 gpu2 : dict) :
  dict_get gpu1 "model" = dict_get gpu2 "model" ->
  add_gpus t [gpu1; gpu2] = Ok t2 ->
  exists model power1 power2 total1,
    dict_get gpu2 "model" = Some model
    /\ (base <- gpu_base_power gpu1 ;; py_mul_float base 1.15%float)
       = Ok power1
    /\ (base <- gpu_base_power gpu2 ;; py_mul_float base 1.15%float)
       = Ok power2
    /\ num_add (total_power t) (NFloat power1) = Ok total1
    /\ num_add total1 (NFloat power2) = Ok (total_power t2)
    /\ breakdown t2
       = dict_set (breakdown t) ("gpu_" ++ py_str model) (NFloat power2).
Proof.
  intros Hmodel Hrun. cbn [add_gpus] in Hrun.
  unfold add_gpu, dict_item in Hrun. rewrite Hmodel in Hrun.
  destruct (gpu_base_power gpu1) as [base1|]; cbn [bind] in Hrun;
    [ | discriminate Hrun ].
  destruct (py_mul_float base1 1.15%float) as [power1|] eqn:E1;
    cbn [bind] in Hrun; [ | discriminate Hrun ].
  destruct (num_add (total_power t) (NFloat power1)) as [total1|] eqn:A1;
    cbn [bind] in Hrun; [ | discriminate Hrun ].
  destruct (dict_get gpu2 "model") as [model|]; cbn [bind] in Hrun;
    [ | discriminate Hrun ].
  cbn [total_power breakdown] in Hrun.
  destruct (gpu_base_power gpu2) as [base2|]; cbn [bind] in Hrun;
    [ | discriminate Hrun ].
  destruct (py_mul_float base2 1.15%float) as [power2|] eqn:E2;
    cbn [bind] in Hrun; [ | discriminate Hrun ].
  destruct (num_add total1 (NFloat power2)) as [total2|] eqn:A2;
    cbn [bind] in Hrun; [ | discriminate Hrun ].
  injection Hrun as <-. cbn [total_power breakdown bind].
  exists model, power1, power2, total1. rewrite dict_set_twice.
  split; [reflexivity | ]. split; [exact E1 | ]. split; [exact E2 | ].
  split; [exact A1 | ]. split; [exact A2 | reflexivity].
Qed.
End EstimatorProperties.

(** ** Keys joined by a separator *)

Lemma free_of_joined (c : ascii) (a b : string) :
  free_of c (a ++ String c b) = false.
Proof.
  unfold free_of. induction a as [|x a IH]; cbn [append string_forallb].
  - rewrite Ascii.eqb_refl. reflexivity.
  - rewrite IH. apply andb_false_r.
Qed.

Lemma joined_inj (c : ascii) (x y : string) :
  free_of c x = true -> free_of c y = true ->
  forall a b, x ++ String c y = a ++ String c b -> x = a /\ y = b.
Proof.
  intros Hx Hy. induction x as [|x0 x IH]; intros a b E.
  - destruct a as [|a0 a]; cbn [append] in E.
    + injection E as ->. split; reflexivity.
    + injection E as <- ->. rewrite free_of_joined in Hy. discriminate Hy.
  - unfold free_of in Hx. cbn [string_forallb] in Hx.
    apply andb_true_iff in Hx as [Hx0 Hx].
    destruct a as [|a0 a]; cbn [append] in E.
    + injection E as -> _. rewrite Ascii.eqb_refl in Hx0. discriminate Hx0.
    + injection E as <- E. destruct (IH Hx a b E) as [-> ->].
      split; reflexivity.
Qed.

Lemma eqb_joined (c : ascii) (x y a b : string) :
  free_of c x = true -> free_of c y = true ->
  String.eqb (x ++ String c y) (a ++ String c b)
  = String.eqb x a && String.eqb y b.
Proof.
  intros Hx Hy.
  destruct (String.eqb_spec (x ++ String c y) (a ++ String c b)) as [E|E].
  - destruct (joined_inj c x y Hx Hy a b E) as [-> ->].
    rewrite !String.eqb_refl. reflexivity.
  - destruct (String.eqb_spec x a) as [->|]; [ | reflexivity ].
    destruct (String.eqb_spec y b) as [->|]; [ | reflexivity ].
    contradiction E. reflexivity.
Qed.

Lemma is_substring_joined (c : ascii) (a b : string) :
  is_substring (String c "") (a ++ String c b) = true.
Proof.
  induction a as [|x a IH]; cbn [append is_substring String.prefix].
  - destruct (ascii_dec c c) as [_|Hc]; [ | contradiction Hc; reflexivity ].
    destruct b; reflexivity.
  - rewrite IH. apply orb_true_r.
Qed.

Lemma is_substring_free_of (c : ascii) (s : string) :
  free_of c s = true -> is_substring (String c "") s = false.
Proof.
  unfold free_of. induction s as [|x s IH]; cbn [string_forallb is_substring];
    [reflexivity | ].
  intros E. apply andb_true_iff in E as [Ex Es]. rewrite (IH Es), orb_false_r.
  cbn [String.prefix]. destruct (ascii_dec c x) as [<-|]; [ | reflexivity ].
  rewrite Ascii.eqb_refl in Ex. discriminate Ex.
Qed.

Lemma split_on_joined (c : ascii) (a b : string) :
  free_of c a = true ->
  split_on c (a ++ String c b) = a :: split_on c b.
Proof.
  unfold free_of. induction a as [|x a IH];
    cbn [append string_forallb split_on].
  - rewrite Ascii.eqb_refl. reflexivity.
  - intros E. apply andb_true_iff in E as [Ex Es].
    apply negb_true_iff in Ex. rewrite Ex, (IH Es). reflexivity.
Qed.

Section MoreValueMatchProperties.
Context `{B : PyBuiltins}.
Import HardwareQueryTool.

(** X20. The only exception that escapes [_value_matches] is [OverflowError],
    and only for an integer too large for a float: on every other pair of
    values it returns a truth value. *)
Theorem value_matches_only_overflow (actual_value filter_value : pyval) :
  (exists b, _value_matches actual_value filter_value = Ok b)
  \/ (_value_matches actual_value filter_value = Raise OverflowError
      /\ exists n, actual_value = PInt n
                   /\ float_of_int n = Raise OverflowError).
Proof.
  destruct (py_float actual_value) as [x|e] eqn:Ea.
  - left. apply value_matches_returns. rewrite Ea. discriminate.
  - destruct (py_float_raises actual_value e Ea) as [-> | [-> | ->]].
    + left. apply value_matches_returns. rewrite Ea. discriminate.
    + left. apply value_matches_returns. rewrite Ea. discriminate.
    + destruct (py_float_overflow actual_value Ea) as (n & ->).
      assert (Hc : forall op rest,
                 (exists b, compare_with op (PInt n) rest = Ok b)
                 \/ (compare_with op (PInt n) rest = Raise OverflowError
                     /\ exists m, PInt n = PInt m
                                  /\ float_of_int m = Raise OverflowError)).
      { intros op rest. destruct (float_of_string rest) as [t|] eqn:Et.
        - right. split; [exact (compare_with_overflow op _ rest t Et Ea) | ].
          exists n. split; [reflexivity | exact Ea].
        - left. exists false. apply compare_with_bad_threshold. exact Et. }
      unfold _value_matches.
      destruct filter_value as [ | | | |f| | ]; eauto.
      destruct (startswith f ">="); [apply Hc | ].
      destruct (startswith f "<="); [apply Hc | ].
      destruct (startswith f ">"); [apply Hc | ].
      destruct (startswith f "<"); [apply Hc | eauto].
Qed.

Lemma SFleb_or_SFltb (a b : spec_float) :
  a <> S754_nan -> b <> S754_nan -> SFleb a b = false -> SFltb b a = true.
Proof.
  unfold SFleb, SFltb.
  destruct a as [sa|sa| |sa ma ea], b as [sb|sb| |sb mb eb]; simpl;
    intros Ha Hb; try (contradiction Ha; reflexivity);
    try (contradiction Hb; reflexivity);
    try (destruct sa); try (destruct sb); simpl;
    try reflexivity; try discriminate.
  all: pose proof (Z.compare_antisym ea eb) as AZ;
    pose proof (Pos.compare_cont_antisym ma mb Eq) as AP; simpl in AP;
    change PosDef.Pos.compare_cont with Pos.compare_cont;
    destruct (ea ?= eb)%Z; destruct (eb ?= ea)%Z; try discriminate AZ;
    simpl; try reflexivity; try discriminate;
    destruct (Pos.compare_cont Eq ma mb); destruct (Pos.compare_cont Eq mb ma);
    try discriminate AP; simpl; try reflexivity; try discriminate.
Qed.

Lemma is_nan_false (x : float) : is_nan x = false -> Prim2SF x <> S754_nan.
Proof.
  unfold is_nan. rewrite eqb_spec. intros E H. rewrite H in E. discriminate E.
Qed.

(** X21. The filters [>t] and [<=t] on a number part the values in two: no
    value passes both, and unless the value or the threshold is a NaN it
    passes exactly one of them. *)
Theorem value_matches_partition (actual_value : pyval) (t : string)
        (actual threshold : float) :
  py_float actual_value = Ok actual ->
  float_of_string t = Some threshold ->
  startswith t "=" = false ->
  exists above below,
    _value_matches actual_value (PStr (">" ++ t)) = Ok above
    /\ _value_matches actual_value (PStr ("<=" ++ t)) = Ok below
    /\ above && below = false
    /\ (is_nan actual = false -> is_nan threshold = false ->
        above = negb below).
Proof.
  intros Ha Ht Hq.
  exists (PrimFloat.ltb threshold actual), (PrimFloat.leb actual threshold).
  split; [ | split; [ | split ] ].
  - destruct (value_matches_operator actual_value (">" ++ t))
      as (_ & _ & Hgt & _).
    rewrite Hgt.
    + change (drop 1 (">" ++ t)) with t.
      exact (compare_with_parsed (fun a t => PrimFloat.ltb t a) actual_value t
               threshold actual Ht Ha).
    + unfold startswith. destruct t; reflexivity.
    + unfold startswith in *. cbn [append String.prefix].
      destruct (ascii_dec ">" ">") as [_|H]; [exact Hq | reflexivity].
  - destruct (value_matches_operator actual_value ("<=" ++ t))
      as (_ & Hle & _).
    rewrite Hle.
    + change (drop 2 ("<=" ++ t)) with t.
      exact (compare_with_parsed (fun a t => PrimFloat.leb a t) actual_value t
               threshold actual Ht Ha).
    + unfold startswith. destruct t; reflexivity.
  - destruct (PrimFloat.leb actual threshold) eqn:E.
    + rewrite (leb_not_ltb _ _ E). reflexivity.
    + apply andb_false_r.
  - intros Na Nt. destruct (PrimFloat.leb actual threshold) eqn:E.
    + exact (leb_not_ltb _ _ E).
    + rewrite ltb_spec. rewrite leb_spec in E.
      exact (SFleb_or_SFltb _ _ (is_nan_false _ Na) (is_nan_false _ Nt) E).
Qed.

(** X22. A dotted key [a.b] looks [b] up inside the mapping that the specs
    hold under [a]: the item is kept exactly when that value is there, is not
    [None], and matches the filter value. *)
Theorem apply_spec_filters_dotted_key (item specs inner : dict) (a b : string)
        (value : pyval) :
  dict_get item "specs" = Some (PDict specs) ->
  dict_get specs a = Some (PDict inner) ->
  free_of "." a = true -> free_of "." b = true ->
  _apply_spec_filters [item] [(a ++ "." ++ b, value)]
  = match dict_get inner b with
    | None | Some PNone => Ok []
    | Some found =>
        m <- _value_matches found value ;; Ok (if m then [item] else [])
    end.
Proof.
  intros Hs Ha Fa Fb.
  cbn [_apply_spec_filters item_matches bind]. unfold filter_passes.
  assert (Hsql : existsb (String.eqb (a ++ "." ++ b))
                         ["brand"; "min_price"; "max_price"] = false).
  { cbn [existsb].
    assert (Hne : forall k, free_of "." k = true ->
                            String.eqb (a ++ "." ++ b) k = false).
    { intros k Hk. apply String.eqb_neq. intros E.
      pose proof (is_substring_joined "." a b) as H1.
      change (String "." b) with ("." ++ b) in H1. rewrite E in H1.
      rewrite (is_substring_free_of "." k Hk) in H1. discriminate H1. }
    rewrite !Hne; reflexivity. }
  rewrite Hsql.
  change ("." ++ b) with (String "." b).
  rewrite (is_substring_joined "." a b), (dict_item_Some _ _ _ Hs).
  cbn [bind]. rewrite (split_on_joined "." a b Fa).
  rewrite (split_on_no_separator b (is_substring_free_of "." b Fb)).
  cbn [descend py_contains py_getitem bind].
  rewrite (dict_mem_Some _ _ _ Ha), (dict_item_Some _ _ _ Ha).
  cbn [bind py_contains py_getitem]. unfold dict_mem, dict_item.
  destruct (dict_get inner b) as [found|]; cbn [bind]; [ | reflexivity ].
  destruct found; cbn [bind]; try reflexivity;
    match goal with
    | |- context [_value_matches ?v value] =>
        destruct (_value_matches v value) as [[|]|]; reflexivity
    end.
Qed.
End MoreValueMatchProperties.

Section RuleTable.
Context `{B : PyBuiltins} `{Adj : Adjudicator}.
Import CompatibilityChecker.

Lemma rules_is_rule_pair (cat_a cat_b : string) :
  dict_mem (rules compatibility_checker)
           (check_type_of (PStr cat_a) (PStr cat_b))
  = is_rule_pair cat_a cat_b.
Proof.
  unfold dict_mem, compatibility_checker, __init__, check_type_of, is_rule_pair,
    rule_pairs.
  cbn [rules dict_get existsb py_str].
  change ("_" ++ cat_b) with (String "_" cat_b).
  change "cpu_motherboard" with ("cpu" ++ String "_" "motherboard").
  change "motherboard_ram" with ("motherboard" ++ String "_" "ram").
  change "motherboard_case" with ("motherboard" ++ String "_" "case").
  change "gpu_case" with ("gpu" ++ String "_" "case").
  change "gpu_power" with ("gpu" ++ String "_" "power").
  change "power_motherboard" with ("power" ++ String "_" "motherboard").
  rewrite !(eqb_joined "_") by reflexivity.
  repeat match goal with
         | |- context [String.eqb ?x cat_a && String.eqb ?y cat_b] =>
             destruct (String.eqb x cat_a && String.eqb y cat_b);
             [reflexivity | ]
         end.
  reflexivity.
Qed.

(** X23. The rules are keyed by the ordered pair of the two categories: for
    text categories a rule is consulted exactly for the six pairs of
    [__init__], in that order of the arguments; every other pair, the six
    pairs reversed among them, goes straight to the adjudicator. *)
Theorem check_compatibility_ordered_pairs (a b : dict) (cat_a cat_b : string) :
  dict_get a "category" = Some (PStr cat_a) ->
  dict_get b "category" = Some (PStr cat_b) ->
  (is_rule_pair cat_a cat_b = false ->
   check_compatibility compatibility_checker a b = _check_with_llm a b)
  /\ (is_rule_pair cat_a cat_b = true ->
      exists rule_fn,
        dict_get (rules compatibility_checker)
                 (check_type_of (PStr cat_a) (PStr cat_b)) = Some rule_fn
        /\ check_compatibility compatibility_checker a b
           = ('(compatible, message, confidence) <- rule_fn a b ;;
              if PrimFloat.ltb 0.8 confidence then
                Ok (verdict_of_rule (compatible, message, confidence))
              else _check_with_llm a b)).
Proof.
  intros Ha Hb.
  rewrite (check_compatibility_dispatch _ a b _ _ Ha Hb).
  pose proof (rules_is_rule_pair cat_a cat_b) as Hmem. unfold dict_mem in Hmem.
  destruct (dict_get (rules compatibility_checker)
                     (check_type_of (PStr cat_a) (PStr cat_b))) as [rule_fn|].
  - split; intros E; rewrite E in Hmem; [discriminate Hmem | ].
    exists rule_fn. split; reflexivity.
  - split; intros E; rewrite E in Hmem; [reflexivity | discriminate Hmem].
Qed.
End RuleTable.

(** ** Examples of the further properties *)

Module MoreExamples.
Import HardwareQueryTool CompatibilityChecker PowerConsumption.

Lemma apply_spec_filters_sql_only_witness :
  @_apply_spec_filters example_builtins
    [cpu_with_cores 8; example_ram] storage_filters
  = Ok [cpu_with_cores 8; example_ram].
Proof.
  apply (@apply_spec_filters_sql_only example_builtins).
  repeat constructor.
Defined.

Lemma apply_spec_filters_selects_witness :
  [cpu_with_cores 8]
  = filter (@kept_by example_builtins core_filters)
           [cpu_with_cores 8; cpu_with_cores 4; cpu_without_socket]
  /\ (1 <= 3)%nat
  /\ Forall (fun item =>
               In item [cpu_with_cores 8; cpu_with_cores 4; cpu_without_socket]
               /\ @item_matches example_builtins item core_filters = Ok true)
            [cpu_with_cores 8].
Proof.
  exact (@apply_spec_filters_selects example_builtins
           [cpu_with_cores 8; cpu_with_cores 4; cpu_without_socket]
           core_filters [cpu_with_cores 8] eq_refl).
Defined.

Lemma apply_spec_filters_app_witness :
  exists first_pass,
    @_apply_spec_filters example_builtins
      [cpu_with_cores 8; cpu_with_cores 4; cpu_without_socket]
      [("brand", PStr "Intel")] = Ok first_pass
    /\ @_apply_spec_filters example_builtins first_pass
         [("core_count", PStr ">=6")] = Ok [cpu_with_cores 8].
Proof.
  exact (proj1 (@apply_spec_filters_app example_builtins
                  [cpu_with_cores 8; cpu_with_cores 4; cpu_without_socket]
                  [("brand", PStr "Intel")] [("core_count", PStr ">=6")]
                  [cpu_with_cores 8]) eq_refl).
Defined.

Lemma apply_spec_filters_absent_key_witness :
  @_apply_spec_filters example_builtins
    [cpu_with_cores 8; cpu_with_cores 4; cpu_without_socket] core_filters
  = Ok [cpu_with_cores 8]
  /\ ~ In cpu_without_socket [cpu_with_cores 8].
Proof.
  split; [reflexivity | ].
  exact (@apply_spec_filters_absent_key example_builtins
           [cpu_with_cores 8; cpu_with_cores 4; cpu_without_socket]
           core_filters [cpu_with_cores 8] cpu_without_socket
           [("tdp", PInt 65)] "core_count" (PStr ">=6")
           eq_refl (or_intror (or_introl eq_refl)) eq_refl eq_refl eq_refl).
Defined.

Lemma check_gpu_case_never_raises_witness :
  @_check_gpu_case example_builtins example_ram case_microatx
  = Ok (None, "尺寸信息不完整", 0.5%float).
Proof.
  exact (proj2 (@check_gpu_case_never_raises example_builtins
                  example_ram case_microatx) (or_introl eq_refl)).
Defined.

Lemma check_compatibility_local_verdicts_witness :
  @_check_with_llm example_builtins simulated_adjudicator
     cpu_lga1700 motherboard_lga1700
  = Ok (PBool true, PStr "兼容: CPU插槽(LGA 1700)与主板插槽匹配", PFloat 1.0%float)
  \/ exists compatible message confidence,
       (PBool true, PStr "兼容: CPU插槽(LGA 1700)与主板插槽匹配", PFloat 1.0%float)
       = (PBool compatible, PStr message, PFloat confidence)
       /\ (confidence = 0.9%float \/ confidence = 1.0%float).
Proof.
  exact (@check_compatibility_local_verdicts example_builtins
           simulated_adjudicator cpu_lga1700 motherboard_lga1700 _ eq_refl).
Defined.

Lemma check_with_llm_missing_field_witness :
  @_check_with_llm example_builtins simulated_adjudicator
     example_cpu motherboard_lga1700
  = Raise (KeyError "name").
Proof.
  exact (@check_with_llm_missing_field example_builtins simulated_adjudicator
           example_cpu motherboard_lga1700 "name" (or_introl eq_refl)).
Defined.

Lemma check_compatibility_simulated_witness :
  simulated_check source_checker cpu_without_socket motherboard_lga1700
  = Ok (PBool true, PStr "基于LLM分析的兼容性原因", PFloat 0.7%float).
Proof.
  exact (@check_compatibility_simulated example_builtins source_checker
           cpu_without_socket motherboard_lga1700 _ eq_refl
           (Examples.escalates_without_socket simulated_adjudicator) eq_refl).
Defined.

Lemma check_gpu_power_integers_witness :
  exists message,
    @_check_gpu_power example_builtins (gpu_650w "gpu") (psu_750w "power")
    = Ok (Some ((650 <=? 750) && (1 <=? 2)), message, 0.9%float)
    /\ ((650 <=? 750) && (1 <=? 2) = true -> message = "电源满足需求").
Proof.
  apply (proj2 (@check_gpu_power_integers example_builtins
                  (gpu_650w "gpu") (psu_750w "power") 650 750 2 1
                  eq_refl eq_refl eq_refl eq_refl)); discriminate.
Defined.

(** A full-size ATX board passes for a case that lists MicroATX only: the
    rule looks for the form factor as a piece of text. *)
Lemma check_motherboard_case_texts_witness :
  _check_motherboard_case motherboard_atx case_microatx
  = Ok (Some true, "兼容: ATX主板可安装于此机箱。", 1.0%float).
Proof.
  apply (proj2 (check_motherboard_case_texts
                  motherboard_atx case_microatx "ATX" "MicroATX, Mini-ITX"
                  eq_refl eq_refl eq_refl eq_refl)); discriminate.
Defined.

Lemma check_power_motherboard_texts_witness :
  @_check_power_motherboard example_builtins psu_24pin motherboard_atx
  = Ok (Some true, "主板24-Pin供电接口匹配", 1.0%float).
Proof.
  apply (proj2 (@check_power_motherboard_texts example_builtins
                  psu_24pin motherboard_atx "24-Pin" "24-pin"
                  eq_refl eq_refl eq_refl eq_refl)); discriminate.
Defined.

Lemma check_motherboard_memory_texts_witness :
  exists mem_type message,
    search_ddr (lower "DDR5-6000") = Some mem_type
    /\ is_ddr_token mem_type = true
    /\ @_check_motherboard_memory example_builtins motherboard_atx ram_ddr5
       = Ok (if is_substring mem_type (lower "DDR4, DDR5")
             then (Some true, "兼容: 主板支持" ++ upper mem_type ++ "内存",
                   1.0%float)
             else (Some false, message, 0.9%float)).
Proof.
  exact (proj2 (@check_motherboard_memory_texts example_builtins
                  motherboard_atx ram_ddr5 "DDR4, DDR5" "DDR5-6000"
                  eq_refl eq_refl) eq_refl eq_refl).
Defined.

Lemma normalized_socket_normal_form_witness :
  normalized_socket (upper "lga 1700") = normalized_socket "lga 1700"
  /\ normalized_socket ("LGA" ++ String " " "1700")
     = normalized_socket ("LGA" ++ "1700").
Proof.
  pose proof (normalized_socket_normal_form "lga 1700" "" " "
                eq_refl eq_refl eq_refl)
    as (_ & _ & Hupper & _ & _).
  pose proof (normalized_socket_normal_form "LGA" "1700" " "
                eq_refl eq_refl eq_refl)
    as (_ & _ & _ & Hinsert & _).
  split; [exact Hupper | exact (Hinsert eq_refl)].
Defined.

Lemma round_to_common_least_witness :
  exists wattage,
    round_to_common 700 common_psu_wattages = Ok wattage
    /\ In wattage common_psu_wattages
    /\ 700 <= wattage
    /\ forall other, In other common_psu_wattages -> 700 <= other ->
                     wattage <= other.
Proof. apply (round_to_common_least 700). discriminate. Defined.

(** A requirement of 1549 W is answered with 1500 W. *)
Lemma round_to_common_beyond_witness :
  round_to_common 1549 common_psu_wattages = Ok 1500
  /\ exists wattage,
       round_to_common 1549 common_psu_wattages = Ok wattage
       /\ wattage mod 100 = 0
       /\ Z.abs (1549 - wattage) <= 50
       /\ (Z.abs (1549 - wattage) = 50 -> Z.even (wattage / 100) = true).
Proof.
  split; [reflexivity | ].
  apply (round_to_common_beyond 1549). split; [reflexivity | discriminate].
Defined.

Lemma calculate_ignores_other_categories_witness :
  @calculate_power_consumption example_builtins
    ([example_cpu] ++ psu_750w "psu" :: [example_ram])
  = @calculate_power_consumption example_builtins
      ([example_cpu] ++ [example_ram]).
Proof.
  exact (@calculate_ignores_other_categories example_builtins
           [example_cpu] [example_ram] (psu_750w "psu") "psu"
           eq_refl eq_refl).
Defined.

Lemma calculate_first_cpu_only_witness :
  @calculate_power_consumption example_builtins
    ([example_cpu] ++ [("category", PStr "cpu")] :: [example_ram])
  = @calculate_power_consumption example_builtins
      ([example_cpu] ++ [example_ram]).
Proof.
  exact (@calculate_first_cpu_only example_builtins
           [example_cpu] [example_ram] [("category", PStr "cpu")]
           example_cpu [] eq_refl eq_refl).
Defined.

Lemma calculate_table_only_witness :
  exists wattage,
    @calculate_power_consumption example_builtins table_config
    = Ok {| total_power_estimate := table_total table_config;
            recommended_psu_wattage := wattage;
            component_breakdown := table_breakdown table_config |}
    /\ table_total table_config <= wattage
    /\ (table_total table_config <= 375 -> wattage = 450)
    /\ (In wattage common_psu_wattages \/ wattage mod 100 = 0).
Proof.
  apply (@calculate_table_only example_builtins table_config);
    [reflexivity | reflexivity | reflexivity | discriminate].
Defined.

Lemma add_gpus_same_model_witness :
  exists model power1 power2 total1,
    dict_get gpu_with_tdp "model" = Some model
    /\ (base <- @gpu_base_power example_builtins gpu_with_tdp ;;
        py_mul_float base 1.15%float) = Ok power1
    /\ (base <- @gpu_base_power example_builtins gpu_with_tdp ;;
        py_mul_float base 1.15%float) = Ok power2
    /\ num_add (NInt 0) (NFloat power1) = Ok total1
    /\ num_add total1 (NFloat power2) = Ok (NFloat 459.99999999999994%float)
    /\ [("gpu_RTX 4070", NFloat 229.99999999999997%float)]
       = dict_set [] ("gpu_" ++ @py_str example_builtins model)
                  (NFloat power2).
Proof.
  exact (@add_gpus_same_model example_builtins
           {| total_power := NInt 0; breakdown := [] |}
           {| total_power := NFloat 459.99999999999994%float;
              breakdown := [("gpu_RTX 4070", NFloat 229.99999999999997%float)] |}
           gpu_with_tdp gpu_with_tdp eq_refl eq_refl).
Defined.

Lemma value_matches_partition_witness :
  exists above below,
    @_value_matches example_builtins (PInt 8) (PStr (">" ++ "6")) = Ok above
    /\ @_value_matches example_builtins (PInt 8) (PStr ("<=" ++ "6")) = Ok below
    /\ above && below = false
    /\ (is_nan 8%float = false -> is_nan 6%float = false -> above = negb below).
Proof.
  exact (@value_matches_partition example_builtins (PInt 8) "6" 8%float 6%float
           eq_refl eq_refl eq_refl).
Defined.

Lemma apply_spec_filters_dotted_key_witness :
  @_apply_spec_filters example_builtins [cpu_with_nested_benchmarks]
    [("benchmarks" ++ "." ++ "cinebench_r23_single", PStr ">=1000")]
  = Ok [cpu_with_nested_benchmarks].
Proof.
  exact (@apply_spec_filters_dotted_key example_builtins
           cpu_with_nested_benchmarks
           [("benchmarks", PDict [("cinebench_r23_single", PInt 1500)])]
           [("cinebench_r23_single", PInt 1500)]
           "benchmarks" "cinebench_r23_single" (PStr ">=1000")
           eq_refl eq_refl eq_refl eq_refl).
Defined.

(** The socket rule is not consulted when the motherboard comes first. *)
Lemma check_compatibility_ordered_pairs_witness :
  simulated_check source_checker motherboard_lga1700 cpu_lga1700
  = @_check_with_llm example_builtins simulated_adjudicator
      motherboard_lga1700 cpu_lga1700.
Proof.
  exact (proj1 (@check_compatibility_ordered_pairs example_builtins
                  simulated_adjudicator motherboard_lga1700 cpu_lga1700
                  "motherboard" "cpu" eq_refl eq_refl) eq_refl).
Defined.
End MoreExamples.
